(** * Token lifecycle of the EasyGenerator authentication API

    A shallow embedding of the NestJS back end: environment validation
    ([config/validation.schema.ts], [config/configuration.ts]), the users
    service, the auth service, the two JWT passport strategies and the auth
    controller, with the parts of jsonwebtoken and of the [ms] package they
    run through, followed by the properties of the token lifecycle. *)

From Stdlib Require Import ZArith QArith Qround String Ascii List Bool Lia.
From stdpp Require Import base option strings gmap.

Local Open Scope string_scope.
Local Open Scope Z_scope.

(** ** Exceptions and results *)

(** The exception classes the back end throws.  [HttpException] is the base
    class built with an explicit status; the three subclasses fix their
    status; [Error] stands for every error that is not an HTTP exception
    (a driver error, a cast error, a plain [Error]). *)
Inductive Exception : Type :=
  | HttpException (response : string) (status : Z)
  | UnauthorizedException (message : option string)
  | NotFoundException (message : string)
  | ConflictException (message : string)
  | Error (message : string).

Definition getStatus (e : Exception) : option Z :=
  match e with
  | HttpException _ st => Some st
  | UnauthorizedException _ => Some 401
  | NotFoundException _ => Some 404
  | ConflictException _ => Some 409
  | Error _ => None
  end.

Definition getMessage (e : Exception) : string :=
  match e with
  | HttpException m _ => m
  | UnauthorizedException m => default "Unauthorized" m
  | NotFoundException m => m
  | ConflictException m => m
  | Error m => m
  end.

Definition UNAUTHORIZED : Z := 401.

Definition isUnauthorized (e : Exception) : Prop := getStatus e = Some UNAUTHORIZED.

(** A computation either returns or throws. *)
Inductive Result (A : Type) : Type :=
  | Ok (a : A)
  | Throw (e : Exception).
Arguments Ok {A} a.
Arguments Throw {A} e.

Definition bind {A B} (r : Result A) (k : A -> Result B) : Result B :=
  match r with
  | Ok a => k a
  | Throw e => Throw e
  end.

(** [try { body } catch { handler }] with a handler that ignores the error. *)
Definition tryCatch {A} (body : Result A) (handler : Result A) : Result A :=
  match body with
  | Ok a => Ok a
  | Throw _ => handler
  end.

#[export] Instance Result_bind : MBind Result := fun A B k r => bind r k.

(** JavaScript truthiness of a string, and [a || b] on possibly missing
    strings. *)
Definition truthy (s : string) : bool := negb (String.eqb s "").

Definition orElse (v : option string) (d : string) : string :=
  match v with
  | Some s => if truthy s then s else d
  | None => d
  end.

(** ** Strings and numbers

    A string is its sequence of code units, one character each; the code
    units of this model are those below 256.  A number is an IEEE 754
    binary64 value. *)

(** The upper-case letters below 256 are A-Z, the letters from A with grave
    to O with diaeresis (192-214) and from O with stroke to thorn (216-222);
    each lies 32 below its lower-case form, and no other character of the
    range has a different lower-case form. *)
Definition lowerChar (c : ascii) : ascii :=
  let n := nat_of_ascii c in
  if ((65 <=? n)%nat && (n <=? 90)%nat)
     || ((192 <=? n)%nat && (n <=? 214)%nat)
     || ((216 <=? n)%nat && (n <=? 222)%nat)
  then ascii_of_nat (n + 32) else c.

(** [String.prototype.toLowerCase] *)
Fixpoint toLowerCase (s : string) : string :=
  match s with
  | EmptyString => EmptyString
  | String c rest => String (lowerChar c) (toLowerCase rest)
  end.

(** The finite binary64 values are rationals.  An arithmetic operation
    computes the exact result and rounds it to the nearest value with 53
    significant bits, ties to the even significand; the least exponent is
    -1074.  Magnitudes from 2^1024 on, which round to Infinity, do not occur:
    the numbers below come from time strings of at most 100 characters and
    from the clock. *)
Module Double.

(** The integer nearest to [p / q], for [q > 0]; of two equally near ones,
    the even one. *)
Definition roundHalfEven (p q : Z) : Z :=
  let f := p / q in
  let r := p mod q in
  if 2 * r <? q then f
  else if q <? 2 * r then f + 1
  else if Z.even f then f else f + 1.

(** The integer part of the binary logarithm of [p / q], for [p, q > 0]. *)
Definition floorLog2 (p q : Z) : Z :=
  let l := Z.log2 p - Z.log2 q in
  if p * 2 ^ Z.max 0 (- l) <? q * 2 ^ Z.max 0 l then l - 1 else l.

(** [m * 2 ^ e] *)
Definition dyadic (m e : Z) : Q :=
  if 0 <=? e then inject_Z (m * 2 ^ e) else Qmake m (Z.to_pos (2 ^ (- e))).

Definition round (x : Q) : Q :=
  let x := Qred x in
  let p := Qnum x in
  let q := Z.pos (Qden x) in
  if p =? 0 then 0%Q
  else
    let e := Z.max (floorLog2 (Z.abs p) q - 52) (-1074) in
    dyadic (roundHalfEven (p * 2 ^ Z.max 0 (- e)) (q * 2 ^ Z.max 0 e)) e.

(** [x * y], [x / y], [x + y] and [Math.floor(x)] *)
Definition mul (x y : Q) : Q := round (x * y)%Q.
Definition div (x y : Q) : Q := round (x / y)%Q.
Definition add (x y : Q) : Q := round (x + y)%Q.
Definition floor (x : Q) : Z := Qfloor x.

End Double.

(** ** Environment validation and configuration *)

Module Config.

(** The environment [validate] and [configuration] read ([process.env]
    merged with the env file): every value is a string. *)
Abbreviation Env := (gmap string string).

Definition isDigit (c : ascii) : bool :=
  let n := nat_of_ascii c in (48 <=? n)%nat && (n <=? 57)%nat.

Definition isUnit (c : ascii) : bool :=
  existsb (Ascii.eqb c) ["s"; "m"; "h"; "d"; "w"; "y"]%char.

(** The regular expression [/^\d+[smhdwy]$/]: [seen] records that at least
    one digit was read. *)
Fixpoint matchesDurationFrom (seen : bool) (s : string) : bool :=
  match s with
  | EmptyString => false
  | String c EmptyString => seen && isUnit c
  | String c rest => isDigit c && matchesDurationFrom true rest
  end.

Definition matchesDuration (s : string) : bool := matchesDurationFrom false s.

Definition Environment : list string :=
  ["development"; "production"; "test"; "staging"].

Definition LogLevel : list string :=
  ["error"; "warn"; "info"; "debug"; "verbose"].

Definition isEnum (values : list string) (s : string) : bool :=
  existsb (String.eqb s) values.

(** One entry of the list [validateSync] returns: the property and the
    names of the constraints it violates. *)
Record ValidationError : Type := {
  property : string;
  constraints : list string
}.

Definition constraint (name : string) (holds : bool) : list string :=
  if holds then [] else [name].

Definition report (prop : string) (failed : list string) : list ValidationError :=
  match failed with
  | [] => []
  | _ => [ {| property := prop; constraints := failed |} ]
  end.

(** The instance [plainToInstance] builds. *)
Record EnvironmentVariables : Type := {
  MONGODB_URI : option string;
  JWT_SECRET : option string;
  JWT_EXPIRES_IN : string;
  JWT_REFRESH_SECRET : option string;
  JWT_REFRESH_EXPIRES_IN : string;
  PORT : Z;
  NODE_ENV : string;
  LOG_LEVEL : string;
  CORS_ORIGIN : string
}.

Inductive Boot (A : Type) : Type :=
  | Booted (a : A)
  | Rejected (errors : list ValidationError).
Arguments Booted {A} a.
Arguments Rejected {A} errors.

Section Validation.

(** [Number(v)] followed by [parseInt(String(_), 10)], the conversion
    class-transformer applies to [PORT]; [None] is [NaN]. *)
Variable parseIntOfNumber : string -> option Z.

(** A property that is absent keeps the initialiser of the class; one
    that is present goes through its [@Transform]. *)
Definition plainToInstance (config : Env) : EnvironmentVariables :=
  {| MONGODB_URI := config !! "MONGODB_URI";
     JWT_SECRET := config !! "JWT_SECRET";
     JWT_EXPIRES_IN := orElse (config !! "JWT_EXPIRES_IN") "1h";
     JWT_REFRESH_SECRET := config !! "JWT_REFRESH_SECRET";
     JWT_REFRESH_EXPIRES_IN := orElse (config !! "JWT_REFRESH_EXPIRES_IN") "7d";
     PORT := match config !! "PORT" with
             | None => 3000
             | Some v => match parseIntOfNumber v with
                         | None | Some 0 => 3000
                         | Some n => n
                         end
             end;
     NODE_ENV := orElse (config !! "NODE_ENV") "development";
     LOG_LEVEL := orElse (config !! "LOG_LEVEL") "info";
     CORS_ORIGIN := orElse (config !! "CORS_ORIGIN") "*" |}.

Definition isString (v : option string) : bool := bool_decide (is_Some v).

Definition isNotEmpty (v : option string) : bool :=
  match v with
  | Some s => truthy s
  | None => false
  end.

(** [MinLength(n)] counts a surrogate pair once; the code units of this
    model form no pair, so the count is the length of the string. *)
Definition minLength (n : nat) (v : option string) : bool :=
  match v with
  | Some s => (n <=? String.length s)%nat
  | None => false
  end.

(** The constraints that can fail.  After their transforms [PORT] is always
    an integer and [CORS_ORIGIN] always a string, so [IsInt] and the
    [IsString] of [CORS_ORIGIN] never report. *)
Definition validateSync (c : EnvironmentVariables) : list ValidationError :=
  report "MONGODB_URI"
    (constraint "isNotEmpty" (isNotEmpty (MONGODB_URI c))
     ++ constraint "isString" (isString (MONGODB_URI c)))
  ++ report "JWT_SECRET"
    (constraint "minLength" (minLength 32 (JWT_SECRET c))
     ++ constraint "isString" (isString (JWT_SECRET c)))
  ++ report "JWT_EXPIRES_IN"
    (constraint "matches" (matchesDuration (JWT_EXPIRES_IN c)))
  ++ report "JWT_REFRESH_SECRET"
    (constraint "minLength" (minLength 32 (JWT_REFRESH_SECRET c))
     ++ constraint "isString" (isString (JWT_REFRESH_SECRET c)))
  ++ report "JWT_REFRESH_EXPIRES_IN"
    (constraint "matches" (matchesDuration (JWT_REFRESH_EXPIRES_IN c)))
  ++ report "PORT" (constraint "min" (1 <=? PORT c))
  ++ report "NODE_ENV" (constraint "isEnum" (isEnum Environment (NODE_ENV c)))
  ++ report "LOG_LEVEL" (constraint "isEnum" (isEnum LogLevel (LOG_LEVEL c))).

(** [validate]: throws (the boot is rejected) when at least one constraint
    fails. *)
Definition validate (config : Env) : Boot EnvironmentVariables :=
  let validatedConfig := plainToInstance config in
  match validateSync validatedConfig with
  | [] => Booted validatedConfig
  | errors => Rejected errors
  end.

End Validation.

(** The [jwt] and [nodeEnv] entries of [configuration()]. *)
Record JwtConfig : Type := {
  secret : option string;
  expiresIn : string;
  refreshSecret : option string;
  refreshExpiresIn : string
}.

Record AppConfig : Type := {
  nodeEnv : string;
  jwt : JwtConfig
}.

Definition configuration (env : Env) : AppConfig :=
  {| nodeEnv := orElse (env !! "NODE_ENV") "development";
     jwt := {| secret := env !! "JWT_SECRET";
               expiresIn := orElse (env !! "JWT_EXPIRES_IN") "1h";
               refreshSecret := env !! "JWT_REFRESH_SECRET";
               refreshExpiresIn := orElse (env !! "JWT_REFRESH_EXPIRES_IN") "7d" |} |}.

(** What [ConfigModule.forRoot] does with [validate] and [load]: the
    process starts only when [validate] returns. *)
Definition forRoot (parseIntOfNumber : string -> option Z) (env : Env) : Boot AppConfig :=
  match validate parseIntOfNumber env with
  | Booted _ => Booted (configuration env)
  | Rejected errors => Rejected errors
  end.

End Config.

(** ** Time strings

    The [ms] package, with which jsonwebtoken reads [expiresIn]. *)
Module Ms.

Definition s : Z := 1000.
Definition m : Z := s * 60.
Definition h : Z := m * 60.
Definition d : Z := h * 24.
Definition w : Z := d * 7.
(** [d * 365.25], which is exact. *)
Definition y : Z := 31557600000.

(** The longest prefix of characters in a class, and what follows it. *)
Fixpoint span (class : ascii -> bool) (str : string) : string * string :=
  match str with
  | EmptyString => (EmptyString, EmptyString)
  | String c rest =>
      if class c then let '(taken, others) := span class rest in (String c taken, others)
      else (EmptyString, str)
  end.

Definition stripPrefix (c : ascii) (str : string) : option string :=
  match str with
  | String c' rest => if Ascii.eqb c' c then Some rest else None
  | EmptyString => None
  end.

Fixpoint dropSpaces (str : string) : string :=
  match str with
  | String c rest => if Ascii.eqb c " " then dropSpaces rest else str
  | EmptyString => EmptyString
  end.

Definition digitValue (c : ascii) : Z := Z.of_nat (nat_of_ascii c) - 48.

Fixpoint digitsValue (acc : Z) (digits : string) : Z :=
  match digits with
  | EmptyString => acc
  | String c rest => digitsValue (10 * acc + digitValue c) rest
  end.

(** [parseFloat] on the text the pattern captured: an optional sign, the
    digits before the point and the digits after it.  The result is the
    binary64 value nearest to the decimal number. *)
Definition parseFloat (negative : bool) (int frac : string) : Q :=
  let value := (inject_Z (digitsValue 0 (int ++ frac))
                / inject_Z (10 ^ Z.of_nat (String.length frac)))%Q in
  Double.round (if negative then - value else value)%Q.

Definition isType (type : string) (names : list string) : bool :=
  existsb (String.eqb type) names.

(** The [switch] over the unit. *)
Definition scale (n : Q) (type : string) : option Q :=
  if isType type ["years"; "year"; "yrs"; "yr"; "y"] then Some (Double.mul n (inject_Z y))
  else if isType type ["weeks"; "week"; "w"] then Some (Double.mul n (inject_Z w))
  else if isType type ["days"; "day"; "d"] then Some (Double.mul n (inject_Z d))
  else if isType type ["hours"; "hour"; "hrs"; "hr"; "h"] then Some (Double.mul n (inject_Z h))
  else if isType type ["minutes"; "minute"; "mins"; "min"; "m"]
  then Some (Double.mul n (inject_Z m))
  else if isType type ["seconds"; "second"; "secs"; "sec"; "s"]
  then Some (Double.mul n (inject_Z s))
  else if isType type ["milliseconds"; "millisecond"; "msecs"; "msec"; "ms"] then Some n
  else None.

(** [parse]: nothing for a string of more than 100 characters or one the
    pattern [/^(-?(?:\d+)?\.?\d+) *(milliseconds?|msecs?|ms|seconds?|secs?|s|
    minutes?|mins?|m|hours?|hrs?|h|days?|d|weeks?|w|years?|yrs?|y)?$/i] does
    not match; otherwise the number times the unit, milliseconds when no unit
    is given. *)
Definition parse (str : string) : option Q :=
  if (100 <? String.length str)%nat then None
  else
    let '(negative, unsigned) :=
      match stripPrefix "-" str with
      | Some rest => (true, rest)
      | None => (false, str)
      end in
    let '(int, rest) := span Config.isDigit unsigned in
    let number :=
      match stripPrefix "." rest with
      | Some rest' =>
          let '(frac, rest'') := span Config.isDigit rest' in
          if String.eqb frac "" then None else Some (frac, rest'')
      | None => if String.eqb int "" then None else Some (EmptyString, rest)
      end in
    match number with
    | None => None
    | Some (frac, rest) =>
        let n := parseFloat negative int frac in
        let type := toLowerCase (dropSpaces rest) in
        if String.eqb type "" then Some n else scale n type
    end.

(** [ms(val)] for a string.  The empty string, for which [ms] throws, gives
    nothing here: jsonwebtoken refuses an empty [expiresIn] before it calls
    [ms], and fails the same way when [ms] returns undefined. *)
Definition ms (val : string) : option Q := parse val.

End Ms.

(** ** Signed tokens (jsonwebtoken as used by @nestjs/jwt and passport-jwt) *)

Module Jwt.

(** What [sign] is given: [{ email, sub }]. *)
Record JwtPayload : Type := {
  sub : string;
  email : string
}.

(** The claims a signed token carries: the payload plus [iat] and [exp]
    (Unix seconds), which the codec computes. *)
Record Claims : Type := {
  payload : JwtPayload;
  iat : Z;
  exp : option Z
}.

(** A token string as a cookie or header carries it, in parsed view: either
    the compact serialisation of claims with a signature segment, or any other
    text, which does not decode. *)
Inductive TokenString : Type :=
  | Compact (claims : Claims) (signature : string)
  | Opaque (text : string).

(** [!token] is true only for the empty string; a compact serialisation is
    never empty. *)
Definition tokenTruthy (t : TokenString) : bool :=
  match t with
  | Compact _ _ => true
  | Opaque s => truthy s
  end.

(** [timespan(time, iat)] of jsonwebtoken for a time string:
    [Math.floor(iat + ms(time) / 1000)], undefined when [ms] gives no number.
    [iat] is the clock in whole seconds, [Math.floor(Date.now() / 1000)], an
    integer far below 2^53. *)
Definition timespan (time : string) (iat : Z) : option Z :=
  match Ms.ms time with
  | None => None
  | Some milliseconds =>
      Some (Double.floor
              (Double.add (inject_Z iat) (Double.div milliseconds (inject_Z 1000))))
  end.

Record JwtModuleOptions : Type := {
  moduleSecret : option string;
  moduleExpiresIn : option string
}.

Record JwtSignOptions : Type := {
  secret : option string;
  expiresIn : string
}.

Definition nonEmpty (v : option string) : option string :=
  match v with
  | Some s => if truthy s then Some s else None
  | None => None
  end.

Section Codec.

(** HMAC-SHA256 of the encoded header and claims under a secret. *)
Variable hmac : string -> Claims -> string.

(** [jwt.sign] with a key: [iat] is the clock and [exp], when a lifetime is
    given, its [timespan]; [sign] throws when that is undefined (the message
    is given here without its quotation marks). *)
Definition signWith (key : string) (expires : option string) (now : Z)
    (p : JwtPayload) : Result TokenString :=
  match expires with
  | None =>
      let c := {| payload := p; iat := now; exp := None |} in
      Ok (Compact c (hmac key c))
  | Some span =>
      match timespan span now with
      | None => Throw (Error "expiresIn should be a number of seconds or string representing a timespan")
      | Some e =>
          let c := {| payload := p; iat := now; exp := Some e |} in
          Ok (Compact c (hmac key c))
      end
  end.

(** [JwtService.sign(payload, options?)]: the options of the call override
    the options of the module; the secret of the call is used when it is
    truthy, the secret of the module otherwise. *)
Definition sign (module : JwtModuleOptions) (now : Z) (p : JwtPayload)
    (options : option JwtSignOptions) : Result TokenString :=
  let key :=
    match options with
    | Some o => match nonEmpty (secret o) with
                | Some k => Some k
                | None => nonEmpty (moduleSecret module)
                end
    | None => nonEmpty (moduleSecret module)
    end in
  let expires :=
    match options with
    | Some o => Some (expiresIn o)
    | None => moduleExpiresIn module
    end in
  match key with
  | None => Throw (Error "secretOrPrivateKey must have a value")
  | Some k => signWith k expires now p
  end.

(** [jwt.verify(token, secretOrKey, { ignoreExpiration })] at clock [now]. *)
Definition verify (token : TokenString) (secretOrKey : string)
    (ignoreExpiration : bool) (now : Z) : Result Claims :=
  match token with
  | Opaque _ => Throw (Error "jwt malformed")
  | Compact c signature =>
      if negb (String.eqb signature (hmac secretOrKey c))
      then Throw (Error "invalid signature")
      else match exp c with
           | Some e =>
               if negb ignoreExpiration && (e <=? now)
               then Throw (Error "jwt expired")
               else Ok c
           | None => Ok c
           end
  end.

End Codec.

End Jwt.

(** ** Users *)

(** [users/schemas/user.schema.ts]: the stored record; [password] holds the
    bcrypt hash. *)
Module Schema.
Record UserDocument : Type := {
  _id : string;
  email : string;
  name : string;
  password : string;
  createdAt : option Z;
  updatedAt : option Z
}.
End Schema.

(** [users/entities/user.entity.ts]: what leaves the service. *)
Module Entity.
Record UserEntity : Type := {
  _id : string;
  email : string;
  name : string;
  createdAt : option Z;
  updatedAt : option Z
}.
End Entity.

(** [CreateUserDto] / [SignUpDto] and [UpdateUserDto]. *)
Module Dto.
Record CreateUserDto : Type := {
  email : string;
  name : string;
  password : string
}.
Record UpdateUserDto : Type := {
  newName : option string
}.
End Dto.

Import Schema.

(** JSON values, for what a response body serialises to.  A [Date] is kept
    as its timestamp. *)
#[warnings="-register-all"]
Inductive JSON : Type :=
  | JString (s : string)
  | JDate (t : Z)
  | JObject (fields : list (string * JSON)).

(** [JSON.stringify] leaves out a property whose value is [undefined]. *)
Definition optionalField (key : string) (v : option Z) : list (string * JSON) :=
  match v with
  | Some t => [(key, JDate t)]
  | None => []
  end.

Definition keys (j : JSON) : list string :=
  match j with
  | JObject fields => map fst fields
  | _ => []
  end.

(** The Mongoose model of the users collection, over a database state [DB]:
    the four queries the service issues. *)
Class UserModel (DB : Type) : Type := {
  findOneByEmail : DB -> string -> Result (option UserDocument);
  modelFindById : DB -> string -> Result (option UserDocument);
  findByIdAndUpdate : DB -> string -> Dto.UpdateUserDto -> Result (option UserDocument) * DB;
  save : DB -> Dto.CreateUserDto -> Result UserDocument * DB
}.

(** [users/users.service.ts] *)
Module UsersService.
Section UsersService.

Context {DB : Type} `{UserModel DB}.

(** [bcrypt.hash(data, rounds)] and [bcrypt.compare(data, encrypted)]. *)
Variable bcryptHash : string -> Z -> string.
Variable bcryptCompare : string -> string -> bool.

Definition create (db : DB) (createUserDto : Dto.CreateUserDto) : Result UserDocument * DB :=
  let hashedPassword := bcryptHash (Dto.password createUserDto) 10 in
  save db {| Dto.email := Dto.email createUserDto;
             Dto.name := Dto.name createUserDto;
             Dto.password := hashedPassword |}.

Definition findByEmail (db : DB) (email : string) : Result (option UserDocument) :=
  findOneByEmail db (toLowerCase email).

Definition findById (db : DB) (id : string) : Result UserDocument :=
  user ← modelFindById db id;
  match user with
  | None => Throw (NotFoundException "User not found")
  | Some u => Ok u
  end.

Definition update (db : DB) (id : string) (updateUserDto : Dto.UpdateUserDto)
    : Result UserDocument * DB :=
  let '(r, db') := findByIdAndUpdate db id updateUserDto in
  (user ← r;
   match user with
   | None => Throw (NotFoundException "User not found")
   | Some u => Ok u
   end, db').

Definition validatePassword (user : UserDocument) (password : string) : Result bool :=
  Ok (bcryptCompare password (Schema.password user)).

Definition toUserEntity (user : UserDocument) : Entity.UserEntity :=
  {| Entity._id := Schema._id user;
     Entity.email := Schema.email user;
     Entity.name := Schema.name user;
     Entity.createdAt := Schema.createdAt user;
     Entity.updatedAt := Schema.updatedAt user |}.

Definition getProfile (db : DB) (userId : string) : Result Entity.UserEntity :=
  user ← findById db userId;
  Ok (toUserEntity user).

Definition updateProfile (db : DB) (userId : string) (updateUserDto : Dto.UpdateUserDto)
    : Result Entity.UserEntity * DB :=
  let '(r, db') := update db userId updateUserDto in
  (user ← r; Ok (toUserEntity user), db').

End UsersService.
End UsersService.

(** The response body of a [UserEntity]: the own properties that
    [Object.assign] copied into the instance. *)
Definition userEntityToJSON (e : Entity.UserEntity) : JSON :=
  JObject ([("_id", JString (Entity._id e));
            ("email", JString (Entity.email e));
            ("name", JString (Entity.name e))]
           ++ optionalField "createdAt" (Entity.createdAt e)
           ++ optionalField "updatedAt" (Entity.updatedAt e)).

(** ** Authentication *)

(** The users service as the auth service and the strategies are given it
    by injection.  [findById] is declared to return a document; its callers
    nevertheless test the result for null, and their unit tests inject
    services that resolve null, so the interface lets it be absent. *)
Class UsersServiceLike (DB : Type) : Type := {
  findByEmail : DB -> string -> Result (option UserDocument);
  findById : DB -> string -> Result (option UserDocument);
  create : DB -> Dto.CreateUserDto -> Result UserDocument * DB;
  validatePassword : UserDocument -> string -> Result bool
}.

(** The service of [users.service.ts] as that dependency. *)
Definition realUsersService {DB : Type} `{UserModel DB}
    (bcryptHash : string -> Z -> string) (bcryptCompare : string -> string -> bool)
    : UsersServiceLike DB :=
  {| findByEmail := UsersService.findByEmail;
     findById := fun db id => u ← UsersService.findById db id; Ok (Some u);
     create := UsersService.create bcryptHash;
     validatePassword := UsersService.validatePassword bcryptCompare |}.

(** [auth/dto/auth-response.dto.ts] *)
Record AuthResponseDto : Type := {
  user : Entity.UserEntity;
  access_token : Jwt.TokenString
}.

(** What the auth service hands to the controller. *)
Record AuthResult : Type := {
  response : AuthResponseDto;
  refreshToken : Jwt.TokenString
}.

(** Modelled from the spec: the registration of the JWT module
    ([auth/auth.module.ts], which gives [JwtService.sign] its default secret
    and lifetime) is not among the sources; the spec binds the access keyspace
    to the access secret and the access lifetime. *)
Definition jwtModuleOptions (config : Config.AppConfig) : Jwt.JwtModuleOptions :=
  {| Jwt.moduleSecret := Config.secret (Config.jwt config);
     Jwt.moduleExpiresIn := Some (Config.expiresIn (Config.jwt config)) |}.

(** [auth/auth.service.ts] *)
Module AuthService.
Section AuthService.

Context {DB : Type} (usersService : UsersServiceLike DB).
Variable hmac : string -> Jwt.Claims -> string.
Variable configService : Config.AppConfig.

Definition generateAuthResponse (now : Z) (user : UserDocument) : Result AuthResult :=
  let userId := Schema._id user in
  let payload := {| Jwt.sub := userId; Jwt.email := Schema.email user |} in
  accessToken ← Jwt.sign hmac (jwtModuleOptions configService) now payload None;
  let refreshSecret := Config.refreshSecret (Config.jwt configService) in
  let refreshExpiresIn := Config.refreshExpiresIn (Config.jwt configService) in
  refreshToken ← Jwt.sign hmac (jwtModuleOptions configService) now payload
                   (Some {| Jwt.secret := refreshSecret; Jwt.expiresIn := refreshExpiresIn |});
  Ok {| response := {| user := UsersService.toUserEntity user;
                       access_token := accessToken |};
        refreshToken := refreshToken |}.

Definition signUp (db : DB) (now : Z) (signUpDto : Dto.CreateUserDto)
    : Result AuthResult * DB :=
  match findByEmail db (Dto.email signUpDto) with
  | Throw e => (Throw e, db)
  | Ok (Some _) => (Throw (ConflictException "User with this email already exists"), db)
  | Ok None =>
      let '(created, db') := create db signUpDto in
      (user ← created; generateAuthResponse now user, db')
  end.

Definition validateUser (db : DB) (email password : string) : Result (option UserDocument) :=
  user ← findByEmail db email;
  match user with
  | Some u =>
      valid ← validatePassword u password;
      if valid : bool then Ok (Some u) else Ok None
  | None => Ok None
  end.

Definition signIn (now : Z) (user : UserDocument) : Result AuthResult :=
  generateAuthResponse now user.

Definition refreshTokens (db : DB) (now : Z) (userId email : string) : Result AuthResult :=
  tryCatch
    (user ← findById db userId;
     match user with
     | None => Throw (UnauthorizedException (Some "User not found"))
     | Some u => generateAuthResponse now u
     end)
    (Throw (UnauthorizedException (Some "Invalid refresh token"))).

End AuthService.
End AuthService.

(** ** Requests and passport strategies *)

(** The parts of a request the guards and the controller read: the
    [Authorization] header split into scheme and credentials, and the cookies
    [cookie-parser] produced (absent when no parser ran). *)
Record Request : Type := {
  authorization : option (string * Jwt.TokenString);
  cookies : option (gmap string Jwt.TokenString)
}.

(** [req.cookies?.refresh_token] *)
Definition refreshCookie (req : Request) : option Jwt.TokenString :=
  c ← cookies req; c !! "refresh_token".

(** [!value] for a cookie that may be missing. *)
Definition present (v : option Jwt.TokenString) : bool :=
  match v with
  | Some t => Jwt.tokenTruthy t
  | None => false
  end.

(** [ExtractJwt.fromAuthHeaderAsBearerToken()] *)
Definition fromAuthHeaderAsBearerToken (req : Request) : option Jwt.TokenString :=
  match authorization req with
  | Some (scheme, value) =>
      if String.eqb (toLowerCase scheme) "bearer" then Some value else None
  | None => None
  end.

(** The options a strategy passes to [super(...)]. *)
Record StrategyOptions : Type := {
  ignoreExpiration : bool;
  secretOrKey : string;
  passReqToCallback : bool
}.

(** What a guard attaches to the request as [req.user]. *)
Record RequestUser : Type := {
  userId : string;
  userEmail : string;
  rawRefreshToken : option Jwt.TokenString
}.

(** [a || (() => { throw new Error(msg) })()] *)
Definition orThrow (v : option string) (msg : string) : Result string :=
  match Jwt.nonEmpty v with
  | Some s => Ok s
  | None => Throw (Error msg)
  end.

(** What [AuthGuard(name)] of @nestjs/passport does with a passport-jwt
    strategy: extract the token, verify it under the options of the strategy,
    hand the decoded claims to [validate]; a missing token or a failed
    verification ends in a bare [UnauthorizedException], an exception of
    [validate] is thrown as it is. *)
Definition authGuard (hmac : string -> Jwt.Claims -> string)
    (options : StrategyOptions)
    (jwtFromRequest : Request -> option Jwt.TokenString)
    (validate : Request -> Jwt.Claims -> Result RequestUser)
    (req : Request) (now : Z) : Result RequestUser :=
  match jwtFromRequest req with
  | None => Throw (UnauthorizedException None)
  | Some token =>
      if negb (Jwt.tokenTruthy token) then Throw (UnauthorizedException None)
      else match Jwt.verify hmac token (secretOrKey options) (ignoreExpiration options) now with
           | Throw _ => Throw (UnauthorizedException None)
           | Ok claims => validate req claims
           end
  end.

(** [auth/strategies/jwt.strategy.ts] *)
Module JwtStrategy.
Section JwtStrategy.

Context {DB : Type} (usersService : UsersServiceLike DB).

Definition options (configService : Config.AppConfig) : Result StrategyOptions :=
  key ← orThrow (Config.secret (Config.jwt configService)) "JWT secret is not configured";
  Ok {| ignoreExpiration := false; secretOrKey := key; passReqToCallback := false |}.

Definition validate (db : DB) (payload : Jwt.Claims) : Result RequestUser :=
  tryCatch
    (_ ← findById db (Jwt.sub (Jwt.payload payload));
     Ok {| userId := Jwt.sub (Jwt.payload payload);
           userEmail := Jwt.email (Jwt.payload payload);
           rawRefreshToken := None |})
    (Throw (UnauthorizedException None)).

(** [JwtAuthGuard], that is [AuthGuard('jwt')]. *)
Definition guard (hmac : string -> Jwt.Claims -> string) (opts : StrategyOptions)
    (db : DB) (req : Request) (now : Z) : Result RequestUser :=
  authGuard hmac opts fromAuthHeaderAsBearerToken (fun _ => validate db) req now.

End JwtStrategy.
End JwtStrategy.

(** [auth/strategies/refresh-token.strategy.ts] *)
Module RefreshTokenStrategy.
Section RefreshTokenStrategy.

Context {DB : Type} (usersService : UsersServiceLike DB).

Definition options (configService : Config.AppConfig) : Result StrategyOptions :=
  key ← orThrow (Config.refreshSecret (Config.jwt configService))
          "Refresh secret is not configured";
  Ok {| ignoreExpiration := false; secretOrKey := key; passReqToCallback := true |}.

Definition validate (db : DB) (req : Request) (payload : Jwt.Claims) : Result RequestUser :=
  let refreshToken := refreshCookie req in
  if negb (present refreshToken)
  then Throw (UnauthorizedException (Some "Refresh token not found"))
  else
    tryCatch
      (user ← findById db (Jwt.sub (Jwt.payload payload));
       match user with
       | None => Throw (UnauthorizedException (Some "User not found"))
       | Some _ =>
           Ok {| userId := Jwt.sub (Jwt.payload payload);
                 userEmail := Jwt.email (Jwt.payload payload);
                 rawRefreshToken := refreshToken |}
       end)
      (Throw (UnauthorizedException (Some "Invalid refresh token"))).

(** [RefreshTokenAuthGuard], that is [AuthGuard('jwt-refresh')]. *)
Definition guard (hmac : string -> Jwt.Claims -> string) (opts : StrategyOptions)
    (db : DB) (req : Request) (now : Z) : Result RequestUser :=
  authGuard hmac opts refreshCookie (validate db) req now.

End RefreshTokenStrategy.
End RefreshTokenStrategy.

(** Modelled from the spec: the local strategy ([auth/strategies/local.strategy.ts])
    is not among the sources, only its unit test is.  Sign-in runs the
    credential validator and fails Unauthorized, "Invalid email or password"
    in the wording of that test, when it returns none. *)
Module LocalStrategy.
Section LocalStrategy.

Context {DB : Type} (usersService : UsersServiceLike DB).

Definition validate (db : DB) (email password : string) : Result UserDocument :=
  user ← AuthService.validateUser usersService db email password;
  match user with
  | None => Throw (UnauthorizedException (Some "Invalid email or password"))
  | Some u => Ok u
  end.

End LocalStrategy.
End LocalStrategy.

(** ** The auth controller *)

Record CookieOptions : Type := {
  httpOnly : bool;
  secure : bool;
  sameSite : string;
  maxAge : option Z;
  path : string
}.

(** The calls made on the response object, in order. *)
Inductive CookieCall : Type :=
  | cookie (name : string) (value : Jwt.TokenString) (options : CookieOptions)
  | clearCookie (name : string) (options : CookieOptions).

Abbreviation Response := (list CookieCall).

(** [backend/src/auth/auth.controller.ts] *)
Module AuthController.
Section AuthController.

Context {DB : Type} (usersService : UsersServiceLike DB).
Variable hmac : string -> Jwt.Claims -> string.
Variable configService : Config.AppConfig.

Definition isProduction : bool := String.eqb (Config.nodeEnv configService) "production".

(** The options literal that [signUp], [signIn] and [refresh] each pass to
    [res.cookie]. *)
Definition refreshCookieOptions : CookieOptions :=
  {| httpOnly := isProduction;
     secure := isProduction;
     sameSite := if isProduction then "strict" else "lax";
     maxAge := Some (7 * 24 * 60 * 60 * 1000);
     path := "/" |}.

(** The options literal [logout] passes to [res.clearCookie]. *)
Definition clearCookieOptions : CookieOptions :=
  {| httpOnly := isProduction;
     secure := isProduction;
     sameSite := if isProduction then "strict" else "lax";
     maxAge := None;
     path := "/" |}.

Definition setRefreshCookie (r : Result AuthResult) (res : Response)
    : Result AuthResponseDto * Response :=
  match r with
  | Throw e => (Throw e, res)
  | Ok result =>
      (Ok (response result),
       (res ++ [cookie "refresh_token" (refreshToken result) refreshCookieOptions])%list)
  end.

Definition signUp (db : DB) (now : Z) (signUpDto : Dto.CreateUserDto) (res : Response)
    : Result AuthResponseDto * DB * Response :=
  let '(r, db') := AuthService.signUp usersService hmac configService db now signUpDto in
  let '(body, res') := setRefreshCookie r res in
  (body, db', res').

Definition signIn (now : Z) (reqUser : UserDocument) (res : Response)
    : Result AuthResponseDto * Response :=
  setRefreshCookie (AuthService.signIn hmac configService now reqUser) res.

Definition refresh (db : DB) (now : Z) (reqUser : RequestUser) (res : Response)
    : Result AuthResponseDto * Response :=
  setRefreshCookie
    (AuthService.refreshTokens usersService hmac configService db now
       (userId reqUser) (userEmail reqUser))
    res.

Definition logout (req : Request) (res : Response) : Result string * Response :=
  if negb (present (refreshCookie req))
  then (Throw (HttpException "No refresh token found" UNAUTHORIZED), res)
  else (Ok "Logged out successfully",
        (res ++ [clearCookie "refresh_token" clearCookieOptions])%list).


(** [POST /auth/refresh] behind [RefreshTokenAuthGuard]. *)
Definition refreshRoute (opts : StrategyOptions) (db : DB) (now : Z) (req : Request)
    (res : Response) : Result AuthResponseDto * Response :=
  match RefreshTokenStrategy.guard usersService hmac opts db req now with
  | Throw e => (Throw e, res)
  | Ok u => refresh db now u res
  end.

End AuthController.
End AuthController.

(** The literal the earlier revision of the controller, kept under
    [auth-api/], passes to [res.cookie]: [httpOnly] and [sameSite] are fixed,
    only [secure] follows the environment. *)
Module AuthApiController.

Definition refreshCookieOptions (configService : Config.AppConfig) : CookieOptions :=
  {| httpOnly := true;
     secure := String.eqb (Config.nodeEnv configService) "production";
     sameSite := "strict";
     maxAge := Some (7 * 24 * 60 * 60 * 1000);
     path := "/" |}.

End AuthApiController.

(** The body of a sign-up, sign-in or refresh response. *)
Definition authResponseToJSON (encode : Jwt.TokenString -> string) (r : AuthResponseDto) : JSON :=
  JObject [("user", userEntityToJSON (user r));
           ("access_token", JString (encode (access_token r)))].

(** ** Vocabulary of the properties *)

(** A secret the validator accepts: set, and at least 32 characters long. *)
Definition secretOk (v : option string) : Prop :=
  exists s, v = Some s /\ (32 <= String.length s)%nat.

(** The claims [sign] puts in a token issued at [now] for a lifetime of
    [t] milliseconds. *)
Definition claimsFor (user : UserDocument) (now t : Z) : Jwt.Claims :=
  {| Jwt.payload := {| Jwt.sub := Schema._id user; Jwt.email := Schema.email user |};
     Jwt.iat := now;
     Jwt.exp := Some (now + t / 1000) |}.

(** The claims of a token issued for [user] at [now] that expires at [e]. *)
Definition claimsUntil (user : UserDocument) (now e : Z) : Jwt.Claims :=
  {| Jwt.payload := {| Jwt.sub := Schema._id user; Jwt.email := Schema.email user |};
     Jwt.iat := now;
     Jwt.exp := Some e |}.

(** [result] carries the pair issued for [identity] at [now] under
    [config]: an access token signed with the access secret that expires after
    the access lifetime, and a refresh token signed with the refresh secret
    that expires after the refresh lifetime, both over the payload
    [{ email, sub }] of [identity], next to the outward form of [identity]. *)
Definition issuedFor (hmac : string -> Jwt.Claims -> string) (config : Config.AppConfig)
    (identity : UserDocument) (now : Z) (result : AuthResult) : Prop :=
  exists ka kr ea er,
    Config.secret (Config.jwt config) = Some ka /\
    Config.refreshSecret (Config.jwt config) = Some kr /\
    Jwt.timespan (Config.expiresIn (Config.jwt config)) now = Some ea /\
    Jwt.timespan (Config.refreshExpiresIn (Config.jwt config)) now = Some er /\
    access_token (response result)
      = Jwt.Compact (claimsUntil identity now ea) (hmac ka (claimsUntil identity now ea)) /\
    refreshToken result
      = Jwt.Compact (claimsUntil identity now er) (hmac kr (claimsUntil identity now er)) /\
    user (response result) = UsersService.toUserEntity identity.

(** The whole seconds a time string of the validator's pattern denotes: its
    digits times the seconds of its unit. *)
Definition unitSeconds (c : ascii) : Z :=
  if Ascii.eqb c "s" then 1
  else if Ascii.eqb c "m" then 60
  else if Ascii.eqb c "h" then 3600
  else if Ascii.eqb c "d" then 86400
  else if Ascii.eqb c "w" then 604800
  else 31557600.

Fixpoint readSeconds (acc : Z) (s : string) : option Z :=
  match s with
  | EmptyString => None
  | String c EmptyString => Some (acc * unitSeconds c)
  | String c rest => readSeconds (10 * acc + Ms.digitValue c) rest
  end.

Definition wholeSeconds (s : string) : option Z :=
  if Config.matchesDuration s then readSeconds 0 s else None.

(** An integer that binary64 holds exactly together with its neighbours. *)
Definition safe (z : Z) : Prop := - 2 ^ 53 < z < 2 ^ 53.

(** The time string [time] denotes [n] whole seconds, [ms] reads it, and
    the arithmetic of [timespan] on it at the clock [now] is exact. *)
Definition exactLifetime (time : string) (now n : Z) : Prop :=
  wholeSeconds time = Some n /\
  (String.length time <= 100)%nat /\
  safe (1000 * n) /\
  safe (now + n).

(** The attributes the refresh cookie is written with: scoped to the whole
    path, a max-age of seven days in milliseconds, and the three security
    attributes looked up from the environment. *)
Definition sevenDays : Z := 7 * 24 * 60 * 60 * 1000.

Definition cookieAttributesFor (production : bool) (o : CookieOptions) : Prop :=
  path o = "/" /\
  maxAge o = Some sevenDays /\
  httpOnly o = production /\
  secure o = production /\
  sameSite o = (if production then "strict" else "lax").

(** The properties of a serialised user. *)
Definition entityKeys : list string := ["_id"; "email"; "name"; "createdAt"; "updatedAt"].

Definition withPassword (h : string) (u : UserDocument) : UserDocument :=
  {| Schema._id := Schema._id u;
     Schema.email := Schema.email u;
     Schema.name := Schema.name u;
     Schema.password := h;
     Schema.createdAt := Schema.createdAt u;
     Schema.updatedAt := Schema.updatedAt u |}.

(** [e] is the outward form of the stored record [identity]: its five
    public properties and nothing else, the same whatever the stored hash. *)
Definition outwardForm (identity : UserDocument) (e : Entity.UserEntity) : Prop :=
  e = UsersService.toUserEntity identity /\
  (keys (userEntityToJSON e) ⊆ entityKeys) /\
  ("password" ∉ keys (userEntityToJSON e)) /\
  (forall h, UsersService.toUserEntity (withPassword h identity) = e).

(** ** An in-memory users collection

    A stand-in for MongoDB, to run the services on concrete data: the
    documents in insertion order, the identifiers the driver will hand out,
    and the clock for the timestamps. *)
Module Memory.

Record Collection : Type := {
  documents : list UserDocument;
  freshIds : list string;
  clock : Z
}.

Definition byEmail (e : string) (u : UserDocument) : bool := String.eqb (Schema.email u) e.
Definition byId (id : string) (u : UserDocument) : bool := String.eqb (Schema._id u) id.

Definition rename (id : string) (dto : Dto.UpdateUserDto) (now : Z) (u : UserDocument)
    : UserDocument :=
  if byId id u
  then {| Schema._id := Schema._id u;
          Schema.email := Schema.email u;
          Schema.name := default (Schema.name u) (Dto.newName dto);
          Schema.password := Schema.password u;
          Schema.createdAt := Schema.createdAt u;
          Schema.updatedAt := Some now |}
  else u.

Definition insert (db : Collection) (dto : Dto.CreateUserDto) : Result UserDocument * Collection :=
  let e := toLowerCase (Dto.email dto) in
  match List.find (byEmail e) (documents db), freshIds db with
  | Some _, _ => (Throw (Error "E11000 duplicate key error"), db)
  | None, [] => (Throw (Error "connection closed"), db)
  | None, id :: ids =>
      let u := {| Schema._id := id;
                  Schema.email := e;
                  Schema.name := Dto.name dto;
                  Schema.password := Dto.password dto;
                  Schema.createdAt := Some (clock db);
                  Schema.updatedAt := Some (clock db) |} in
      (Ok u, {| documents := (documents db ++ [u])%list; freshIds := ids; clock := clock db |})
  end.

#[export] Instance model : UserModel Collection := {|
  findOneByEmail db e := Ok (List.find (byEmail e) (documents db));
  modelFindById db id := Ok (List.find (byId id) (documents db));
  findByIdAndUpdate db id dto :=
    let docs := map (rename id dto (clock db)) (documents db) in
    (Ok (List.find (byId id) docs),
     {| documents := docs; freshIds := freshIds db; clock := clock db |});
  save := insert
|}.

(** Stand-ins for bcrypt and HMAC, good enough to run examples: the hash
    marks the password, the signature names the key. *)
Definition hash (data : string) (rounds : Z) : string := String.append "$2b$" data.
Definition compare (data encrypted : string) : bool := String.eqb (hash data 10) encrypted.
Definition mac (key : string) (c : Jwt.Claims) : string := key.

Definition usersService : UsersServiceLike Collection := realUsersService hash compare.

Definition empty : Collection := {| documents := []; freshIds := ["507f1f77bcf86cd799439011"]; clock := 0 |}.

Definition ann : UserDocument :=
  {| Schema._id := "507f1f77bcf86cd799439011";
     Schema.email := "a@b.com";
     Schema.name := "Ann Lee";
     Schema.password := "$2b$Secur3!pass";
     Schema.createdAt := Some 0;
     Schema.updatedAt := Some 0 |}.

Definition withAnn : Collection := {| documents := [ann]; freshIds := []; clock := 0 |}.

Definition accessSecret : string := "access-secret-0123456789-0123456789".
Definition otherSecret : string := "refresh-secret-0123456789-0123456789".

Definition envWith (access refresh : string) : Config.Env :=
  <["MONGODB_URI" := "mongodb://localhost:27017/easygenerator-auth"]>
    (<["JWT_SECRET" := access]> (<["JWT_REFRESH_SECRET" := refresh]> ∅)).

(** An environment with two different secrets, and one that uses the same
    secret for both keyspaces. *)
Definition env : Config.Env := envWith accessSecret otherSecret.
Definition sameSecretEnv : Config.Env := envWith accessSecret accessSecret.

Definition noParse (s : string) : option Z := None.

Definition config : Config.AppConfig := Config.configuration env.

Definition accessOptions : StrategyOptions :=
  {| ignoreExpiration := false; secretOrKey := accessSecret; passReqToCallback := false |}.
Definition refreshOptions : StrategyOptions :=
  {| ignoreExpiration := false; secretOrKey := otherSecret; passReqToCallback := true |}.

(** The tokens issued to Ann at time 100, and a request that presents
    them. *)
Definition annAccess : Jwt.Claims := claimsFor ann 100 3600000.
Definition annRefresh : Jwt.Claims := claimsFor ann 100 604800000.

Definition annRequest : Request :=
  {| authorization := Some ("Bearer", Jwt.Compact annAccess accessSecret);
     cookies := Some {[ "refresh_token" := Jwt.Compact annRefresh otherSecret ]} |}.

Definition production : Config.AppConfig :=
  Config.configuration (<["NODE_ENV" := "production"]> env).

(** A request whose refresh cookie is present with an empty value. *)
Definition emptyCookieRequest : Request :=
  {| authorization := None; cookies := Some {[ "refresh_token" := Jwt.Opaque "" ]} |}.

Definition annSignUp : Dto.CreateUserDto :=
  {| Dto.email := "A@b.com"; Dto.name := "Ann Lee"; Dto.password := "Secur3!pass" |}.

End Memory.

(** ** Request bodies

    [auth/dto/signup.dto.ts] and [users/dto/update-user.dto.ts]: the
    constraints class-validator checks on a body before the handler runs.  A
    property holds a string or is missing; characters are taken one per code
    unit. *)
Module SignUpDto.

Definition isLetter (c : ascii) : bool :=
  let n := nat_of_ascii c in
  ((65 <=? n)%nat && (n <=? 90)%nat) || ((97 <=? n)%nat && (n <=? 122)%nat).

Definition isSpecial (c : ascii) : bool :=
  existsb (Ascii.eqb c) ["@"; "$"; "!"; "%"; "*"; "#"; "?"; "&"]%char.

(** The class [[A-Za-z\d@$!%*#?&]]. *)
Definition inClass (c : ascii) : bool := isLetter c || Config.isDigit c || isSpecial c.

(** [.] matches every character but a line terminator. *)
Definition isLineTerminator (c : ascii) : bool :=
  let n := nat_of_ascii c in (n =? 10)%nat || (n =? 13)%nat.

(** What [.*] can run over from the start of the string. *)
Fixpoint firstLine (s : string) : list ascii :=
  match s with
  | EmptyString => []
  | String c rest => if isLineTerminator c then [] else c :: firstLine rest
  end.

(** The look-ahead [(?=.*X)] at the start: an [X] that only characters
    matched by [.] precede.  A line terminator is in none of the three
    classes, so the [X] itself lies on the first line. *)
Definition lookahead (class : ascii -> bool) (s : string) : bool :=
  existsb class (firstLine s).

(** [/^(?=.*[A-Za-z])(?=.*\d)(?=.*[@$!%*#?&])[A-Za-z\d@$!%*#?&]/] *)
Definition matchesPassword (s : string) : bool :=
  lookahead isLetter s && lookahead Config.isDigit s && lookahead isSpecial s
  && match s with
     | String c _ => inClass c
     | EmptyString => false
     end.

Definition nameConstraints (v : option string) : list string :=
  (Config.constraint "isNotEmpty" (Config.isNotEmpty v)
   ++ Config.constraint "minLength" (Config.minLength 3 v)
   ++ Config.constraint "isString" (Config.isString v))%list.

Definition passwordConstraints (v : option string) : list string :=
  (Config.constraint "isNotEmpty" (Config.isNotEmpty v)
   ++ Config.constraint "matches" (from_option matchesPassword false v)
   ++ Config.constraint "minLength" (Config.minLength 8 v)
   ++ Config.constraint "isString" (Config.isString v))%list.

(** [UpdateUserDto.name]: [@IsOptional()] skips the other constraints when
    the property is missing. *)
Definition optionalNameConstraints (v : option string) : list string :=
  match v with
  | None => []
  | Some _ =>
      (Config.constraint "minLength" (Config.minLength 3 v)
       ++ Config.constraint "isString" (Config.isString v))%list
  end.

End SignUpDto.

(** ** The form's validators

    [frontend/src/validators/auth.ts]: the checks the registration form
    runs on a password before it calls the API. *)
Module Validators.

(** The characters of the special-character class of the form, by code:
    the punctuation of a US keyboard except the back quote and the tilde. *)
Definition specialCodes : list nat :=
  [33; 64; 35; 36; 37; 94; 38; 42; 40; 41; 95; 43; 45; 61; 91; 93; 123; 125; 59; 39; 58;
   34; 92; 124; 44; 46; 60; 62; 47; 63]%nat.

Definition isSpecial (c : ascii) : bool :=
  existsb (Nat.eqb (nat_of_ascii c)) specialCodes.

Definition test (class : ascii -> bool) (s : string) : bool :=
  existsb class (list_ascii_of_string s).

(** [PASSWORD_REQUIREMENTS]: the message and the [test] of each entry. *)
Definition PASSWORD_REQUIREMENTS : list (string * (string -> bool)) :=
  [("Minimum 8 characters", fun password => (8 <=? String.length password)%nat);
   ("At least one letter", test SignUpDto.isLetter);
   ("At least one number", test Config.isDigit);
   ("At least one special character", test isSpecial)].

(** [passwordSchema]: the messages of the checks a password fails. *)
Definition passwordSchema (password : string) : list string :=
  map fst (List.filter (fun r => negb (snd r password)) PASSWORD_REQUIREMENTS).

End Validators.

(** ** The exception filter

    [common/filters/http-exception.filter.ts]: the reply the global filter
    writes for an [HttpException]. *)
Module HttpExceptionFilter.

(** The [message] of an exception response: one string, or the list a
    validation failure carries. *)
Inductive Message : Type :=
  | Single (text : string)
  | Several (texts : list string).

(** [exception.getResponse()]: a string, or an object that may have a
    [message]. *)
Inductive ExceptionResponse : Type :=
  | ResponseString (text : string)
  | ResponseObject (message : option Message).

(** What the filter reads off the exception it is given. *)
Record Caught : Type := {
  constructorName : string;
  status : Z;
  exceptionResponse : ExceptionResponse
}.

Record ErrorResponse : Type := {
  success : bool;
  message : string;
  error : string
}.

Definition getErrorName (statusCode : Z) : string :=
  if statusCode =? 400 then "BadRequestException"
  else if statusCode =? 401 then "UnauthorizedException"
  else if statusCode =? 403 then "ForbiddenException"
  else if statusCode =? 404 then "NotFoundException"
  else if statusCode =? 409 then "ConflictException"
  else if statusCode =? 500 then "InternalServerErrorException"
  else "HttpException".

(** [catch]: the status and the JSON body of the reply. *)
Definition catch (exception : Caught) : Z * ErrorResponse :=
  let message :=
    match exceptionResponse exception with
    | ResponseString text => Single text
    | ResponseObject (Some m) => m
    | ResponseObject None => Single "An error occurred"
    end in
  let errorMessage :=
    match message with
    | Several texts => String.concat ", " texts
    | Single text => text
    end in
  let errorName :=
    if truthy (constructorName exception) then constructorName exception
    else getErrorName (status exception) in
  (status exception,
   {| success := false; message := errorMessage; error := errorName |}).

(** The exceptions of the back end as the filter sees them: the class name,
    the status and the response body Nest builds for each.  An error that is
    not an [HttpException] does not reach this filter. *)
Definition caught (e : Exception) : option Caught :=
  match e with
  | HttpException response st =>
      Some {| constructorName := "HttpException"; status := st;
              exceptionResponse := ResponseString response |}
  | UnauthorizedException m =>
      Some {| constructorName := "UnauthorizedException"; status := 401;
              exceptionResponse := ResponseObject (Some (Single (default "Unauthorized" m))) |}
  | NotFoundException m =>
      Some {| constructorName := "NotFoundException"; status := 404;
              exceptionResponse := ResponseObject (Some (Single m)) |}
  | ConflictException m =>
      Some {| constructorName := "ConflictException"; status := 409;
              exceptionResponse := ResponseObject (Some (Single m)) |}
  | Error _ => None
  end.

End HttpExceptionFilter.

(** ** The response interceptor

    [common/interceptors/transform-response.interceptor.ts] *)
Module TransformResponseInterceptor.

(** What a handler returns, as a JavaScript value. *)
#[warnings="-register-all"]
Inductive Value : Type :=
  | VNull
  | VBool (b : bool)
  | VNumber (n : Z)
  | VString (s : string)
  | VArray (items : list Value)
  | VObject (fields : list (string * Value)).

(** ['key' in data] for an object. *)
Definition hasKey (key : string) (fields : list (string * Value)) : bool :=
  existsb (fun kv => String.eqb (fst kv) key) fields.

(** [data && typeof data === 'object' && 'success' in data && 'message' in
    data && 'data' in data]: null is falsy, an array has none of the keys. *)
Definition isStandard (data : Value) : bool :=
  match data with
  | VObject fields => hasKey "success" fields && hasKey "message" fields && hasKey "data" fields
  | _ => false
  end.

(** The function [intercept] maps over the handler's result;
    [responseMessage] is what the reflector finds under
    [RESPONSE_MESSAGE_KEY]. *)
Definition intercept (responseMessage : option string) (data : Value) : Value :=
  let message := orElse responseMessage "Operation completed successfully" in
  if isStandard data then data
  else VObject [("success", VBool true); ("message", VString message); ("data", data)].

End TransformResponseInterceptor.

(** ** The users controller

    [users/users.controller.ts]: both routes run behind [JwtAuthGuard]. *)
Module UsersController.
Section UsersController.

Context {DB : Type} `{UserModel DB}.
Variable bcryptHash : string -> Z -> string.
Variable bcryptCompare : string -> string -> bool.
Variable hmac : string -> Jwt.Claims -> string.

Definition getProfile (db : DB) (reqUser : RequestUser) : Result Entity.UserEntity :=
  UsersService.getProfile db (userId reqUser).

Definition updateProfile (db : DB) (reqUser : RequestUser)
    (updateUserDto : Dto.UpdateUserDto) : Result Entity.UserEntity * DB :=
  UsersService.updateProfile db (userId reqUser) updateUserDto.

(** [GET /users/me] *)
Definition getProfileRoute (opts : StrategyOptions) (db : DB) (req : Request) (now : Z)
    : Result Entity.UserEntity :=
  match JwtStrategy.guard (realUsersService bcryptHash bcryptCompare) hmac opts db req now with
  | Throw e => Throw e
  | Ok reqUser => getProfile db reqUser
  end.


End UsersController.
End UsersController.

(** ** Further sample data *)
Module Samples.

(** A collection whose driver can hand out no identifier: every insert
    fails. *)
Definition exhausted : Memory.Collection :=
  {| Memory.documents := []; Memory.freshIds := []; Memory.clock := 0 |}.

(** A lifetime of the validator's pattern with 102 characters: one hour,
    written with a hundred leading zeros. *)
Definition longLifetime : string :=
  "00000000000000000000000000000000000000000000000000000000000000000000000000000000000000000000000000001h".

Definition longLifetimeEnv : Config.Env := <["JWT_EXPIRES_IN" := longLifetime]> Memory.env.

(** A users service whose store is unreachable. *)
Definition unreachable : UsersServiceLike unit :=
  {| findByEmail := fun _ _ => Throw (Error "connection closed");
     findById := fun _ _ => Throw (Error "connection closed");
     create := fun db _ => (Throw (Error "connection closed"), db);
     validatePassword := fun _ _ => Throw (Error "connection closed") |}.

End Samples.

(** * Properties *)

(** ** The definitions on concrete inputs *)

Example matchesDuration_examples :
  map Config.matchesDuration ["1h"; "30m"; "7d"; "1y"; "7"; "d"; ""; "7dd"; "1.5h"; "1H"]
  = [true; true; true; true; false; false; false; false; false; false].
Proof. reflexivity. Qed.

(** Expiry times at the clock 100.  A unit may be spelled out and a number
    may have a fraction; a string that is not a time span, the empty string and
    a string of more than 100 characters give none. *)
Example timespan_examples :
  map (fun time => Jwt.timespan time 100)
    ["1h"; "30m"; "7d"; "90s"; "1.5h"; "2 days"; "250"; "soon"; ""; Samples.longLifetime]
  = [Some 3700; Some 1900; Some 604900; Some 190; Some 5500; Some 172900; Some 100;
     None; None; None].
Proof. vm_compute. reflexivity. Qed.

(** Beyond 2^53 the arithmetic rounds: twenty nines of days, added to a
    clock of 1700000000, do not expire at the sum of the two. *)
Example timespan_rounds :
  Jwt.timespan "99999999999999999999d" 1700000000 = Some 8640000000000001744830464 /\
  wholeSeconds "99999999999999999999d" = Some 8639999999999999999913600.
Proof. split; vm_compute; reflexivity. Qed.

(** An access lifetime of 102 characters passes startup validation, and
    then every sign-in throws and every refresh answers "Invalid refresh
    token". *)
Example long_lifetime_example :
  Config.forRoot Memory.noParse Samples.longLifetimeEnv
    = Config.Booted (Config.configuration Samples.longLifetimeEnv) /\
  AuthService.signIn Memory.mac (Config.configuration Samples.longLifetimeEnv) 100 Memory.ann
    = Throw (Error "expiresIn should be a number of seconds or string representing a timespan") /\
  AuthService.refreshTokens Memory.usersService Memory.mac
    (Config.configuration Samples.longLifetimeEnv) Memory.withAnn 100
    "507f1f77bcf86cd799439011" "a@b.com"
    = Throw (UnauthorizedException (Some "Invalid refresh token")).
Proof. repeat split; vm_compute; reflexivity. Qed.

(** Lower case: A-Z, and the accented capitals below 256 (here 201, E with
    acute, which becomes 233). *)
Example toLowerCase_example :
  toLowerCase "Ann.Lee@B.com" = "ann.lee@b.com" /\
  toLowerCase (String (ascii_of_nat 201) "COLE@B.com") = String (ascii_of_nat 233) "cole@b.com".
Proof. split; reflexivity. Qed.

(** A sign-up on the empty collection stores Ann with a hashed password and
    a lower-case email, and issues tokens that expire after one hour and after
    seven days. *)
Example signUp_example :
  AuthService.signUp Memory.usersService Memory.mac Memory.config Memory.empty 100
    Memory.annSignUp
  = (Ok {| response :=
             {| user := UsersService.toUserEntity Memory.ann;
                access_token := Jwt.Compact Memory.annAccess Memory.accessSecret |};
           refreshToken := Jwt.Compact Memory.annRefresh Memory.otherSecret |},
     Memory.withAnn).
Proof. vm_compute. reflexivity. Qed.

(** A second sign-up with the same email, in another case, is a conflict. *)
Example signUp_twice_example :
  fst (AuthService.signUp Memory.usersService Memory.mac Memory.config Memory.withAnn 200
         Memory.annSignUp)
  = Throw (ConflictException "User with this email already exists").
Proof. vm_compute. reflexivity. Qed.

(** A short access secret is reported under [minLength] only; a missing one
    under [minLength] and [isString]. *)
Example validate_short_secret_example :
  Config.validate Memory.noParse (<["JWT_SECRET" := "too-short"]> Memory.env)
  = Config.Rejected [ {| Config.property := "JWT_SECRET";
                         Config.constraints := ["minLength"] |} ].
Proof. vm_compute. reflexivity. Qed.

Example validate_missing_secret_example :
  Config.validate Memory.noParse (delete "JWT_REFRESH_SECRET" Memory.env)
  = Config.Rejected [ {| Config.property := "JWT_REFRESH_SECRET";
                         Config.constraints := ["minLength"; "isString"] |} ].
Proof. vm_compute. reflexivity. Qed.

(** ** Startup validation *)


Lemma minLength_secretOk (v : option string) :
  Config.minLength 32 v = true <-> secretOk v.
Proof.
  unfold secretOk, Config.minLength. destruct v as [s|].
  - rewrite Nat.leb_le. split.
    + intros Hlen. exists s. split; [reflexivity | exact Hlen].
    + intros (s' & Heq & Hlen). injection Heq as ->. exact Hlen.
  - split; [discriminate |]. intros (s & Heq & _). discriminate.
Qed.

Lemma secretOk_nonEmpty (v : option string) :
  secretOk v -> exists s, v = Some s /\ Jwt.nonEmpty v = Some s /\ (32 <= String.length s)%nat.
Proof.
  intros (s & -> & Hlen). exists s. repeat split; [| exact Hlen].
  destruct s as [|c s]; [simpl in Hlen; lia | reflexivity].
Qed.

Lemma report_nil (prop : string) (failed : list string) :
  Config.report prop failed = [] -> failed = [].
Proof. destruct failed; [reflexivity | discriminate]. Qed.

Lemma constraint_nil (name : string) (holds : bool) :
  Config.constraint name holds = [] -> holds = true.
Proof. destruct holds; [reflexivity | discriminate]. Qed.

(** When no constraint fails, both secrets passed [MinLength(32)]. *)
Lemma validateSync_nil_secrets (c : Config.EnvironmentVariables) :
  Config.validateSync c = [] ->
  secretOk (Config.JWT_SECRET c) /\ secretOk (Config.JWT_REFRESH_SECRET c).
Proof.
  unfold Config.validateSync. intros Hnil.
  repeat match type of Hnil with
         | (_ ++ _)%list = [] => apply app_eq_nil in Hnil; destruct Hnil as [? Hnil]
         end.
  split; apply minLength_secretOk.
  - match goal with
    | Hr : Config.report "JWT_SECRET" _ = [] |- _ =>
        apply report_nil, app_eq_nil in Hr; destruct Hr as [Hr _];
        exact (constraint_nil _ _ Hr)
    end.
  - match goal with
    | Hr : Config.report "JWT_REFRESH_SECRET" _ = [] |- _ =>
        apply report_nil, app_eq_nil in Hr; destruct Hr as [Hr _];
        exact (constraint_nil _ _ Hr)
    end.
Qed.

Lemma validate_booted (parseIntOfNumber : string -> option Z) (env : Config.Env)
    (v : Config.EnvironmentVariables) :
  Config.validate parseIntOfNumber env = Config.Booted v ->
  v = Config.plainToInstance parseIntOfNumber env /\ Config.validateSync v = [].
Proof.
  unfold Config.validate.
  destruct (Config.validateSync (Config.plainToInstance parseIntOfNumber env)) eqn:Hsync;
    [| discriminate].
  intros Heq. injection Heq as <-. split; [reflexivity | exact Hsync].
Qed.

(** A configuration that passed startup validation carries two secrets of
    at least 32 characters. *)
Lemma forRoot_booted_secrets (parseIntOfNumber : string -> option Z) (env : Config.Env)
    (config : Config.AppConfig) :
  Config.forRoot parseIntOfNumber env = Config.Booted config ->
  config = Config.configuration env /\
  secretOk (Config.secret (Config.jwt config)) /\
  secretOk (Config.refreshSecret (Config.jwt config)).
Proof.
  unfold Config.forRoot.
  destruct (Config.validate parseIntOfNumber env) as [v|errors] eqn:Hval; [| discriminate].
  intros Heq. injection Heq as <-.
  apply validate_booted in Hval. destruct Hval as [-> Hsync].
  apply validateSync_nil_secrets in Hsync. simpl in Hsync.
  split; [reflexivity | exact Hsync].
Qed.

(** X23: Startup validation rejects the boot, with at least one validation
    error, whenever the access-signing secret or the refresh-signing secret is
    unset or shorter than 32 characters. *)
Theorem boot_rejected_without_secrets (parseIntOfNumber : string -> option Z)
    (env : Config.Env) :
  ~ secretOk (env !! "JWT_SECRET") \/ ~ secretOk (env !! "JWT_REFRESH_SECRET") ->
  exists errors, errors <> [] /\ Config.forRoot parseIntOfNumber env = Config.Rejected errors.
Proof.
  intros Hbad.
  destruct (Config.forRoot parseIntOfNumber env) as [config|errors] eqn:Hboot.
  - apply forRoot_booted_secrets in Hboot. destruct Hboot as (-> & Ha & Hr).
    simpl in Ha, Hr. destruct Hbad as [Hbad|Hbad]; contradiction.
  - exists errors. split; [| reflexivity].
    unfold Config.forRoot, Config.validate in Hboot.
    destruct (Config.validateSync (Config.plainToInstance parseIntOfNumber env));
      [discriminate |].
    injection Hboot as <-. discriminate.
Qed.

Lemma boot_rejected_without_secrets_witness :
  ~ secretOk (delete "JWT_SECRET" Memory.env !! "JWT_SECRET") /\
  exists errors, errors <> [] /\
    Config.forRoot Memory.noParse (delete "JWT_SECRET" Memory.env) = Config.Rejected errors.
Proof.
  assert (Hunset : ~ secretOk (delete "JWT_SECRET" Memory.env !! "JWT_SECRET")).
  { intros (s & Hs & _). vm_compute in Hs. discriminate. }
  split; [exact Hunset |].
  apply (boot_rejected_without_secrets Memory.noParse (delete "JWT_SECRET" Memory.env)).
  left. exact Hunset.
Defined.

(** C1, at the failing input: an environment whose two secrets are the same
    35-character string passes startup validation, where the claim and the
    documentation of the repository have the boot rejected; the booted
    configuration holds one key for both keyspaces. *)
Theorem boot_accepts_equal_secrets :
  Config.forRoot Memory.noParse Memory.sameSecretEnv
    = Config.Booted (Config.configuration Memory.sameSecretEnv)
  /\ Config.secret (Config.jwt (Config.configuration Memory.sameSecretEnv))
     = Config.refreshSecret (Config.jwt (Config.configuration Memory.sameSecretEnv)).
Proof. split; vm_compute; reflexivity. Qed.

(** ** Signing under a validated configuration *)

(** *** Exact arithmetic *)

Lemma Qred_inject_Z (z : Z) : Qred (inject_Z z) = inject_Z z.
Proof.
  assert (Heq : Qred (inject_Z z) == inject_Z z) by apply Qred_correct.
  pose proof (gcd_Qred (inject_Z z)) as Hg.
  destruct (Qred (inject_Z z)) as [n d]. unfold Qeq in Heq. cbn in Heq, Hg.
  rewrite Z.mul_1_r in Heq. subst n.
  rewrite Z.gcd_comm, Z.mul_comm, Z.gcd_mul_diag_l in Hg by lia.
  assert (d = 1%positive) by lia. subst d. rewrite Z.mul_1_r. reflexivity.
Qed.

(** Rounding depends on the value only, not on the fraction that gives it. *)
Lemma round_comp (x y : Q) : x == y -> Double.round x = Double.round y.
Proof. intros Heq. unfold Double.round. rewrite (Qred_complete x y Heq). reflexivity. Qed.

Lemma dyadic_exact (z e : Z) :
  e <= 0 -> Double.dyadic (z * 2 ^ (- e)) e == inject_Z z.
Proof.
  intros He. unfold Double.dyadic. destruct (0 <=? e) eqn:Hle.
  - apply Z.leb_le in Hle. assert (e = 0) by lia. subst e.
    cbn. rewrite !Z.mul_1_r. reflexivity.
  - unfold Qeq. cbn [Qnum Qden inject_Z].
    rewrite Z2Pos.id by (apply Z.pow_pos_nonneg; lia). ring.
Qed.

(** An integer below 2^53 in magnitude is a binary64 value. *)
Lemma round_integer (z : Z) : safe z -> Double.round (inject_Z z) == inject_Z z.
Proof.
  unfold safe. intros Hz. unfold Double.round. rewrite Qred_inject_Z. cbn [Qnum Qden inject_Z].
  destruct (z =? 0) eqn:Hz0.
  - apply Z.eqb_eq in Hz0. subst z. reflexivity.
  - apply Z.eqb_neq in Hz0.
    assert (Habs : 0 < Z.abs z < 2 ^ 53) by lia.
    assert (Hlog : 0 <= Z.log2 (Z.abs z) < 53).
    { split; [apply Z.log2_nonneg |]. apply Z.log2_lt_pow2; lia. }
    assert (Hfl : Double.floorLog2 (Z.abs z) 1 = Z.log2 (Z.abs z)).
    { unfold Double.floorLog2. change (Z.log2 1) with 0. rewrite Z.sub_0_r.
      rewrite Z.max_l by lia. rewrite Z.max_r by lia.
      change (2 ^ 0) with 1. rewrite Z.mul_1_r, Z.mul_1_l.
      destruct (Z.abs z <? 2 ^ Z.log2 (Z.abs z)) eqn:Hlt; [| reflexivity].
      apply Z.ltb_lt in Hlt. pose proof (Z.log2_spec (Z.abs z) (proj1 Habs)). lia. }
    rewrite Hfl.
    set (e := Z.max (Z.log2 (Z.abs z) - 52) (-1074)).
    assert (He : e <= 0) by (unfold e; lia).
    rewrite (Z.max_l 0 e) by lia. rewrite (Z.max_r 0 (- e)) by lia.
    change (2 ^ 0) with 1. rewrite Z.mul_1_r.
    assert (Hr : Double.roundHalfEven (z * 2 ^ (- e)) 1 = z * 2 ^ (- e)).
    { unfold Double.roundHalfEven. rewrite Z.div_1_r, Z.mod_1_r. reflexivity. }
    rewrite Hr. apply dyadic_exact. exact He.
Qed.

Lemma round_exact (x : Q) (z : Z) :
  x == inject_Z z -> safe z -> Double.round x == inject_Z z.
Proof. intros Heq Hz. rewrite (round_comp _ _ Heq). apply round_integer. exact Hz. Qed.

Lemma Qfloor_exact (x : Q) (z : Z) : x == inject_Z z -> Qfloor x = z.
Proof.
  intros Heq.
  assert (H1 : (Qfloor x <= Qfloor (inject_Z z))%Z)
    by (apply Qfloor_resp_le; rewrite Heq; apply Qle_refl).
  assert (H2 : (Qfloor (inject_Z z) <= Qfloor x)%Z)
    by (apply Qfloor_resp_le; rewrite Heq; apply Qle_refl).
  rewrite Qfloor_Z in H1, H2. lia.
Qed.

Lemma thousandth (k : Z) : inject_Z (1000 * k) / inject_Z 1000 == inject_Z k.
Proof. unfold Qeq, Qdiv, Qmult, Qinv. cbn. lia. Qed.

(** *** Time strings of the validator's pattern *)

Lemma isUnit_cases (u : ascii) :
  Config.isUnit u = true ->
  u = "s"%char \/ u = "m"%char \/ u = "h"%char \/ u = "d"%char \/ u = "w"%char \/ u = "y"%char.
Proof.
  unfold Config.isUnit. cbn [existsb]. intros Hu.
  repeat (apply orb_prop in Hu; destruct Hu as [Hu|Hu];
          [apply Ascii.eqb_eq in Hu; tauto |]).
  discriminate.
Qed.

Lemma isDigit_digitValue (c : ascii) : Config.isDigit c = true -> 0 <= Ms.digitValue c <= 9.
Proof.
  unfold Config.isDigit, Ms.digitValue. intros Hd.
  apply andb_true_iff in Hd. destruct Hd as [Hlo Hhi].
  apply Nat.leb_le in Hlo. apply Nat.leb_le in Hhi. lia.
Qed.

Lemma unitSeconds_pos (u : ascii) : 0 < unitSeconds u.
Proof.
  unfold unitSeconds.
  repeat match goal with |- context [if ?b then _ else _] => destruct b end; lia.
Qed.

(** A string of the validator's pattern is digits followed by one unit. *)
Lemma matchesDuration_span (str : string) :
  forall seen, Config.matchesDurationFrom seen str = true ->
  exists digits u,
    Ms.span Config.isDigit str = (digits, String u EmptyString) /\
    Config.isUnit u = true /\
    (seen = false -> digits <> EmptyString) /\
    (forall acc, 0 <= acc -> 0 <= Ms.digitsValue acc digits) /\
    (forall acc, readSeconds acc str = Some (Ms.digitsValue acc digits * unitSeconds u)).
Proof.
  induction str as [|c rest IH]; intros seen Hm; [discriminate |].
  destruct rest as [|c' rest'].
  - cbn [Config.matchesDurationFrom] in Hm. apply andb_true_iff in Hm.
    destruct Hm as [Hseen Hu].
    exists EmptyString, c. cbn [Ms.span].
    assert (Hnd : Config.isDigit c = false).
    { destruct (isUnit_cases c Hu) as [->|[->|[->|[->|[->| ->]]]]]; reflexivity. }
    rewrite Hnd. split; [reflexivity |]. split; [exact Hu |].
    split; [intros ->; discriminate |].
    split; [intros acc Hacc; exact Hacc |]. intros acc. reflexivity.
  - change (Config.matchesDurationFrom seen (String c (String c' rest')))
      with (Config.isDigit c && Config.matchesDurationFrom true (String c' rest')) in Hm.
    apply andb_true_iff in Hm. destruct Hm as [Hd Hm].
    destruct (IH true Hm) as (digits & u & Hspan & Hu & _ & Hpos & Hread).
    exists (String c digits), u.
    change (Ms.span Config.isDigit (String c (String c' rest')))
      with (if Config.isDigit c
            then let '(taken, others) := Ms.span Config.isDigit (String c' rest') in
                 (String c taken, others)
            else (EmptyString, String c (String c' rest'))).
    rewrite Hd, Hspan.
    split; [reflexivity |]. split; [exact Hu |].
    split; [intros _; discriminate |].
    split.
    + intros acc Hacc. cbn [Ms.digitsValue]. apply Hpos.
      pose proof (isDigit_digitValue c Hd). lia.
    + intros acc.
      change (readSeconds acc (String c (String c' rest')))
        with (readSeconds (10 * acc + Ms.digitValue c) (String c' rest')).
      rewrite Hread. reflexivity.
Qed.

Lemma scale_unit (n : Q) (u : ascii) :
  Config.isUnit u = true ->
  Ms.scale n (toLowerCase (Ms.dropSpaces (String u EmptyString)))
  = Some (Double.mul n (inject_Z (1000 * unitSeconds u))) /\
  String.eqb (toLowerCase (Ms.dropSpaces (String u EmptyString))) "" = false /\
  Ms.stripPrefix "." (String u EmptyString) = None.
Proof.
  intros Hu.
  destruct (isUnit_cases u Hu) as [->|[->|[->|[->|[->| ->]]]]];
    repeat split; reflexivity.
Qed.

Lemma append_empty_r (str : string) : String.append str "" = str.
Proof.
  induction str as [|c rest IH]; [reflexivity |].
  change (String.append (String c rest) "") with (String c (String.append rest "")).
  rewrite IH. reflexivity.
Qed.

(** [ms] gives nothing for a string of more than 100 characters. *)
Lemma ms_long (str : string) : (100 < String.length str)%nat -> Ms.ms str = None.
Proof.
  intros Hlen. unfold Ms.ms, Ms.parse.
  replace (100 <? String.length str)%nat with true
    by (symmetry; apply Nat.ltb_lt; exact Hlen).
  reflexivity.
Qed.

(** On a string of the validator's pattern of at most 100 characters [ms]
    reads the digits and multiplies by the unit. *)
Lemma ms_pattern (str : string) :
  Config.matchesDuration str = true ->
  (String.length str <= 100)%nat ->
  exists digits u,
    Config.isUnit u = true /\
    0 <= Ms.digitsValue 0 digits /\
    wholeSeconds str = Some (Ms.digitsValue 0 digits * unitSeconds u) /\
    Ms.ms str
    = Some (Double.mul (Double.round (inject_Z (Ms.digitsValue 0 digits) / inject_Z 1))
              (inject_Z (1000 * unitSeconds u))).
Proof.
  intros Hm Hlen. unfold wholeSeconds. rewrite Hm. unfold Config.matchesDuration in Hm.
  destruct (matchesDuration_span str false Hm)
    as (digits & u & Hspan & Hu & Hne & Hpos & Hread).
  exists digits, u. split; [exact Hu |]. split; [apply Hpos; lia |].
  split; [apply Hread |].
  unfold Ms.ms, Ms.parse.
  replace (100 <? String.length str)%nat with false
    by (symmetry; apply Nat.ltb_ge; exact Hlen).
  assert (Hsign : Ms.stripPrefix "-" str = None).
  { destruct str as [|c rest]; [reflexivity |]. cbn [Ms.stripPrefix].
    destruct (Ascii.eqb c "-") eqn:Hc; [| reflexivity].
    apply Ascii.eqb_eq in Hc. subst c.
    destruct rest as [|c' rest']; discriminate. }
  rewrite Hsign, Hspan.
  destruct (scale_unit (Ms.parseFloat false digits "") u Hu) as (Hscale & Htype & Hpoint).
  rewrite Hpoint.
  destruct (String.eqb digits "") eqn:Hd.
  { apply String.eqb_eq in Hd. exfalso. apply Hne; [reflexivity | exact Hd]. }
  rewrite Htype, Hscale. unfold Ms.parseFloat.
  rewrite append_empty_r. reflexivity.
Qed.

(** [sign] reads a lifetime of the validator's pattern exactly when it has
    at most 100 characters. *)
Lemma timespan_defined_iff (time : string) (now : Z) :
  Config.matchesDuration time = true ->
  ((exists e, Jwt.timespan time now = Some e) <-> (String.length time <= 100)%nat).
Proof.
  intros Hm. unfold Jwt.timespan. split.
  - intros [e He]. destruct (Nat.le_gt_cases (String.length time) 100) as [Hle|Hgt];
      [exact Hle |].
    rewrite (ms_long time Hgt) in He. discriminate.
  - intros Hlen. destruct (ms_pattern time Hm Hlen) as (digits & u & _ & _ & _ & Hms).
    rewrite Hms. eexists. reflexivity.
Qed.

(** Within the exact range the expiry is the clock plus the whole seconds
    of the lifetime. *)
Lemma timespan_exact (time : string) (now n : Z) :
  exactLifetime time now n -> Jwt.timespan time now = Some (now + n).
Proof.
  intros (Hw & Hlen & Hms & Hexp).
  assert (Hm : Config.matchesDuration time = true).
  { unfold wholeSeconds in Hw.
    destruct (Config.matchesDuration time); [reflexivity | discriminate]. }
  destruct (ms_pattern time Hm Hlen) as (digits & u & Hu & Hpos & Hw' & Hparse).
  rewrite Hw in Hw'. injection Hw' as ->.
  unfold Jwt.timespan. rewrite Hparse. f_equal.
  pose proof (unitSeconds_pos u) as Hunit.
  set (N := Ms.digitsValue 0 digits) in *.
  unfold safe in Hms, Hexp.
  unfold Double.floor, Double.add, Double.div, Double.mul.
  assert (HN : Double.round (inject_Z N / inject_Z 1) == inject_Z N).
  { apply round_exact; [unfold Qeq, Qdiv, Qmult, Qinv; cbn; lia | unfold safe; nia]. }
  assert (Hmul : Double.round (Double.round (inject_Z N / inject_Z 1)
                               * inject_Z (1000 * unitSeconds u))
                 == inject_Z (1000 * (N * unitSeconds u))).
  { apply round_exact; [| unfold safe; lia].
    rewrite HN, <- inject_Z_mult. apply inject_Z_injective. ring. }
  assert (Hdiv : Double.round
                   (Double.round (Double.round (inject_Z N / inject_Z 1)
                                  * inject_Z (1000 * unitSeconds u)) / inject_Z 1000)
                 == inject_Z (N * unitSeconds u)).
  { apply round_exact; [| unfold safe; nia]. rewrite Hmul. apply thousandth. }
  apply Qfloor_exact. apply round_exact; [| exact Hexp].
  rewrite Hdiv, <- inject_Z_plus. reflexivity.
Qed.

(** The whole seconds of a time string are not negative. *)
Lemma wholeSeconds_nonneg (time : string) (n : Z) : wholeSeconds time = Some n -> 0 <= n.
Proof.
  unfold wholeSeconds. destruct (Config.matchesDuration time) eqn:Hm; [| discriminate].
  destruct (matchesDuration_span time false Hm) as (digits & u & _ & _ & _ & Hpos & Hread).
  rewrite Hread. intros Heq. injection Heq as <-.
  pose proof (Hpos 0 (Z.le_refl 0)). pose proof (unitSeconds_pos u). nia.
Qed.

Lemma wholeSeconds_total (time : string) :
  Config.matchesDuration time = true -> exists n, wholeSeconds time = Some n.
Proof.
  intros Hm. unfold wholeSeconds. rewrite Hm.
  destruct (matchesDuration_span time false Hm) as (digits & u & _ & _ & _ & _ & Hread).
  rewrite Hread. eexists. reflexivity.
Qed.

(** *** The configuration that booted *)

Lemma validateSync_nil (c : Config.EnvironmentVariables) :
  Config.validateSync c = [] ->
  Config.isNotEmpty (Config.MONGODB_URI c) = true /\
  Config.matchesDuration (Config.JWT_EXPIRES_IN c) = true /\
  Config.matchesDuration (Config.JWT_REFRESH_EXPIRES_IN c) = true /\
  1 <= Config.PORT c /\
  Config.isEnum Config.Environment (Config.NODE_ENV c) = true /\
  Config.isEnum Config.LogLevel (Config.LOG_LEVEL c) = true.
Proof.
  unfold Config.validateSync. intros Hnil.
  repeat match type of Hnil with
         | (_ ++ _)%list = [] => apply app_eq_nil in Hnil; destruct Hnil as [? Hnil]
         end.
  repeat match goal with
         | Hr : Config.report _ _ = [] |- _ => apply report_nil in Hr
         end.
  repeat match goal with
         | Hr : (_ ++ _)%list = [] |- _ => apply app_eq_nil in Hr; destruct Hr as [? ?]
         end.
  repeat match goal with
         | Hr : Config.constraint _ _ = [] |- _ => apply constraint_nil in Hr
         end.
  repeat split; try assumption.
  apply Z.leb_le. assumption.
Qed.

(** The lifetimes of a validated configuration have the validator's
    pattern, and its environment name is one the validator knows. *)
Lemma forRoot_booted_lifetimes (parseIntOfNumber : string -> option Z) (env : Config.Env)
    (config : Config.AppConfig) :
  Config.forRoot parseIntOfNumber env = Config.Booted config ->
  Config.matchesDuration (Config.expiresIn (Config.jwt config)) = true /\
  Config.matchesDuration (Config.refreshExpiresIn (Config.jwt config)) = true /\
  Config.isEnum Config.Environment (Config.nodeEnv config) = true.
Proof.
  intros Hboot. unfold Config.forRoot in Hboot.
  destruct (Config.validate parseIntOfNumber env) as [v|errors] eqn:Hval; [| discriminate].
  injection Hboot as <-.
  apply validate_booted in Hval. destruct Hval as [-> Hsync].
  apply validateSync_nil in Hsync.
  destruct Hsync as (_ & He & Hre & _ & Henv & _).
  cbn [Config.jwt Config.expiresIn Config.refreshExpiresIn Config.nodeEnv
       Config.configuration].
  split; [exact He |]. split; [exact Hre | exact Henv].
Qed.

(** *** The issuer *)

(** Whenever the issuer returns, it has signed the payload of the identity
    twice at the clock it was given: with the secret of the module for the
    lifetime of the module, and with the refresh secret (the secret of the
    module when the refresh secret is missing or empty) for the refresh
    lifetime. *)
Lemma generateAuthResponse_inv (hmac : string -> Jwt.Claims -> string)
    (config : Config.AppConfig) (now : Z) (identity : UserDocument) (result : AuthResult) :
  AuthService.generateAuthResponse hmac config now identity = Ok result ->
  exists ka kr ea er,
    Jwt.nonEmpty (Config.secret (Config.jwt config)) = Some ka /\
    kr = default ka (Jwt.nonEmpty (Config.refreshSecret (Config.jwt config))) /\
    Jwt.timespan (Config.expiresIn (Config.jwt config)) now = Some ea /\
    Jwt.timespan (Config.refreshExpiresIn (Config.jwt config)) now = Some er /\
    result = {| response :=
                  {| user := UsersService.toUserEntity identity;
                     access_token :=
                       Jwt.Compact (claimsUntil identity now ea)
                         (hmac ka (claimsUntil identity now ea)) |};
                refreshToken :=
                  Jwt.Compact (claimsUntil identity now er)
                    (hmac kr (claimsUntil identity now er)) |}.
Proof.
  unfold AuthService.generateAuthResponse, Jwt.sign, jwtModuleOptions, Jwt.signWith.
  cbn [Jwt.moduleSecret Jwt.moduleExpiresIn Jwt.secret Jwt.expiresIn].
  destruct (Jwt.nonEmpty (Config.secret (Config.jwt config))) as [ka|]; [| discriminate].
  destruct (Jwt.timespan (Config.expiresIn (Config.jwt config)) now) as [ea|];
    [| discriminate].
  cbn [mbind Result_bind bind].
  destruct (Jwt.nonEmpty (Config.refreshSecret (Config.jwt config))) as [kr|];
    destruct (Jwt.timespan (Config.refreshExpiresIn (Config.jwt config)) now) as [er|];
    try discriminate; cbn [mbind Result_bind bind];
    intros Heq; injection Heq as <-.
  - exists ka, kr, ea, er. repeat split.
  - exists ka, ka, ea, er. repeat split.
Qed.

(** The issuer returns, or throws, at every clock and for every identity
    alike: whether it returns is decided by the configuration. *)
Lemma generateAuthResponse_returns (hmac : string -> Jwt.Claims -> string)
    (config : Config.AppConfig) (now now' : Z) (identity identity' : UserDocument)
    (result : AuthResult) :
  AuthService.generateAuthResponse hmac config now identity = Ok result ->
  exists result', AuthService.generateAuthResponse hmac config now' identity' = Ok result'.
Proof.
  unfold AuthService.generateAuthResponse, Jwt.sign, jwtModuleOptions, Jwt.signWith,
    Jwt.timespan.
  cbn [Jwt.moduleSecret Jwt.moduleExpiresIn Jwt.secret Jwt.expiresIn].
  destruct (Jwt.nonEmpty (Config.secret (Config.jwt config))) as [ka|]; [| discriminate].
  destruct (Ms.ms (Config.expiresIn (Config.jwt config))) as [ta|]; [| discriminate].
  cbn [mbind Result_bind bind].
  destruct (Jwt.nonEmpty (Config.refreshSecret (Config.jwt config))) as [kr|];
    destruct (Ms.ms (Config.refreshExpiresIn (Config.jwt config))) as [tr|];
    try discriminate; cbn [mbind Result_bind bind]; intros _; eexists; reflexivity.
Qed.

(** Under a validated configuration the two keyspaces have the two secrets
    of the configuration; what the issuer returns is the pair of that
    configuration; and the issuer returns exactly when [ms] reads both
    lifetimes, that is, when neither has more than 100 characters. *)
Lemma generateAuthResponse_booted (hmac : string -> Jwt.Claims -> string)
    (parseIntOfNumber : string -> option Z) (env : Config.Env) (config : Config.AppConfig) :
  Config.forRoot parseIntOfNumber env = Config.Booted config ->
  exists ka kr,
    Config.secret (Config.jwt config) = Some ka /\
    Config.refreshSecret (Config.jwt config) = Some kr /\
    JwtStrategy.options config
      = Ok {| ignoreExpiration := false; secretOrKey := ka; passReqToCallback := false |} /\
    RefreshTokenStrategy.options config
      = Ok {| ignoreExpiration := false; secretOrKey := kr; passReqToCallback := true |} /\
    (forall now identity result,
       AuthService.generateAuthResponse hmac config now identity = Ok result ->
       issuedFor hmac config identity now result) /\
    (forall now identity,
       (exists result, AuthService.generateAuthResponse hmac config now identity = Ok result)
       <-> (String.length (Config.expiresIn (Config.jwt config)) <= 100)%nat /\
           (String.length (Config.refreshExpiresIn (Config.jwt config)) <= 100)%nat).
Proof.
  intros Hboot.
  destruct (forRoot_booted_lifetimes _ _ _ Hboot) as (Hma & Hmr & _).
  destruct (forRoot_booted_secrets _ _ _ Hboot) as (_ & Ha & Hr).
  apply secretOk_nonEmpty in Ha. destruct Ha as (ka & Hka & Hka' & _).
  apply secretOk_nonEmpty in Hr. destruct Hr as (kr & Hkr & Hkr' & _).
  exists ka, kr.
  split; [exact Hka |]. split; [exact Hkr |].
  split; [unfold JwtStrategy.options, orThrow; rewrite Hka'; reflexivity |].
  split; [unfold RefreshTokenStrategy.options, orThrow; rewrite Hkr'; reflexivity |].
  split.
  - intros now identity result Hgen.
    apply generateAuthResponse_inv in Hgen.
    destruct Hgen as (ka' & kr' & ea & er & Hka'' & -> & Hea & Her & ->).
    rewrite Hka' in Hka''. injection Hka'' as <-. rewrite Hkr'. cbn [default].
    exists ka, kr, ea, er. cbn [response access_token refreshToken user].
    repeat split; assumption.
  - intros now identity. split.
    + intros [result Hgen]. apply generateAuthResponse_inv in Hgen.
      destruct Hgen as (ka' & kr' & ea & er & _ & _ & Hea & Her & _).
      split; apply (timespan_defined_iff _ now); try assumption; eexists; eassumption.
    + intros [Hla Hlr].
      destruct (proj2 (timespan_defined_iff _ now Hma) Hla) as [ea Hea].
      destruct (proj2 (timespan_defined_iff _ now Hmr) Hlr) as [er Her].
      unfold AuthService.generateAuthResponse, Jwt.sign, jwtModuleOptions, Jwt.signWith.
      cbn [Jwt.moduleSecret Jwt.moduleExpiresIn Jwt.secret Jwt.expiresIn].
      rewrite Hka', Hkr', Hea, Her. eexists. reflexivity.
Qed.

(** ** Keyspaces *)

Lemma exactLifetime_defaults (now : Z) :
  0 <= now -> now < 2 ^ 52 ->
  exactLifetime "1h" now 3600 /\ exactLifetime "7d" now 604800.
Proof.
  intros Hlo Hhi. unfold exactLifetime, safe.
  split; (split; [reflexivity |]); (split; [cbn; lia |]); lia.
Qed.

(** C5, at the failing input: the environment that uses one secret for
    both keyspaces is accepted at startup, and then, whatever the HMAC, the
    identity and the clock, the refresh token the issuer returns verifies in
    the access keyspace and the access token verifies in the refresh keyspace,
    where the claim has both fail. *)
Theorem refresh_token_verifies_as_access :
  Config.forRoot Memory.noParse Memory.sameSecretEnv
    = Config.Booted (Config.configuration Memory.sameSecretEnv)
  /\ forall (hmac : string -> Jwt.Claims -> string) (user : UserDocument) (now : Z),
       0 <= now -> now < 2 ^ 52 ->
       exists result accessOptions refreshOptions,
         AuthService.generateAuthResponse hmac (Config.configuration Memory.sameSecretEnv)
           now user = Ok result /\
         JwtStrategy.options (Config.configuration Memory.sameSecretEnv) = Ok accessOptions /\
         RefreshTokenStrategy.options (Config.configuration Memory.sameSecretEnv)
           = Ok refreshOptions /\
         Jwt.verify hmac (refreshToken result) (secretOrKey accessOptions)
           (ignoreExpiration accessOptions) now
         = Ok (claimsFor user now 604800000) /\
         Jwt.verify hmac (access_token (response result)) (secretOrKey refreshOptions)
           (ignoreExpiration refreshOptions) now
         = Ok (claimsFor user now 3600000).
Proof.
  assert (Hboot : Config.forRoot Memory.noParse Memory.sameSecretEnv
                  = Config.Booted (Config.configuration Memory.sameSecretEnv))
    by (vm_compute; reflexivity).
  split; [exact Hboot |].
  intros hmac user now Hlo Hhi.
  destruct (generateAuthResponse_booted hmac _ _ _ Hboot)
    as (ka & kr & Hka & Hkr & Hao & Hro & Hissued & Hreturns).
  assert (Hsame : ka = kr).
  { assert (Hs : Some ka = Some kr) by (rewrite <- Hka, <- Hkr; vm_compute; reflexivity).
    injection Hs as ->. reflexivity. }
  subst kr.
  destruct (proj2 (Hreturns now user)) as [result Hgen]; [split; vm_compute; lia |].
  destruct (Hissued now user result Hgen)
    as (ka' & kr' & ea & er & Hka' & Hkr' & Hea & Her & Hat & Hrt & _).
  rewrite Hka in Hka'. injection Hka' as <-.
  rewrite Hkr in Hkr'. injection Hkr' as <-.
  destruct (exactLifetime_defaults now Hlo Hhi) as [Hone Hseven].
  change (Config.expiresIn (Config.jwt (Config.configuration Memory.sameSecretEnv)))
    with "1h" in Hea.
  change (Config.refreshExpiresIn (Config.jwt (Config.configuration Memory.sameSecretEnv)))
    with "7d" in Her.
  rewrite (timespan_exact _ _ _ Hone) in Hea. injection Hea as <-.
  rewrite (timespan_exact _ _ _ Hseven) in Her. injection Her as <-.
  exists result. eexists _, _.
  split; [exact Hgen |]. split; [exact Hao |]. split; [exact Hro |].
  rewrite Hat, Hrt. cbn [secretOrKey ignoreExpiration].
  unfold Jwt.verify. rewrite !String.eqb_refl.
  cbn [negb Jwt.exp claimsUntil andb].
  replace (now + 604800 <=? now) with false by (symmetry; apply Z.leb_gt; lia).
  replace (now + 3600 <=? now) with false by (symmetry; apply Z.leb_gt; lia).
  split; reflexivity.
Qed.

(** ** Expiry *)

Lemma verify_expired (hmac : string -> Jwt.Claims -> string) (c : Jwt.Claims)
    (signature key : string) (e now : Z) :
  Jwt.exp c = Some e -> e < now ->
  exists err, Jwt.verify hmac (Jwt.Compact c signature) key false now = Throw (Error err).
Proof.
  intros Hexp Hpast. unfold Jwt.verify.
  destruct (negb (String.eqb signature (hmac key c))); [eexists; reflexivity |].
  rewrite Hexp.
  replace (e <=? now) with true by (symmetry; apply Z.leb_le; lia).
  eexists. reflexivity.
Qed.

Lemma authGuard_verify_fails (hmac : string -> Jwt.Claims -> string)
    (options : StrategyOptions) (jwtFromRequest : Request -> option Jwt.TokenString)
    (validate : Request -> Jwt.Claims -> Result RequestUser) (req : Request) (now : Z)
    (token : Jwt.TokenString) (err : Exception) :
  jwtFromRequest req = Some token ->
  Jwt.verify hmac token (secretOrKey options) (ignoreExpiration options) now = Throw err ->
  authGuard hmac options jwtFromRequest validate req now = Throw (UnauthorizedException None).
Proof.
  intros Htok Hver. unfold authGuard. rewrite Htok, Hver.
  destruct (negb (Jwt.tokenTruthy token)); reflexivity.
Qed.

Lemma options_ignoreExpiration (config : Config.AppConfig) (opts : StrategyOptions) :
  JwtStrategy.options config = Ok opts \/ RefreshTokenStrategy.options config = Ok opts ->
  ignoreExpiration opts = false.
Proof.
  unfold JwtStrategy.options, RefreshTokenStrategy.options.
  intros [Hopt|Hopt].
  - destruct (orThrow (Config.secret (Config.jwt config)) _); [| discriminate].
    injection Hopt as <-. reflexivity.
  - destruct (orThrow (Config.refreshSecret (Config.jwt config)) _); [| discriminate].
    injection Hopt as <-. reflexivity.
Qed.

(** C8: a token whose [exp] lies in the past fails verification in the
    access and in the refresh keyspace, whatever its signature, and both
    guards answer Unauthorized; both strategies are built with
    [ignoreExpiration] false. *)
Theorem expired_token_rejected {DB : Type} (usersService : UsersServiceLike DB)
    (hmac : string -> Jwt.Claims -> string) (config : Config.AppConfig)
    (accessOptions refreshOptions : StrategyOptions) (db : DB) (req : Request)
    (c : Jwt.Claims) (signature : string) (e now : Z) :
  JwtStrategy.options config = Ok accessOptions ->
  RefreshTokenStrategy.options config = Ok refreshOptions ->
  Jwt.exp c = Some e -> e < now ->
  ignoreExpiration accessOptions = false /\
  ignoreExpiration refreshOptions = false /\
  (exists err, Jwt.verify hmac (Jwt.Compact c signature) (secretOrKey accessOptions)
                 (ignoreExpiration accessOptions) now = Throw (Error err)) /\
  (exists err, Jwt.verify hmac (Jwt.Compact c signature) (secretOrKey refreshOptions)
                 (ignoreExpiration refreshOptions) now = Throw (Error err)) /\
  (fromAuthHeaderAsBearerToken req = Some (Jwt.Compact c signature) ->
   JwtStrategy.guard usersService hmac accessOptions db req now
   = Throw (UnauthorizedException None)) /\
  (refreshCookie req = Some (Jwt.Compact c signature) ->
   RefreshTokenStrategy.guard usersService hmac refreshOptions db req now
   = Throw (UnauthorizedException None)).
Proof.
  intros Hao Hro Hexp Hpast.
  assert (Ha : ignoreExpiration accessOptions = false)
    by (apply (options_ignoreExpiration config); left; exact Hao).
  assert (Hr : ignoreExpiration refreshOptions = false)
    by (apply (options_ignoreExpiration config); right; exact Hro).
  destruct (verify_expired hmac c signature (secretOrKey accessOptions) e now Hexp Hpast)
    as [ea Hea].
  destruct (verify_expired hmac c signature (secretOrKey refreshOptions) e now Hexp Hpast)
    as [er Her].
  rewrite Ha, Hr.
  split; [reflexivity |]. split; [reflexivity |].
  split; [exists ea; exact Hea |]. split; [exists er; exact Her |].
  split; intros Htok.
  - unfold JwtStrategy.guard.
    apply (authGuard_verify_fails _ _ _ _ _ _ _ (Error ea) Htok). rewrite Ha. exact Hea.
  - unfold RefreshTokenStrategy.guard.
    apply (authGuard_verify_fails _ _ _ _ _ _ _ (Error er) Htok). rewrite Hr. exact Her.
Qed.

Lemma expired_token_rejected_witness :
  JwtStrategy.options Memory.config = Ok Memory.accessOptions /\
  RefreshTokenStrategy.options Memory.config = Ok Memory.refreshOptions /\
  Jwt.exp Memory.annAccess = Some 3700 /\
  3700 < 5000 /\
  JwtStrategy.guard Memory.usersService Memory.mac Memory.accessOptions Memory.withAnn
    Memory.annRequest 5000 = Throw (UnauthorizedException None).
Proof.
  assert (Hao : JwtStrategy.options Memory.config = Ok Memory.accessOptions)
    by (vm_compute; reflexivity).
  assert (Hro : RefreshTokenStrategy.options Memory.config = Ok Memory.refreshOptions)
    by (vm_compute; reflexivity).
  assert (Hexp : Jwt.exp Memory.annAccess = Some 3700) by (vm_compute; reflexivity).
  assert (Hpast : 3700 < 5000) by lia.
  repeat (split; [assumption |]).
  apply (expired_token_rejected Memory.usersService Memory.mac Memory.config
           Memory.accessOptions Memory.refreshOptions Memory.withAnn Memory.annRequest
           Memory.annAccess Memory.accessSecret 3700 5000 Hao Hro Hexp Hpast).
  vm_compute. reflexivity.
Defined.

(** ** Issuance *)

Lemma signUp_ok {DB : Type} (usersService : UsersServiceLike DB)
    (hmac : string -> Jwt.Claims -> string) (config : Config.AppConfig) (db db' : DB)
    (now : Z) (signUpDto : Dto.CreateUserDto) (result : AuthResult) :
  AuthService.signUp usersService hmac config db now signUpDto = (Ok result, db') ->
  exists identity,
    create db signUpDto = (Ok identity, db') /\
    AuthService.generateAuthResponse hmac config now identity = Ok result.
Proof.
  unfold AuthService.signUp.
  destruct (findByEmail db (Dto.email signUpDto)) as [[existing|]|e]; try discriminate.
  destruct (create db signUpDto) as [created db''].
  destruct created as [identity|e]; [| discriminate].
  cbn [mbind Result_bind bind].
  intros Heq. injection Heq as Hgen <-.
  exists identity. split; [reflexivity | exact Hgen].
Qed.

Lemma refreshTokens_ok {DB : Type} (usersService : UsersServiceLike DB)
    (hmac : string -> Jwt.Claims -> string) (config : Config.AppConfig) (db : DB)
    (now : Z) (subject email : string) (result : AuthResult) :
  AuthService.refreshTokens usersService hmac config db now subject email = Ok result ->
  exists identity,
    findById db subject = Ok (Some identity) /\
    AuthService.generateAuthResponse hmac config now identity = Ok result.
Proof.
  unfold AuthService.refreshTokens, tryCatch.
  destruct (findById db subject) as [[identity|]|e]; cbn [mbind Result_bind bind];
    try discriminate.
  destruct (AuthService.generateAuthResponse hmac config now identity) as [r|e] eqn:Hgen;
    [| discriminate].
  intros Heq. injection Heq as <-.
  exists identity. split; [reflexivity | exact Hgen].
Qed.

(** C10: under a configuration accepted at startup, every successful
    sign-up, sign-in and refresh returns the pair issued for one identity
    record (the created user, the authenticated user, the user found for the
    subject): one access token, signed with the access secret and expiring
    after the access lifetime, and one refresh token, signed with the refresh
    secret and expiring after the refresh lifetime, both over the payload
    [{ sub, email }] of that record at the clock of the call.  The issuer
    returns such a pair whenever neither lifetime has more than 100
    characters. *)
Theorem authentication_issues_both_tokens {DB : Type} (usersService : UsersServiceLike DB)
    (hmac : string -> Jwt.Claims -> string) (parseIntOfNumber : string -> option Z)
    (env : Config.Env) (config : Config.AppConfig) (db : DB) (now : Z) :
  Config.forRoot parseIntOfNumber env = Config.Booted config ->
  (forall signUpDto result db',
     AuthService.signUp usersService hmac config db now signUpDto = (Ok result, db') ->
     exists identity,
       create db signUpDto = (Ok identity, db') /\
       issuedFor hmac config identity now result) /\
  (forall identity result,
     AuthService.signIn hmac config now identity = Ok result ->
     issuedFor hmac config identity now result) /\
  (forall subject email result,
     AuthService.refreshTokens usersService hmac config db now subject email = Ok result ->
     exists identity,
       findById db subject = Ok (Some identity) /\
       issuedFor hmac config identity now result) /\
  (forall identity,
     (String.length (Config.expiresIn (Config.jwt config)) <= 100)%nat ->
     (String.length (Config.refreshExpiresIn (Config.jwt config)) <= 100)%nat ->
     exists result,
       AuthService.signIn hmac config now identity = Ok result /\
       issuedFor hmac config identity now result).
Proof.
  intros Hboot.
  destruct (generateAuthResponse_booted hmac _ _ _ Hboot)
    as (ka & kr & _ & _ & _ & _ & Hissued & Hreturns).
  split; [| split; [| split]].
  - intros dto result db' Hup. apply signUp_ok in Hup.
    destruct Hup as (identity & Hcreate & Hgen).
    exists identity. split; [exact Hcreate | exact (Hissued _ _ _ Hgen)].
  - intros identity result. unfold AuthService.signIn. apply Hissued.
  - intros subject email result Hre. apply refreshTokens_ok in Hre.
    destruct Hre as (identity & Hfind & Hgen).
    exists identity. split; [exact Hfind | exact (Hissued _ _ _ Hgen)].
  - intros identity Hla Hlr. unfold AuthService.signIn.
    destruct (proj2 (Hreturns now identity) (conj Hla Hlr)) as [result Hgen].
    exists result. split; [exact Hgen | exact (Hissued _ _ _ Hgen)].
Qed.

Lemma authentication_issues_both_tokens_witness :
  Config.forRoot Memory.noParse Memory.env = Config.Booted Memory.config /\
  (exists result db',
     AuthService.signUp Memory.usersService Memory.mac Memory.config Memory.empty 100
       Memory.annSignUp = (Ok result, db') /\
     exists identity,
       @create _ Memory.usersService Memory.empty Memory.annSignUp = (Ok identity, db') /\
       issuedFor Memory.mac Memory.config identity 100 result) /\
  (exists result,
     AuthService.signIn Memory.mac Memory.config 100 Memory.ann = Ok result /\
     issuedFor Memory.mac Memory.config Memory.ann 100 result) /\
  (exists result,
     AuthService.refreshTokens Memory.usersService Memory.mac Memory.config Memory.withAnn 100
       "507f1f77bcf86cd799439011" "a@b.com" = Ok result /\
     exists identity,
       @findById _ Memory.usersService Memory.withAnn "507f1f77bcf86cd799439011"
         = Ok (Some identity) /\
       issuedFor Memory.mac Memory.config identity 100 result).
Proof.
  assert (Hbooted : Config.forRoot Memory.noParse Memory.env = Config.Booted Memory.config)
    by (vm_compute; reflexivity).
  destruct (authentication_issues_both_tokens Memory.usersService Memory.mac Memory.noParse
              Memory.env Memory.config Memory.empty 100 Hbooted) as (Hup & Hin & _ & _).
  destruct (authentication_issues_both_tokens Memory.usersService Memory.mac Memory.noParse
              Memory.env Memory.config Memory.withAnn 100 Hbooted) as (_ & _ & Hre & _).
  split; [exact Hbooted |].
  split; [| split].
  - destruct (AuthService.signUp Memory.usersService Memory.mac Memory.config Memory.empty 100
                Memory.annSignUp) as [[result|e] db'] eqn:Hrun;
      [| vm_compute in Hrun; discriminate].
    exists result, db'. split; [reflexivity |]. exact (Hup _ _ _ Hrun).
  - destruct (AuthService.signIn Memory.mac Memory.config 100 Memory.ann) as [result|e] eqn:Hrun;
      [| vm_compute in Hrun; discriminate].
    exists result. split; [reflexivity |]. exact (Hin _ _ Hrun).
  - destruct (AuthService.refreshTokens Memory.usersService Memory.mac Memory.config
                Memory.withAnn 100 "507f1f77bcf86cd799439011" "a@b.com") as [result|e] eqn:Hrun;
      [| vm_compute in Hrun; discriminate].
    exists result. split; [reflexivity |]. exact (Hre _ _ _ Hrun).
Defined.

(** ** Users that no longer resolve *)

Lemma verify_ok_truthy (hmac : string -> Jwt.Claims -> string) (token : Jwt.TokenString)
    (key : string) (ignoreExp : bool) (now : Z) (c : Jwt.Claims) :
  Jwt.verify hmac token key ignoreExp now = Ok c -> Jwt.tokenTruthy token = true.
Proof. destruct token; [reflexivity | discriminate]. Qed.

Lemma authGuard_verified (hmac : string -> Jwt.Claims -> string)
    (options : StrategyOptions) (jwtFromRequest : Request -> option Jwt.TokenString)
    (validate : Request -> Jwt.Claims -> Result RequestUser) (req : Request) (now : Z)
    (token : Jwt.TokenString) (c : Jwt.Claims) :
  jwtFromRequest req = Some token ->
  Jwt.verify hmac token (secretOrKey options) (ignoreExpiration options) now = Ok c ->
  authGuard hmac options jwtFromRequest validate req now = validate req c.
Proof.
  intros Htok Hver. unfold authGuard.
  rewrite Htok, (verify_ok_truthy _ _ _ _ _ _ Hver), Hver. reflexivity.
Qed.

(** The access strategy answers Unauthorized when the lookup throws. *)
Lemma JwtStrategy_validate_throws {DB : Type} (usersService : UsersServiceLike DB)
    (db : DB) (c : Jwt.Claims) (e : Exception) :
  findById db (Jwt.sub (Jwt.payload c)) = Throw e ->
  JwtStrategy.validate usersService db c = Throw (UnauthorizedException None).
Proof. intros Hfind. unfold JwtStrategy.validate. rewrite Hfind. reflexivity. Qed.

(** The refresh strategy answers "Invalid refresh token" both when the
    lookup throws and when it resolves null: the exception raised for null is
    raised inside the [try] block and replaced by its [catch]. *)
Lemma RefreshTokenStrategy_validate_unresolved {DB : Type}
    (usersService : UsersServiceLike DB) (db : DB) (req : Request) (c : Jwt.Claims) :
  present (refreshCookie req) = true ->
  findById db (Jwt.sub (Jwt.payload c)) = Ok None \/
    (exists e, findById db (Jwt.sub (Jwt.payload c)) = Throw e) ->
  RefreshTokenStrategy.validate usersService db req c
  = Throw (UnauthorizedException (Some "Invalid refresh token")).
Proof.
  intros Hpresent Hfind. unfold RefreshTokenStrategy.validate. rewrite Hpresent.
  destruct Hfind as [Hfind|[e Hfind]]; rewrite Hfind; reflexivity.
Qed.

Lemma realUsersService_findById_unresolved {DB : Type} `{UserModel DB}
    (bcryptHash : string -> Z -> string) (bcryptCompare : string -> string -> bool)
    (db : DB) (id : string) :
  modelFindById db id = Ok None ->
  @findById _ (realUsersService bcryptHash bcryptCompare) db id
  = Throw (NotFoundException "User not found").
Proof.
  intros Hfind. cbn [findById realUsersService]. unfold UsersService.findById.
  rewrite Hfind. reflexivity.
Qed.

(** C6: when the users collection no longer holds the subject of a token
    whose signature and lifetime are valid, the access guard and the refresh
    guard both fail Unauthorized. *)
Theorem deleted_user_invalidates_tokens {DB : Type} `{UserModel DB}
    (bcryptHash : string -> Z -> string) (bcryptCompare : string -> string -> bool)
    (hmac : string -> Jwt.Claims -> string) (options : StrategyOptions)
    (db : DB) (req : Request) (now : Z) (token : Jwt.TokenString) (c : Jwt.Claims) :
  Jwt.verify hmac token (secretOrKey options) (ignoreExpiration options) now = Ok c ->
  modelFindById db (Jwt.sub (Jwt.payload c)) = Ok None ->
  (fromAuthHeaderAsBearerToken req = Some token ->
   exists e,
     JwtStrategy.guard (realUsersService bcryptHash bcryptCompare) hmac options db req now
       = Throw e /\ isUnauthorized e) /\
  (refreshCookie req = Some token ->
   exists e,
     RefreshTokenStrategy.guard (realUsersService bcryptHash bcryptCompare) hmac options db
       req now = Throw e /\ isUnauthorized e).
Proof.
  intros Hver Hgone.
  pose proof (realUsersService_findById_unresolved bcryptHash bcryptCompare db _ Hgone)
    as Hfind.
  split; intros Htok.
  - exists (UnauthorizedException None). split; [| reflexivity].
    unfold JwtStrategy.guard. rewrite (authGuard_verified _ _ _ _ _ _ _ _ Htok Hver).
    exact (JwtStrategy_validate_throws _ db c _ Hfind).
  - exists (UnauthorizedException (Some "Invalid refresh token")). split; [| reflexivity].
    unfold RefreshTokenStrategy.guard. rewrite (authGuard_verified _ _ _ _ _ _ _ _ Htok Hver).
    apply RefreshTokenStrategy_validate_unresolved.
    + rewrite Htok. exact (verify_ok_truthy _ _ _ _ _ _ Hver).
    + right. eexists. exact Hfind.
Qed.

Lemma deleted_user_invalidates_tokens_witness :
  Jwt.verify Memory.mac (Jwt.Compact Memory.annAccess Memory.accessSecret)
    (secretOrKey Memory.accessOptions) (ignoreExpiration Memory.accessOptions) 200
    = Ok Memory.annAccess /\
  Jwt.verify Memory.mac (Jwt.Compact Memory.annRefresh Memory.otherSecret)
    (secretOrKey Memory.refreshOptions) (ignoreExpiration Memory.refreshOptions) 200
    = Ok Memory.annRefresh /\
  @modelFindById _ Memory.model Memory.empty (Jwt.sub (Jwt.payload Memory.annAccess)) = Ok None /\
  (exists e,
     JwtStrategy.guard Memory.usersService Memory.mac Memory.accessOptions Memory.empty
       Memory.annRequest 200 = Throw e /\ isUnauthorized e) /\
  (exists e,
     RefreshTokenStrategy.guard Memory.usersService Memory.mac Memory.refreshOptions
       Memory.empty Memory.annRequest 200 = Throw e /\ isUnauthorized e).
Proof.
  assert (Ha : Jwt.verify Memory.mac (Jwt.Compact Memory.annAccess Memory.accessSecret)
                 (secretOrKey Memory.accessOptions) (ignoreExpiration Memory.accessOptions) 200
               = Ok Memory.annAccess) by (vm_compute; reflexivity).
  assert (Hr : Jwt.verify Memory.mac (Jwt.Compact Memory.annRefresh Memory.otherSecret)
                 (secretOrKey Memory.refreshOptions) (ignoreExpiration Memory.refreshOptions) 200
               = Ok Memory.annRefresh) by (vm_compute; reflexivity).
  assert (Hgone : @modelFindById _ Memory.model Memory.empty (Jwt.sub (Jwt.payload Memory.annAccess)) = Ok None)
    by (vm_compute; reflexivity).
  split; [exact Ha |]. split; [exact Hr |]. split; [exact Hgone |]. split.
  - apply (proj1 (deleted_user_invalidates_tokens Memory.hash Memory.compare Memory.mac
                    Memory.accessOptions Memory.empty Memory.annRequest 200 _ _ Ha Hgone)).
    vm_compute. reflexivity.
  - apply (proj2 (deleted_user_invalidates_tokens Memory.hash Memory.compare Memory.mac
                    Memory.refreshOptions Memory.empty Memory.annRequest 200 _ _ Hr Hgone)).
    vm_compute. reflexivity.
Defined.

(** ** Rotation *)

(** C2, as amended: when the refresh token verifies but its subject no
    longer resolves (the lookup throws, or resolves null), the refresh call
    fails Unauthorized with the message "Invalid refresh token", at the guard
    and in the service alike, and no cookie is written: no new pair is
    issued. *)
Theorem refresh_fails_for_unresolved_subject {DB : Type}
    (usersService : UsersServiceLike DB) (hmac : string -> Jwt.Claims -> string)
    (config : Config.AppConfig) (options : StrategyOptions) (db : DB) (now : Z)
    (req : Request) (res : Response) (token : Jwt.TokenString) (c : Jwt.Claims) :
  refreshCookie req = Some token ->
  Jwt.verify hmac token (secretOrKey options) (ignoreExpiration options) now = Ok c ->
  findById db (Jwt.sub (Jwt.payload c)) = Ok None \/
    (exists e, findById db (Jwt.sub (Jwt.payload c)) = Throw e) ->
  AuthController.refreshRoute usersService hmac config options db now req res
    = (Throw (UnauthorizedException (Some "Invalid refresh token")), res) /\
  forall email,
    AuthService.refreshTokens usersService hmac config db now (Jwt.sub (Jwt.payload c)) email
    = Throw (UnauthorizedException (Some "Invalid refresh token")).
Proof.
  intros Htok Hver Hfind. split.
  - unfold AuthController.refreshRoute, RefreshTokenStrategy.guard.
    rewrite (authGuard_verified _ _ _ _ _ _ _ _ Htok Hver).
    rewrite RefreshTokenStrategy_validate_unresolved; [reflexivity | | exact Hfind].
    rewrite Htok. exact (verify_ok_truthy _ _ _ _ _ _ Hver).
  - intros email. unfold AuthService.refreshTokens.
    destruct Hfind as [Hfind|[e Hfind]]; rewrite Hfind; reflexivity.
Qed.

Lemma refresh_fails_for_unresolved_subject_witness :
  refreshCookie Memory.annRequest = Some (Jwt.Compact Memory.annRefresh Memory.otherSecret) /\
  Jwt.verify Memory.mac (Jwt.Compact Memory.annRefresh Memory.otherSecret)
    (secretOrKey Memory.refreshOptions) (ignoreExpiration Memory.refreshOptions) 200
    = Ok Memory.annRefresh /\
  (exists e, @findById _ Memory.usersService Memory.empty
               (Jwt.sub (Jwt.payload Memory.annRefresh)) = Throw e) /\
  AuthController.refreshRoute Memory.usersService Memory.mac Memory.config
    Memory.refreshOptions Memory.empty 200 Memory.annRequest []
    = (Throw (UnauthorizedException (Some "Invalid refresh token")), []).
Proof.
  assert (Htok : refreshCookie Memory.annRequest
                 = Some (Jwt.Compact Memory.annRefresh Memory.otherSecret))
    by (vm_compute; reflexivity).
  assert (Hver : Jwt.verify Memory.mac (Jwt.Compact Memory.annRefresh Memory.otherSecret)
                   (secretOrKey Memory.refreshOptions) (ignoreExpiration Memory.refreshOptions)
                   200 = Ok Memory.annRefresh) by (vm_compute; reflexivity).
  assert (Hfind : exists e, @findById _ Memory.usersService Memory.empty
                              (Jwt.sub (Jwt.payload Memory.annRefresh)) = Throw e)
    by (eexists; vm_compute; reflexivity).
  split; [exact Htok |]. split; [exact Hver |]. split; [exact Hfind |].
  apply (refresh_fails_for_unresolved_subject Memory.usersService Memory.mac Memory.config
           Memory.refreshOptions Memory.empty 200 Memory.annRequest [] _ _ Htok Hver).
  right. exact Hfind.
Defined.

(** C2, counterexample: Ann's refresh token still verifies after her record
    is gone; the refresh call then fails with the message "Invalid refresh
    token", not "User not found". *)
Lemma refresh_for_deleted_user_message :
  refreshCookie Memory.annRequest = Some (Jwt.Compact Memory.annRefresh Memory.otherSecret) /\
  Jwt.verify Memory.mac (Jwt.Compact Memory.annRefresh Memory.otherSecret)
    Memory.otherSecret false 200 = Ok Memory.annRefresh /\
  @modelFindById _ Memory.model Memory.empty (Jwt.sub (Jwt.payload Memory.annRefresh)) = Ok None /\
  exists e,
    AuthController.refreshRoute Memory.usersService Memory.mac Memory.config
      Memory.refreshOptions Memory.empty 200 Memory.annRequest [] = (Throw e, []) /\
    getMessage e = "Invalid refresh token" /\
    getMessage e <> "User not found" /\
    getMessage e <> "user not found".
Proof.
  split; [vm_compute; reflexivity |].
  split; [vm_compute; reflexivity |].
  split; [vm_compute; reflexivity |].
  exists (UnauthorizedException (Some "Invalid refresh token")).
  split; [vm_compute; reflexivity |].
  split; [reflexivity |].
  split; discriminate.
Qed.

(** ** The refresh cookie *)

Lemma refreshCookieOptions_attributes (config : Config.AppConfig) :
  cookieAttributesFor (String.eqb (Config.nodeEnv config) "production")
    (AuthController.refreshCookieOptions config).
Proof. repeat split. Qed.

Lemma setRefreshCookie_ok (config : Config.AppConfig) (r : Result AuthResult)
    (res res' : Response) (body : AuthResponseDto) :
  AuthController.setRefreshCookie config r res = (Ok body, res') ->
  exists result,
    r = Ok result /\ body = response result /\
    res' = (res ++ [cookie "refresh_token" (refreshToken result)
                     (AuthController.refreshCookieOptions config)])%list.
Proof.
  unfold AuthController.setRefreshCookie. destruct r as [result|e]; [| discriminate].
  intros Heq. injection Heq as <- <-. exists result. repeat split.
Qed.

(** C3: every successful sign-up, sign-in and refresh appends to the
    response exactly one [refresh_token] cookie holding the refresh token just
    issued, with path "/", a max-age of seven days, and [httpOnly], [secure]
    and [sameSite] read off the environment alone: true, true, "strict" in
    production and false, false, "lax" otherwise. *)
Theorem refresh_cookie_written {DB : Type} (usersService : UsersServiceLike DB)
    (hmac : string -> Jwt.Claims -> string) (config : Config.AppConfig) (db : DB) (now : Z)
    (res : Response) :
  let production := String.eqb (Config.nodeEnv config) "production" in
  (forall signUpDto body db' res',
     AuthController.signUp usersService hmac config db now signUpDto res = (Ok body, db', res') ->
     exists result options,
       AuthService.signUp usersService hmac config db now signUpDto = (Ok result, db') /\
       body = response result /\
       res' = (res ++ [cookie "refresh_token" (refreshToken result) options])%list /\
       cookieAttributesFor production options) /\
  (forall identity body res',
     AuthController.signIn hmac config now identity res = (Ok body, res') ->
     exists result options,
       AuthService.signIn hmac config now identity = Ok result /\
       body = response result /\
       res' = (res ++ [cookie "refresh_token" (refreshToken result) options])%list /\
       cookieAttributesFor production options) /\
  (forall reqUser body res',
     AuthController.refresh usersService hmac config db now reqUser res = (Ok body, res') ->
     exists result options,
       AuthService.refreshTokens usersService hmac config db now
         (userId reqUser) (userEmail reqUser) = Ok result /\
       body = response result /\
       res' = (res ++ [cookie "refresh_token" (refreshToken result) options])%list /\
       cookieAttributesFor production options).
Proof.
  intros production. repeat split.
  - intros dto body db' res'. unfold AuthController.signUp.
    destruct (AuthService.signUp usersService hmac config db now dto) as [r db''].
    destruct (AuthController.setRefreshCookie config r res) as [body' res''] eqn:Hset.
    intros Heq. injection Heq as -> -> ->.
    apply setRefreshCookie_ok in Hset. destruct Hset as (result & -> & -> & ->).
    exists result, (AuthController.refreshCookieOptions config).
    repeat split.
  - intros identity body res'. unfold AuthController.signIn. intros Hset.
    apply setRefreshCookie_ok in Hset. destruct Hset as (result & Hr & -> & ->).
    exists result, (AuthController.refreshCookieOptions config).
    split; [exact Hr |]. repeat split.
  - intros reqUser body res'. unfold AuthController.refresh. intros Hset.
    apply setRefreshCookie_ok in Hset. destruct Hset as (result & Hr & -> & ->).
    exists result, (AuthController.refreshCookieOptions config).
    split; [exact Hr |]. repeat split.
Qed.

Lemma refresh_cookie_written_witness :
  (exists body db' res',
     AuthController.signUp Memory.usersService Memory.mac Memory.config Memory.empty 100
       Memory.annSignUp [] = (Ok body, db', res') /\
     exists result options,
       res' = [cookie "refresh_token" (refreshToken result) options] /\
       cookieAttributesFor false options) /\
  (exists body res',
     AuthController.signIn Memory.mac Memory.production 100 Memory.ann [] = (Ok body, res') /\
     exists result options,
       res' = [cookie "refresh_token" (refreshToken result) options] /\
       cookieAttributesFor true options) /\
  (exists body res',
     AuthController.refresh Memory.usersService Memory.mac Memory.config Memory.withAnn 100
       {| userId := "507f1f77bcf86cd799439011"; userEmail := "a@b.com";
          rawRefreshToken := None |} [] = (Ok body, res') /\
     exists result options,
       res' = [cookie "refresh_token" (refreshToken result) options] /\
       cookieAttributesFor false options).
Proof.
  split; [| split].
  - destruct (AuthController.signUp Memory.usersService Memory.mac Memory.config Memory.empty
                100 Memory.annSignUp []) as [[[body|e] db'] res'] eqn:Hrun;
      [| vm_compute in Hrun; discriminate].
    exists body, db', res'. split; [reflexivity |].
    destruct (refresh_cookie_written Memory.usersService Memory.mac Memory.config
                Memory.empty 100 []) as (Hup & _).
    destruct (Hup _ _ _ _ Hrun) as (result & options & _ & _ & Hres & Hattr).
    exists result, options. split; [exact Hres | exact Hattr].
  - destruct (AuthController.signIn Memory.mac Memory.production 100 Memory.ann [])
      as [[body|e] res'] eqn:Hrun; [| vm_compute in Hrun; discriminate].
    exists body, res'. split; [reflexivity |].
    destruct (refresh_cookie_written Memory.usersService Memory.mac Memory.production
                Memory.empty 100 []) as (_ & Hin & _).
    destruct (Hin _ _ _ Hrun) as (result & options & _ & _ & Hres & Hattr).
    exists result, options. split; [exact Hres | exact Hattr].
  - destruct (AuthController.refresh Memory.usersService Memory.mac Memory.config
                Memory.withAnn 100
                {| userId := "507f1f77bcf86cd799439011"; userEmail := "a@b.com";
                   rawRefreshToken := None |} []) as [[body|e] res'] eqn:Hrun;
      [| vm_compute in Hrun; discriminate].
    exists body, res'. split; [reflexivity |].
    destruct (refresh_cookie_written Memory.usersService Memory.mac Memory.config
                Memory.withAnn 100 []) as (_ & _ & Hre).
    destruct (Hre _ _ _ Hrun) as (result & options & _ & _ & Hres & Hattr).
    exists result, options. split; [exact Hres | exact Hattr].
Defined.

(** The earlier revision of the controller does not follow the table
    outside production: its cookie is [httpOnly] with [sameSite] "strict" in
    every environment. *)
Lemma earlier_revision_cookie_attributes (config : Config.AppConfig) :
  httpOnly (AuthApiController.refreshCookieOptions config) = true /\
  sameSite (AuthApiController.refreshCookieOptions config) = "strict" /\
  secure (AuthApiController.refreshCookieOptions config)
    = String.eqb (Config.nodeEnv config) "production" /\
  maxAge (AuthApiController.refreshCookieOptions config) = Some sevenDays /\
  path (AuthApiController.refreshCookieOptions config) = "/".
Proof. repeat split. Qed.

(** ** Logout *)

Lemma present_false (v : option Jwt.TokenString) :
  present v = false <-> v = None \/ v = Some (Jwt.Opaque "").
Proof.
  destruct v as [[c s|text]|]; simpl.
  - split; [discriminate |]. intros [H|H]; discriminate.
  - destruct text as [|a text']; simpl.
    + split; [right; reflexivity | reflexivity].
    + split; [discriminate |]. intros [H|H]; discriminate.
  - split; [left; reflexivity | reflexivity].
Qed.

(** C4, as amended: logout fails Unauthorized with the message "No refresh
    token found" if and only if the [refresh_token] cookie is absent or its
    value is the empty string; for every other cookie value, whether or not it
    is a token that would verify, logout clears the cookie, with the attributes
    it was written with, and returns success. *)
Theorem logout_requires_nonempty_cookie (config : Config.AppConfig) (req : Request)
    (res : Response) :
  ((refreshCookie req = None \/ refreshCookie req = Some (Jwt.Opaque "")) /\
   AuthController.logout config req res
   = (Throw (HttpException "No refresh token found" UNAUTHORIZED), res))
  \/
  (exists value,
     refreshCookie req = Some value /\ value <> Jwt.Opaque "" /\
     AuthController.logout config req res
     = (Ok "Logged out successfully",
        (res ++ [clearCookie "refresh_token" (AuthController.clearCookieOptions config)])%list) /\
     httpOnly (AuthController.clearCookieOptions config)
       = httpOnly (AuthController.refreshCookieOptions config) /\
     secure (AuthController.clearCookieOptions config)
       = secure (AuthController.refreshCookieOptions config) /\
     sameSite (AuthController.clearCookieOptions config)
       = sameSite (AuthController.refreshCookieOptions config) /\
     path (AuthController.clearCookieOptions config)
       = path (AuthController.refreshCookieOptions config)).
Proof.
  unfold AuthController.logout.
  destruct (present (refreshCookie req)) eqn:Hpresent.
  - right. destruct (refreshCookie req) as [value|] eqn:Hcookie; [| discriminate].
    exists value. split; [reflexivity |]. split.
    + intros ->. discriminate.
    + repeat split.
  - left. split; [| reflexivity]. apply present_false. exact Hpresent.
Qed.

(** C4, counterexample: a request that carries the [refresh_token] cookie
    with an empty value has the cookie present, yet logout fails Unauthorized
    and clears nothing. *)
Lemma logout_rejects_empty_cookie :
  refreshCookie Memory.emptyCookieRequest = Some (Jwt.Opaque "") /\
  AuthController.logout Memory.config Memory.emptyCookieRequest []
  = (Throw (HttpException "No refresh token found" UNAUTHORIZED), []).
Proof. split; vm_compute; reflexivity. Qed.

(** ** Sign-in failures *)



(** ** What leaves the service *)

Lemma userEntityToJSON_keys (e : Entity.UserEntity) :
  (keys (userEntityToJSON e) ⊆ entityKeys) /\ ("password" ∉ keys (userEntityToJSON e)).
Proof.
  destruct e as [id em nm [c|] [u|]]; cbn; split;
    try (intros x Hx; repeat (apply elem_of_cons in Hx; destruct Hx as [->|Hx]);
         [.. | inversion Hx]; unfold entityKeys; set_solver);
    intros Hx; repeat (apply elem_of_cons in Hx; destruct Hx as [Hx|Hx]; [discriminate |]);
    inversion Hx.
Qed.

Lemma toUserEntity_ignores_password (h : string) (u : UserDocument) :
  UsersService.toUserEntity (withPassword h u) = UsersService.toUserEntity u.
Proof. reflexivity. Qed.

Lemma toUserEntity_outwardForm (identity : UserDocument) :
  outwardForm identity (UsersService.toUserEntity identity).
Proof.
  split; [reflexivity |].
  destruct (userEntityToJSON_keys (UsersService.toUserEntity identity)) as [Hsub Hnot].
  split; [exact Hsub |]. split; [exact Hnot |].
  intros h. apply toUserEntity_ignores_password.
Qed.

Lemma generateAuthResponse_user (hmac : string -> Jwt.Claims -> string)
    (config : Config.AppConfig) (now : Z) (identity : UserDocument) (result : AuthResult) :
  AuthService.generateAuthResponse hmac config now identity = Ok result ->
  user (response result) = UsersService.toUserEntity identity.
Proof.
  intros Hgen. apply generateAuthResponse_inv in Hgen.
  destruct Hgen as (ka & kr & ea & er & _ & _ & _ & _ & ->). reflexivity.
Qed.

(** C9: the user that a successful sign-up, sign-in, refresh, profile read
    or profile update returns is the outward form of one stored record: its
    serialisation has no property beyond [_id], [email], [name], [createdAt]
    and [updatedAt], carries no [password] property, and does not depend on
    the stored hash. *)
Theorem responses_omit_password_hash {DB : Type} `{UserModel DB}
    (usersService : UsersServiceLike DB) (hmac : string -> Jwt.Claims -> string)
    (config : Config.AppConfig) (db : DB) (now : Z) (res : Response) :
  (forall signUpDto body db' res',
     AuthController.signUp usersService hmac config db now signUpDto res = (Ok body, db', res') ->
     exists identity,
       create db signUpDto = (Ok identity, db') /\ outwardForm identity (user body)) /\
  (forall identity body res',
     AuthController.signIn hmac config now identity res = (Ok body, res') ->
     outwardForm identity (user body)) /\
  (forall reqUser body res',
     AuthController.refresh usersService hmac config db now reqUser res = (Ok body, res') ->
     exists identity,
       findById db (userId reqUser) = Ok (Some identity) /\
       outwardForm identity (user body)) /\
  (forall subject entity,
     UsersService.getProfile db subject = Ok entity ->
     exists identity,
       modelFindById db subject = Ok (Some identity) /\ outwardForm identity entity) /\
  (forall subject updateUserDto entity db',
     UsersService.updateProfile db subject updateUserDto = (Ok entity, db') ->
     exists identity,
       findByIdAndUpdate db subject updateUserDto = (Ok (Some identity), db') /\
       outwardForm identity entity).
Proof.
  split; [| split; [| split; [| split]]].
  - intros dto body db' res'. unfold AuthController.signUp.
    destruct (AuthService.signUp usersService hmac config db now dto) as [r db''] eqn:Hup.
    destruct (AuthController.setRefreshCookie config r res) as [body' res''] eqn:Hset.
    intros Heq. injection Heq as -> -> ->.
    apply setRefreshCookie_ok in Hset. destruct Hset as (result & -> & -> & _).
    apply signUp_ok in Hup. destruct Hup as (identity & Hcreate & Hgen).
    exists identity. split; [exact Hcreate |].
    rewrite (generateAuthResponse_user _ _ _ _ _ Hgen). apply toUserEntity_outwardForm.
  - intros identity body res'. unfold AuthController.signIn, AuthService.signIn. intros Hset.
    apply setRefreshCookie_ok in Hset. destruct Hset as (result & Hgen & -> & _).
    rewrite (generateAuthResponse_user _ _ _ _ _ Hgen). apply toUserEntity_outwardForm.
  - intros reqUser body res'. unfold AuthController.refresh. intros Hset.
    apply setRefreshCookie_ok in Hset. destruct Hset as (result & Hre & -> & _).
    apply refreshTokens_ok in Hre. destruct Hre as (identity & Hfind & Hgen).
    exists identity. split; [exact Hfind |].
    rewrite (generateAuthResponse_user _ _ _ _ _ Hgen). apply toUserEntity_outwardForm.
  - intros subject entity. unfold UsersService.getProfile, UsersService.findById.
    destruct (modelFindById db subject) as [[identity|]|e]; cbn [mbind Result_bind bind];
      try discriminate.
    intros Heq. injection Heq as <-.
    exists identity. split; [reflexivity | apply toUserEntity_outwardForm].
  - intros subject dto entity db'. unfold UsersService.updateProfile, UsersService.update.
    destruct (findByIdAndUpdate db subject dto) as [[[identity|]|e] db''];
      cbn [mbind Result_bind bind]; try discriminate.
    intros Heq. injection Heq as <- <-.
    exists identity. split; [reflexivity | apply toUserEntity_outwardForm].
Qed.

Lemma responses_omit_password_hash_witness :
  (exists body db' res' identity,
     AuthController.signUp Memory.usersService Memory.mac Memory.config Memory.empty 100
       Memory.annSignUp [] = (Ok body, db', res') /\
     outwardForm identity (user body)) /\
  (exists body res',
     AuthController.signIn Memory.mac Memory.config 100 Memory.ann [] = (Ok body, res') /\
     outwardForm Memory.ann (user body)) /\
  (exists body res' identity,
     AuthController.refresh Memory.usersService Memory.mac Memory.config Memory.withAnn 100
       {| userId := "507f1f77bcf86cd799439011"; userEmail := "a@b.com";
          rawRefreshToken := None |} [] = (Ok body, res') /\
     outwardForm identity (user body)) /\
  (exists entity identity,
     @UsersService.getProfile _ Memory.model Memory.withAnn "507f1f77bcf86cd799439011"
       = Ok entity /\
     outwardForm identity entity) /\
  (exists entity db' identity,
     @UsersService.updateProfile _ Memory.model Memory.withAnn "507f1f77bcf86cd799439011"
       {| Dto.newName := Some "Ann Smith" |} = (Ok entity, db') /\
     outwardForm identity entity).
Proof.
  destruct (@responses_omit_password_hash _ Memory.model Memory.usersService Memory.mac
              Memory.config Memory.empty 100 []) as (Hup & Hin & _).
  destruct (@responses_omit_password_hash _ Memory.model Memory.usersService Memory.mac
              Memory.config Memory.withAnn 100 []) as (_ & _ & Hre & Hget & Hupd).
  split; [| split; [| split; [| split]]].
  - destruct (AuthController.signUp Memory.usersService Memory.mac Memory.config Memory.empty
                100 Memory.annSignUp []) as [[[body|e] db'] res'] eqn:Hrun;
      [| vm_compute in Hrun; discriminate].
    destruct (Hup _ _ _ _ Hrun) as (identity & _ & Hout).
    exists body, db', res', identity. split; [reflexivity | exact Hout].
  - destruct (AuthController.signIn Memory.mac Memory.config 100 Memory.ann [])
      as [[body|e] res'] eqn:Hrun; [| vm_compute in Hrun; discriminate].
    exists body, res'. split; [reflexivity | exact (Hin _ _ _ Hrun)].
  - destruct (AuthController.refresh Memory.usersService Memory.mac Memory.config
                Memory.withAnn 100
                {| userId := "507f1f77bcf86cd799439011"; userEmail := "a@b.com";
                   rawRefreshToken := None |} []) as [[body|e] res'] eqn:Hrun;
      [| vm_compute in Hrun; discriminate].
    destruct (Hre _ _ _ Hrun) as (identity & _ & Hout).
    exists body, res', identity. split; [reflexivity | exact Hout].
  - destruct (@UsersService.getProfile _ Memory.model Memory.withAnn
                "507f1f77bcf86cd799439011") as [entity|e] eqn:Hrun;
      [| vm_compute in Hrun; discriminate].
    destruct (Hget _ _ Hrun) as (identity & _ & Hout).
    exists entity, identity. split; [reflexivity | exact Hout].
  - destruct (@UsersService.updateProfile _ Memory.model Memory.withAnn
                "507f1f77bcf86cd799439011" {| Dto.newName := Some "Ann Smith" |})
      as [[entity|e] db'] eqn:Hrun; [| vm_compute in Hrun; discriminate].
    destruct (Hupd _ _ _ _ Hrun) as (identity & _ & Hout).
    exists entity, db', identity. split; [reflexivity | exact Hout].
Defined.

(** * Further properties of the code *)

(** ** Configuration *)

(** [ms] reads a string of the validator's pattern exactly when it has at
    most 100 characters. *)
Lemma ms_defined_iff (time : string) :
  Config.matchesDuration time = true ->
  (Ms.ms time <> None <-> (String.length time <= 100)%nat).
Proof.
  intros Hm. split.
  - intros Hms. destruct (Nat.le_gt_cases (String.length time) 100) as [Hle|Hgt];
      [exact Hle |].
    exfalso. apply Hms. apply ms_long. exact Hgt.
  - intros Hlen. destruct (ms_pattern time Hm Hlen) as (digits & u & _ & _ & _ & Hms).
    rewrite Hms. discriminate.
Qed.

(** X1: The configuration [configuration()] reads from an environment that
    passed [validate] is well formed although the two functions read the
    variables independently: both secrets have 32 characters or more, both
    lifetimes have the validator's pattern and so denote a whole, non-negative
    number of seconds, and the environment name is one of the four the
    validator knows.  The validator puts no bound on the length of a lifetime,
    while [ms] reads no string of more than 100 characters: [ms] reads a
    lifetime of a booted configuration exactly when it has at most 100
    characters. *)
Theorem booted_configuration_well_formed (parseIntOfNumber : string -> option Z)
    (env : Config.Env) (config : Config.AppConfig) :
  Config.forRoot parseIntOfNumber env = Config.Booted config ->
  secretOk (Config.secret (Config.jwt config)) /\
  secretOk (Config.refreshSecret (Config.jwt config)) /\
  (exists n, 0 <= n /\ wholeSeconds (Config.expiresIn (Config.jwt config)) = Some n) /\
  (exists n, 0 <= n /\ wholeSeconds (Config.refreshExpiresIn (Config.jwt config)) = Some n) /\
  (Ms.ms (Config.expiresIn (Config.jwt config)) <> None
   <-> (String.length (Config.expiresIn (Config.jwt config)) <= 100)%nat) /\
  (Ms.ms (Config.refreshExpiresIn (Config.jwt config)) <> None
   <-> (String.length (Config.refreshExpiresIn (Config.jwt config)) <= 100)%nat) /\
  Config.nodeEnv config ∈ Config.Environment.
Proof.
  intros Hboot.
  destruct (forRoot_booted_secrets _ _ _ Hboot) as (_ & Ha & Hr).
  destruct (forRoot_booted_lifetimes _ _ _ Hboot) as (He & Hre & Henv).
  split; [exact Ha |]. split; [exact Hr |].
  split.
  { destruct (wholeSeconds_total _ He) as [n Hn]. exists n.
    split; [exact (wholeSeconds_nonneg _ _ Hn) | exact Hn]. }
  split.
  { destruct (wholeSeconds_total _ Hre) as [n Hn]. exists n.
    split; [exact (wholeSeconds_nonneg _ _ Hn) | exact Hn]. }
  split; [exact (ms_defined_iff _ He) |].
  split; [exact (ms_defined_iff _ Hre) |].
  unfold Config.isEnum in Henv. apply existsb_exists in Henv.
  destruct Henv as (x & Hin & Heq). apply String.eqb_eq in Heq. subst x.
  apply list_elem_of_In. exact Hin.
Qed.

Lemma booted_configuration_well_formed_witness :
  Config.forRoot Memory.noParse Samples.longLifetimeEnv
    = Config.Booted (Config.configuration Samples.longLifetimeEnv) /\
  Config.nodeEnv (Config.configuration Samples.longLifetimeEnv) ∈ Config.Environment /\
  (Ms.ms (Config.expiresIn (Config.jwt (Config.configuration Samples.longLifetimeEnv)))
     <> None
   <-> (String.length
          (Config.expiresIn (Config.jwt (Config.configuration Samples.longLifetimeEnv)))
        <= 100)%nat) /\
  Ms.ms (Config.expiresIn (Config.jwt (Config.configuration Samples.longLifetimeEnv))) = None.
Proof.
  assert (Hboot : Config.forRoot Memory.noParse Samples.longLifetimeEnv
                  = Config.Booted (Config.configuration Samples.longLifetimeEnv))
    by (vm_compute; reflexivity).
  split; [exact Hboot |].
  destruct (booted_configuration_well_formed Memory.noParse Samples.longLifetimeEnv
              (Config.configuration Samples.longLifetimeEnv) Hboot)
    as (_ & _ & _ & _ & Hms & _ & Henv).
  split; [exact Henv |]. split; [exact Hms |].
  vm_compute. reflexivity.
Defined.

Lemma orElse_unset (v : option string) (d : string) :
  v = None \/ v = Some "" -> orElse v d = d.
Proof. intros [->| ->]; reflexivity. Qed.

Lemma isNotEmpty_isString (v : option string) :
  Config.isNotEmpty v = true -> Config.isString v = true.
Proof. destruct v; [reflexivity | discriminate]. Qed.

Lemma secretOk_isString (v : option string) : secretOk v -> Config.isString v = true.
Proof. intros (s & -> & _). reflexivity. Qed.

(** X2: An environment that sets the database URI and the two secrets, and
    leaves the lifetimes, the environment name and the log level unset or empty
    and the port unset, boots with the defaults: lifetimes "1h" and "7d",
    port 3000, environment "development", log level "info".  An empty variable
    counts as an unset one. *)
Theorem minimal_environment_boots_with_defaults (parseIntOfNumber : string -> option Z)
    (env : Config.Env) :
  Config.isNotEmpty (env !! "MONGODB_URI") = true ->
  secretOk (env !! "JWT_SECRET") ->
  secretOk (env !! "JWT_REFRESH_SECRET") ->
  (forall key, key ∈ ["JWT_EXPIRES_IN"; "JWT_REFRESH_EXPIRES_IN"; "NODE_ENV"; "LOG_LEVEL"] ->
     env !! key = None \/ env !! key = Some "") ->
  env !! "PORT" = None ->
  exists v,
    Config.validate parseIntOfNumber env = Config.Booted v /\
    Config.JWT_EXPIRES_IN v = "1h" /\
    Config.JWT_REFRESH_EXPIRES_IN v = "7d" /\
    Config.PORT v = 3000 /\
    Config.NODE_ENV v = "development" /\
    Config.LOG_LEVEL v = "info" /\
    Config.forRoot parseIntOfNumber env = Config.Booted (Config.configuration env) /\
    Config.expiresIn (Config.jwt (Config.configuration env)) = "1h" /\
    Config.refreshExpiresIn (Config.jwt (Config.configuration env)) = "7d" /\
    Config.nodeEnv (Config.configuration env) = "development".
Proof.
  intros Huri Ha Hr Hunset Hport.
  assert (He : orElse (env !! "JWT_EXPIRES_IN") "1h" = "1h")
    by (apply orElse_unset, Hunset; set_solver).
  assert (Hre : orElse (env !! "JWT_REFRESH_EXPIRES_IN") "7d" = "7d")
    by (apply orElse_unset, Hunset; set_solver).
  assert (Hne : orElse (env !! "NODE_ENV") "development" = "development")
    by (apply orElse_unset, Hunset; set_solver).
  assert (Hll : orElse (env !! "LOG_LEVEL") "info" = "info")
    by (apply orElse_unset, Hunset; set_solver).
  assert (Hsync : Config.validateSync (Config.plainToInstance parseIntOfNumber env) = []).
  { unfold Config.validateSync, Config.plainToInstance.
    cbn [Config.MONGODB_URI Config.JWT_SECRET Config.JWT_EXPIRES_IN Config.JWT_REFRESH_SECRET
         Config.JWT_REFRESH_EXPIRES_IN Config.PORT Config.NODE_ENV Config.LOG_LEVEL].
    rewrite He, Hre, Hne, Hll, Hport, Huri, (isNotEmpty_isString _ Huri),
      (secretOk_isString _ Ha), (secretOk_isString _ Hr),
      (proj2 (minLength_secretOk _) Ha), (proj2 (minLength_secretOk _) Hr).
    reflexivity. }
  assert (Hval : Config.validate parseIntOfNumber env
                 = Config.Booted (Config.plainToInstance parseIntOfNumber env)).
  { unfold Config.validate. rewrite Hsync. reflexivity. }
  exists (Config.plainToInstance parseIntOfNumber env).
  split; [exact Hval |].
  cbn [Config.JWT_EXPIRES_IN Config.JWT_REFRESH_EXPIRES_IN Config.PORT Config.NODE_ENV
       Config.LOG_LEVEL Config.plainToInstance Config.configuration Config.jwt
       Config.expiresIn Config.refreshExpiresIn Config.nodeEnv].
  rewrite He, Hre, Hne, Hll, Hport.
  repeat (split; [reflexivity |]).
  split; [unfold Config.forRoot; rewrite Hval; reflexivity |].
  repeat split.
Qed.

Lemma minimal_environment_boots_with_defaults_witness :
  Config.isNotEmpty (Memory.env !! "MONGODB_URI") = true /\
  secretOk (Memory.env !! "JWT_SECRET") /\
  secretOk (Memory.env !! "JWT_REFRESH_SECRET") /\
  Memory.env !! "PORT" = None /\
  Config.forRoot Memory.noParse Memory.env = Config.Booted (Config.configuration Memory.env) /\
  Config.refreshExpiresIn (Config.jwt (Config.configuration Memory.env)) = "7d".
Proof.
  assert (Huri : Config.isNotEmpty (Memory.env !! "MONGODB_URI") = true)
    by (vm_compute; reflexivity).
  assert (Ha : secretOk (Memory.env !! "JWT_SECRET")).
  { exists Memory.accessSecret. split; [vm_compute; reflexivity | vm_compute; lia]. }
  assert (Hr : secretOk (Memory.env !! "JWT_REFRESH_SECRET")).
  { exists Memory.otherSecret. split; [vm_compute; reflexivity | vm_compute; lia]. }
  assert (Hunset : forall key,
             key ∈ ["JWT_EXPIRES_IN"; "JWT_REFRESH_EXPIRES_IN"; "NODE_ENV"; "LOG_LEVEL"] ->
             Memory.env !! key = None \/ Memory.env !! key = Some "").
  { intros key Hkey. left.
    repeat (apply elem_of_cons in Hkey; destruct Hkey as [->|Hkey];
            [vm_compute; reflexivity |]).
    inversion Hkey. }
  assert (Hport : Memory.env !! "PORT" = None) by (vm_compute; reflexivity).
  repeat (split; [assumption |]).
  destruct (minimal_environment_boots_with_defaults Memory.noParse Memory.env
              Huri Ha Hr Hunset Hport)
    as (v & _ & _ & _ & _ & _ & _ & Hboot & _ & Hre & _).
  split; [exact Hboot | exact Hre].
Defined.

(** ** Tokens and guards *)

(** What it takes for a token to verify when expiry is checked. *)
Lemma verify_ok_iff (hmac : string -> Jwt.Claims -> string) (token : Jwt.TokenString)
    (key : string) (now : Z) (c : Jwt.Claims) :
  Jwt.verify hmac token key false now = Ok c <->
  token = Jwt.Compact c (hmac key c) /\ (forall e, Jwt.exp c = Some e -> now < e).
Proof.
  unfold Jwt.verify. destruct token as [c' signature|text].
  - destruct (String.eqb signature (hmac key c')) eqn:Hsig; cbn [negb].
    + apply String.eqb_eq in Hsig. subst signature.
      destruct (Jwt.exp c') as [e|] eqn:Hexp; cbn [negb andb].
      * destruct (e <=? now) eqn:Hle.
        -- apply Z.leb_le in Hle. split; [discriminate |].
           intros [Heq Hlive]. injection Heq as ->.
           specialize (Hlive e Hexp). lia.
        -- apply Z.leb_gt in Hle. split.
           ++ intros Heq. injection Heq as <-. split; [reflexivity |].
              intros e' He'. rewrite Hexp in He'. injection He' as <-. exact Hle.
           ++ intros [Heq _]. injection Heq as ->. reflexivity.
      * split.
        -- intros Heq. injection Heq as <-. split; [reflexivity |].
           intros e' He'. rewrite Hexp in He'. discriminate.
        -- intros [Heq _]. injection Heq as ->. reflexivity.
    + split; [discriminate |].
      intros [Heq _]. injection Heq as -> ->. rewrite String.eqb_refl in Hsig. discriminate.
  - split; [discriminate |]. intros [Heq _]. discriminate.
Qed.

(** X3: Round trip: under a configuration accepted at startup whose
    lifetimes denote [na] and [nr] whole seconds, in the range where the
    arithmetic of [sign] is exact, the issuer returns, and the access token and
    the refresh token it issues for an identity at [now] verify in their own
    keyspace at every instant before [now + na] and [now + nr], to claims that
    carry the [sub] and [email] of that identity, and fail as expired from that
    second on.  The expiry is never before the issue. *)
Theorem issued_tokens_verify_until_expiry (hmac : string -> Jwt.Claims -> string)
    (parseIntOfNumber : string -> option Z) (env : Config.Env) (config : Config.AppConfig)
    (identity : UserDocument) (now now' na nr : Z) :
  Config.forRoot parseIntOfNumber env = Config.Booted config ->
  exactLifetime (Config.expiresIn (Config.jwt config)) now na ->
  exactLifetime (Config.refreshExpiresIn (Config.jwt config)) now nr ->
  exists result accessOptions refreshOptions,
    AuthService.generateAuthResponse hmac config now identity = Ok result /\
    JwtStrategy.options config = Ok accessOptions /\
    RefreshTokenStrategy.options config = Ok refreshOptions /\
    0 <= na /\ 0 <= nr /\
    Jwt.verify hmac (access_token (response result)) (secretOrKey accessOptions)
      (ignoreExpiration accessOptions) now'
    = (if now + na <=? now' then Throw (Error "jwt expired")
       else Ok (claimsUntil identity now (now + na))) /\
    Jwt.verify hmac (refreshToken result) (secretOrKey refreshOptions)
      (ignoreExpiration refreshOptions) now'
    = (if now + nr <=? now' then Throw (Error "jwt expired")
       else Ok (claimsUntil identity now (now + nr))).
Proof.
  intros Hboot Ha Hr.
  destruct (generateAuthResponse_booted hmac _ _ _ Hboot)
    as (ka & kr & Hka & Hkr & Hao & Hro & Hissued & Hreturns).
  destruct (proj2 (Hreturns now identity)) as [result Hgen].
  { split; [exact (proj1 (proj2 Ha)) | exact (proj1 (proj2 Hr))]. }
  destruct (Hissued now identity result Hgen)
    as (ka' & kr' & ea & er & Hka' & Hkr' & Hea & Her & Hat & Hrt & _).
  rewrite Hka in Hka'. injection Hka' as <-.
  rewrite Hkr in Hkr'. injection Hkr' as <-.
  rewrite (timespan_exact _ _ _ Ha) in Hea. injection Hea as <-.
  rewrite (timespan_exact _ _ _ Hr) in Her. injection Her as <-.
  exists result. eexists _, _.
  split; [exact Hgen |]. split; [exact Hao |]. split; [exact Hro |].
  split; [exact (wholeSeconds_nonneg _ _ (proj1 Ha)) |].
  split; [exact (wholeSeconds_nonneg _ _ (proj1 Hr)) |].
  rewrite Hat, Hrt. cbn [secretOrKey ignoreExpiration].
  unfold Jwt.verify. rewrite !String.eqb_refl.
  cbn [negb andb claimsUntil Jwt.exp].
  split; reflexivity.
Qed.

Lemma issued_tokens_verify_until_expiry_witness :
  Config.forRoot Memory.noParse Memory.env = Config.Booted Memory.config /\
  exactLifetime (Config.expiresIn (Config.jwt Memory.config)) 100 3600 /\
  exactLifetime (Config.refreshExpiresIn (Config.jwt Memory.config)) 100 604800 /\
  exists result accessOptions,
    AuthService.generateAuthResponse Memory.mac Memory.config 100 Memory.ann = Ok result /\
    JwtStrategy.options Memory.config = Ok accessOptions /\
    Jwt.verify Memory.mac (access_token (response result)) (secretOrKey accessOptions)
      (ignoreExpiration accessOptions) 200
    = (if 100 + 3600 <=? 200 then Throw (Error "jwt expired")
       else Ok (claimsUntil Memory.ann 100 (100 + 3600))).
Proof.
  assert (Hboot : Config.forRoot Memory.noParse Memory.env = Config.Booted Memory.config)
    by (vm_compute; reflexivity).
  assert (Hdefaults : exactLifetime "1h" 100 3600 /\ exactLifetime "7d" 100 604800)
    by (apply exactLifetime_defaults; lia).
  destruct Hdefaults as [Ha Hr].
  split; [exact Hboot |]. split; [exact Ha |]. split; [exact Hr |].
  destruct (issued_tokens_verify_until_expiry Memory.mac Memory.noParse Memory.env
              Memory.config Memory.ann 100 200 3600 604800 Hboot Ha Hr)
    as (result & accessOptions & refreshOptions & Hgen & Hao & _ & _ & _ & Hva & _).
  exists result, accessOptions.
  split; [exact Hgen |]. split; [exact Hao | exact Hva].
Defined.

(** X24: Keyspace isolation rests on the signatures alone.  Under a
    configuration accepted at startup, a refresh token the issuer returned
    fails verification in the access keyspace with "invalid signature" exactly
    when its signature under the refresh secret differs from its signature
    under the access secret, and likewise an access token in the refresh
    keyspace; when the two signatures agree, as they do whenever the two
    secrets are equal, the other keyspace answers as the token's own does. *)
Theorem keyspaces_apart_iff_signatures_differ (hmac : string -> Jwt.Claims -> string)
    (parseIntOfNumber : string -> option Z) (env : Config.Env) (config : Config.AppConfig)
    (identity : UserDocument) (now now' : Z) (result : AuthResult) :
  Config.forRoot parseIntOfNumber env = Config.Booted config ->
  AuthService.generateAuthResponse hmac config now identity = Ok result ->
  exists ka kr ca cr,
    JwtStrategy.options config
      = Ok {| ignoreExpiration := false; secretOrKey := ka; passReqToCallback := false |} /\
    RefreshTokenStrategy.options config
      = Ok {| ignoreExpiration := false; secretOrKey := kr; passReqToCallback := true |} /\
    access_token (response result) = Jwt.Compact ca (hmac ka ca) /\
    refreshToken result = Jwt.Compact cr (hmac kr cr) /\
    (Jwt.verify hmac (refreshToken result) ka false now' = Throw (Error "invalid signature")
     <-> hmac kr cr <> hmac ka cr) /\
    (Jwt.verify hmac (access_token (response result)) kr false now'
       = Throw (Error "invalid signature")
     <-> hmac ka ca <> hmac kr ca) /\
    (hmac kr cr = hmac ka cr ->
     Jwt.verify hmac (refreshToken result) ka false now'
     = Jwt.verify hmac (refreshToken result) kr false now') /\
    (hmac ka ca = hmac kr ca ->
     Jwt.verify hmac (access_token (response result)) kr false now'
     = Jwt.verify hmac (access_token (response result)) ka false now') /\
    (ka = kr -> hmac kr cr = hmac ka cr /\ hmac ka ca = hmac kr ca).
Proof.
  intros Hboot Hgen.
  destruct (generateAuthResponse_booted hmac _ _ _ Hboot)
    as (ka & kr & Hka & Hkr & Hao & Hro & Hissued & _).
  destruct (Hissued _ _ _ Hgen)
    as (ka' & kr' & ea & er & Hka' & Hkr' & _ & _ & Hat & Hrt & _).
  rewrite Hka in Hka'. injection Hka' as <-.
  rewrite Hkr in Hkr'. injection Hkr' as <-.
  exists ka, kr, (claimsUntil identity now ea), (claimsUntil identity now er).
  split; [exact Hao |]. split; [exact Hro |].
  split; [exact Hat |]. split; [exact Hrt |].
  rewrite Hat, Hrt. unfold Jwt.verify. rewrite !String.eqb_refl.
  cbn [negb andb claimsUntil Jwt.exp].
  split; [| split; [| split; [| split]]].
  - destruct (String.eqb_spec
                (hmac kr (claimsUntil identity now er)) (hmac ka (claimsUntil identity now er)))
      as [Heq|Hne]; cbn [negb].
    + split; [| intros Hne; contradiction].
      destruct (er <=? now'); discriminate.
    + split; [intros _; exact Hne | reflexivity].
  - destruct (String.eqb_spec
                (hmac ka (claimsUntil identity now ea)) (hmac kr (claimsUntil identity now ea)))
      as [Heq|Hne]; cbn [negb].
    + split; [| intros Hne; contradiction].
      destruct (ea <=? now'); discriminate.
    + split; [intros _; exact Hne | reflexivity].
  - intros Heq. fold (claimsUntil identity now er). rewrite Heq, String.eqb_refl. reflexivity.
  - intros Heq. fold (claimsUntil identity now ea). rewrite Heq, String.eqb_refl. reflexivity.
  - intros ->. split; reflexivity.
Qed.

Lemma keyspaces_apart_iff_signatures_differ_witness :
  Config.forRoot Memory.noParse Memory.env = Config.Booted Memory.config /\
  exists result,
    AuthService.generateAuthResponse Memory.mac Memory.config 100 Memory.ann = Ok result /\
    Jwt.verify Memory.mac (refreshToken result) Memory.accessSecret false 200
    = Throw (Error "invalid signature").
Proof.
  assert (Hboot : Config.forRoot Memory.noParse Memory.env = Config.Booted Memory.config)
    by (vm_compute; reflexivity).
  split; [exact Hboot |].
  destruct (AuthService.generateAuthResponse Memory.mac Memory.config 100 Memory.ann)
    as [result|e] eqn:Hgen; [| vm_compute in Hgen; discriminate].
  exists result. split; [reflexivity |].
  destruct (keyspaces_apart_iff_signatures_differ Memory.mac Memory.noParse Memory.env
              Memory.config Memory.ann 100 200 result Hboot Hgen)
    as (ka & kr & ca & cr & Hao & Hro & _ & _ & Hapart & _).
  assert (Hka : ka = Memory.accessSecret).
  { assert (Hopts : JwtStrategy.options Memory.config = Ok Memory.accessOptions)
      by (vm_compute; reflexivity).
    rewrite Hopts in Hao. injection Hao as <-. reflexivity. }
  assert (Hkr : kr = Memory.otherSecret).
  { assert (Hopts : RefreshTokenStrategy.options Memory.config = Ok Memory.refreshOptions)
      by (vm_compute; reflexivity).
    rewrite Hopts in Hro. injection Hro as <-. reflexivity. }
  subst ka kr. apply Hapart. unfold Memory.mac. vm_compute. discriminate.
Defined.

Lemma authGuard_ok_iff (hmac : string -> Jwt.Claims -> string)
    (options : StrategyOptions) (jwtFromRequest : Request -> option Jwt.TokenString)
    (validate : Request -> Jwt.Claims -> Result RequestUser) (req : Request) (now : Z)
    (u : RequestUser) :
  authGuard hmac options jwtFromRequest validate req now = Ok u <->
  exists token c,
    jwtFromRequest req = Some token /\
    Jwt.verify hmac token (secretOrKey options) (ignoreExpiration options) now = Ok c /\
    validate req c = Ok u.
Proof.
  split.
  - unfold authGuard. destruct (jwtFromRequest req) as [token|]; [| discriminate].
    destruct (negb (Jwt.tokenTruthy token)); [discriminate |].
    destruct (Jwt.verify hmac token (secretOrKey options) (ignoreExpiration options) now)
      as [c|e] eqn:Hver; [| discriminate].
    intros Hval. exists token, c. repeat split; assumption.
  - intros (token & c & Htok & Hver & Hval).
    rewrite (authGuard_verified _ _ _ _ _ _ _ _ Htok Hver). exact Hval.
Qed.

Lemma JwtStrategy_validate_ok_iff {DB : Type} `{UserModel DB}
    (bcryptHash : string -> Z -> string) (bcryptCompare : string -> string -> bool)
    (db : DB) (c : Jwt.Claims) (u : RequestUser) :
  JwtStrategy.validate (realUsersService bcryptHash bcryptCompare) db c = Ok u <->
  (exists doc, modelFindById db (Jwt.sub (Jwt.payload c)) = Ok (Some doc)) /\
  u = {| userId := Jwt.sub (Jwt.payload c); userEmail := Jwt.email (Jwt.payload c);
         rawRefreshToken := None |}.
Proof.
  unfold JwtStrategy.validate, tryCatch.
  cbn [findById realUsersService]. unfold UsersService.findById.
  destruct (modelFindById db (Jwt.sub (Jwt.payload c))) as [[doc|]|e];
    cbn [mbind Result_bind bind].
  - split.
    + intros Heq. injection Heq as <-. split; [exists doc; reflexivity | reflexivity].
    + intros [_ ->]. reflexivity.
  - split; [discriminate |]. intros [[doc Hdoc] _]. discriminate.
  - split; [discriminate |]. intros [[doc Hdoc] _]. discriminate.
Qed.

Lemma RefreshTokenStrategy_validate_ok_iff {DB : Type} (usersService : UsersServiceLike DB)
    (db : DB) (req : Request) (c : Jwt.Claims) (u : RequestUser) :
  RefreshTokenStrategy.validate usersService db req c = Ok u <->
  present (refreshCookie req) = true /\
  (exists doc, findById db (Jwt.sub (Jwt.payload c)) = Ok (Some doc)) /\
  u = {| userId := Jwt.sub (Jwt.payload c); userEmail := Jwt.email (Jwt.payload c);
         rawRefreshToken := refreshCookie req |}.
Proof.
  unfold RefreshTokenStrategy.validate, tryCatch.
  destruct (present (refreshCookie req)); cbn [negb].
  - destruct (findById db (Jwt.sub (Jwt.payload c))) as [[doc|]|e];
      cbn [mbind Result_bind bind].
    + split.
      * intros Heq. injection Heq as <-.
        split; [reflexivity |]. split; [exists doc; reflexivity | reflexivity].
      * intros (_ & _ & ->). reflexivity.
    + split; [discriminate |]. intros (_ & [doc Hdoc] & _). discriminate.
    + split; [discriminate |]. intros (_ & [doc Hdoc] & _). discriminate.
  - split; [discriminate |]. intros (Hp & _). discriminate.
Qed.

(** X4: The access guard lets a request through exactly when its
    [Authorization] header has the scheme "bearer" in any letter case, the
    credentials are a token whose signature is the HMAC of its claims under the
    access secret, the token is not expired, and the users collection holds the
    subject; the identity attached to the request is then the [sub] and [email]
    of the signed claims. *)
Theorem access_guard_accepts_iff {DB : Type} `{UserModel DB}
    (bcryptHash : string -> Z -> string) (bcryptCompare : string -> string -> bool)
    (hmac : string -> Jwt.Claims -> string) (config : Config.AppConfig)
    (opts : StrategyOptions) (db : DB) (req : Request) (now : Z) (u : RequestUser) :
  JwtStrategy.options config = Ok opts ->
  (JwtStrategy.guard (realUsersService bcryptHash bcryptCompare) hmac opts db req now = Ok u
   <->
   exists scheme c doc,
     authorization req = Some (scheme, Jwt.Compact c (hmac (secretOrKey opts) c)) /\
     toLowerCase scheme = "bearer" /\
     (forall e, Jwt.exp c = Some e -> now < e) /\
     modelFindById db (Jwt.sub (Jwt.payload c)) = Ok (Some doc) /\
     u = {| userId := Jwt.sub (Jwt.payload c); userEmail := Jwt.email (Jwt.payload c);
            rawRefreshToken := None |}).
Proof.
  intros Hopts.
  assert (Hie : ignoreExpiration opts = false)
    by (apply (options_ignoreExpiration config); left; exact Hopts).
  unfold JwtStrategy.guard. rewrite authGuard_ok_iff. rewrite Hie. split.
  - intros (token & c & Htok & Hver & Hval).
    apply verify_ok_iff in Hver. destruct Hver as [-> Hlive].
    apply JwtStrategy_validate_ok_iff in Hval. destruct Hval as [[doc Hdoc] ->].
    unfold fromAuthHeaderAsBearerToken in Htok.
    destruct (authorization req) as [[scheme value]|]; [| discriminate].
    destruct (String.eqb (toLowerCase scheme) "bearer") eqn:Hscheme; [| discriminate].
    injection Htok as ->. apply String.eqb_eq in Hscheme.
    exists scheme, c, doc. repeat split; assumption.
  - intros (scheme & c & doc & Hauth & Hscheme & Hlive & Hdoc & ->).
    exists (Jwt.Compact c (hmac (secretOrKey opts) c)), c. split; [| split].
    + unfold fromAuthHeaderAsBearerToken. rewrite Hauth, Hscheme. reflexivity.
    + apply verify_ok_iff. split; [reflexivity | exact Hlive].
    + apply JwtStrategy_validate_ok_iff. split; [exists doc; exact Hdoc | reflexivity].
Qed.

Lemma access_guard_accepts_iff_witness :
  JwtStrategy.options Memory.config = Ok Memory.accessOptions /\
  JwtStrategy.guard Memory.usersService Memory.mac Memory.accessOptions Memory.withAnn
    Memory.annRequest 200
  = Ok {| userId := "507f1f77bcf86cd799439011"; userEmail := "a@b.com";
          rawRefreshToken := None |}.
Proof.
  assert (Hopts : JwtStrategy.options Memory.config = Ok Memory.accessOptions)
    by (vm_compute; reflexivity).
  split; [exact Hopts |].
  apply (@access_guard_accepts_iff _ Memory.model Memory.hash Memory.compare Memory.mac
           Memory.config Memory.accessOptions Memory.withAnn Memory.annRequest 200 _ Hopts).
  exists "Bearer", Memory.annAccess, Memory.ann.
  split; [reflexivity |]. split; [reflexivity |].
  split; [intros e He; vm_compute in He; injection He as <-; lia |].
  split; reflexivity.
Defined.

(** X5: The refresh guard lets a request through exactly when the
    [refresh_token] cookie is a token signed under the refresh secret, not
    expired, whose subject the users service resolves; it then attaches the
    [sub] and [email] of the signed claims and the cookie value itself. *)
Theorem refresh_guard_accepts_iff {DB : Type} (usersService : UsersServiceLike DB)
    (hmac : string -> Jwt.Claims -> string) (config : Config.AppConfig)
    (opts : StrategyOptions) (db : DB) (req : Request) (now : Z) (u : RequestUser) :
  RefreshTokenStrategy.options config = Ok opts ->
  (RefreshTokenStrategy.guard usersService hmac opts db req now = Ok u
   <->
   exists c doc,
     refreshCookie req = Some (Jwt.Compact c (hmac (secretOrKey opts) c)) /\
     (forall e, Jwt.exp c = Some e -> now < e) /\
     findById db (Jwt.sub (Jwt.payload c)) = Ok (Some doc) /\
     u = {| userId := Jwt.sub (Jwt.payload c); userEmail := Jwt.email (Jwt.payload c);
            rawRefreshToken := Some (Jwt.Compact c (hmac (secretOrKey opts) c)) |}).
Proof.
  intros Hopts.
  assert (Hie : ignoreExpiration opts = false)
    by (apply (options_ignoreExpiration config); right; exact Hopts).
  unfold RefreshTokenStrategy.guard. rewrite authGuard_ok_iff. rewrite Hie. split.
  - intros (token & c & Htok & Hver & Hval).
    apply verify_ok_iff in Hver. destruct Hver as [-> Hlive].
    apply RefreshTokenStrategy_validate_ok_iff in Hval.
    destruct Hval as (_ & [doc Hdoc] & ->).
    exists c, doc. rewrite Htok. repeat split; assumption.
  - intros (c & doc & Hcookie & Hlive & Hdoc & ->).
    exists (Jwt.Compact c (hmac (secretOrKey opts) c)), c. split; [exact Hcookie |]. split.
    + apply verify_ok_iff. split; [reflexivity | exact Hlive].
    + apply RefreshTokenStrategy_validate_ok_iff. rewrite Hcookie.
      split; [reflexivity |]. split; [exists doc; exact Hdoc | reflexivity].
Qed.

Lemma refresh_guard_accepts_iff_witness :
  RefreshTokenStrategy.options Memory.config = Ok Memory.refreshOptions /\
  RefreshTokenStrategy.guard Memory.usersService Memory.mac Memory.refreshOptions
    Memory.withAnn Memory.annRequest 200
  = Ok {| userId := "507f1f77bcf86cd799439011"; userEmail := "a@b.com";
          rawRefreshToken := Some (Jwt.Compact Memory.annRefresh Memory.otherSecret) |}.
Proof.
  assert (Hopts : RefreshTokenStrategy.options Memory.config = Ok Memory.refreshOptions)
    by (vm_compute; reflexivity).
  split; [exact Hopts |].
  apply (refresh_guard_accepts_iff Memory.usersService Memory.mac Memory.config
           Memory.refreshOptions Memory.withAnn Memory.annRequest 200 _ Hopts).
  exists Memory.annRefresh, Memory.ann.
  split; [vm_compute; reflexivity |].
  split; [intros e He; vm_compute in He; injection He as <-; lia |].
  split; [vm_compute; reflexivity | reflexivity].
Defined.

Lemma JwtStrategy_guard_outcomes {DB : Type} (usersService : UsersServiceLike DB)
    (hmac : string -> Jwt.Claims -> string) (opts : StrategyOptions) (db : DB)
    (req : Request) (now : Z) :
  (exists u, JwtStrategy.guard usersService hmac opts db req now = Ok u) \/
  JwtStrategy.guard usersService hmac opts db req now = Throw (UnauthorizedException None).
Proof.
  unfold JwtStrategy.guard, authGuard.
  destruct (fromAuthHeaderAsBearerToken req) as [token|]; [| right; reflexivity].
  destruct (negb (Jwt.tokenTruthy token)); [right; reflexivity |].
  destruct (Jwt.verify hmac token (secretOrKey opts) (ignoreExpiration opts) now) as [c|e];
    [| right; reflexivity].
  unfold JwtStrategy.validate, tryCatch.
  destruct (findById db (Jwt.sub (Jwt.payload c))) as [r|e]; cbn [mbind Result_bind bind].
  - left. eexists. reflexivity.
  - right. reflexivity.
Qed.

Lemma RefreshTokenStrategy_guard_outcomes {DB : Type} (usersService : UsersServiceLike DB)
    (hmac : string -> Jwt.Claims -> string) (opts : StrategyOptions) (db : DB)
    (req : Request) (now : Z) :
  (exists u, RefreshTokenStrategy.guard usersService hmac opts db req now = Ok u) \/
  RefreshTokenStrategy.guard usersService hmac opts db req now
    = Throw (UnauthorizedException None) \/
  RefreshTokenStrategy.guard usersService hmac opts db req now
    = Throw (UnauthorizedException (Some "Invalid refresh token")).
Proof.
  unfold RefreshTokenStrategy.guard, authGuard.
  destruct (refreshCookie req) as [token|] eqn:Hcookie; [| right; left; reflexivity].
  destruct (Jwt.tokenTruthy token) eqn:Htruthy; cbn [negb]; [| right; left; reflexivity].
  destruct (Jwt.verify hmac token (secretOrKey opts) (ignoreExpiration opts) now) as [c|e];
    [| right; left; reflexivity].
  unfold RefreshTokenStrategy.validate, tryCatch. rewrite Hcookie.
  cbn [present]. rewrite Htruthy. cbn [negb].
  destruct (findById db (Jwt.sub (Jwt.payload c))) as [[doc|]|e];
    cbn [mbind Result_bind bind].
  - left. eexists. reflexivity.
  - right. right. reflexivity.
  - right. right. reflexivity.
Qed.

(** X6: Whatever the users service does, a guard that does not let the request
    through throws an [UnauthorizedException]: the access guard always the
    bare one, the refresh guard the bare one or "Invalid refresh token".  The
    messages "Refresh token not found" and "User not found" of the refresh
    strategy, and any error of the users service, never leave a guard. *)
Theorem guards_fail_unauthorized {DB : Type} (usersService : UsersServiceLike DB)
    (hmac : string -> Jwt.Claims -> string) (opts : StrategyOptions) (db : DB)
    (req : Request) (now : Z) :
  ((exists u, JwtStrategy.guard usersService hmac opts db req now = Ok u) \/
   JwtStrategy.guard usersService hmac opts db req now = Throw (UnauthorizedException None))
  /\
  ((exists u, RefreshTokenStrategy.guard usersService hmac opts db req now = Ok u) \/
   RefreshTokenStrategy.guard usersService hmac opts db req now
     = Throw (UnauthorizedException None) \/
   RefreshTokenStrategy.guard usersService hmac opts db req now
     = Throw (UnauthorizedException (Some "Invalid refresh token"))).
Proof.
  split.
  - apply JwtStrategy_guard_outcomes.
  - apply RefreshTokenStrategy_guard_outcomes.
Qed.

(** ** Routes *)

(** X7: The refresh route has three outcomes: it returns a body and appends
    the rotated cookie, or it fails with a bare [UnauthorizedException], or
    with "Invalid refresh token".  In both failures nothing is written to the
    response and the exception filter replies with status 401, [success] false
    and the error name "UnauthorizedException"; no error of the users service
    reaches the client in another shape. *)
Theorem refresh_route_outcomes {DB : Type} (usersService : UsersServiceLike DB)
    (hmac : string -> Jwt.Claims -> string) (config : Config.AppConfig)
    (opts : StrategyOptions) (db : DB) (now : Z) (req : Request) (res : Response) :
  (exists result,
     AuthController.refreshRoute usersService hmac config opts db now req res
     = (Ok (response result),
        (res ++ [cookie "refresh_token" (refreshToken result)
                   (AuthController.refreshCookieOptions config)])%list)) \/
  (exists e text,
     AuthController.refreshRoute usersService hmac config opts db now req res = (Throw e, res) /\
     (text = "Unauthorized" \/ text = "Invalid refresh token") /\
     HttpExceptionFilter.catch <$> HttpExceptionFilter.caught e
     = Some (401, {| HttpExceptionFilter.success := false;
                     HttpExceptionFilter.message := text;
                     HttpExceptionFilter.error := "UnauthorizedException" |})).
Proof.
  unfold AuthController.refreshRoute.
  destruct (RefreshTokenStrategy_guard_outcomes usersService hmac opts db req now)
    as [[u Hg]|[Hg|Hg]]; rewrite Hg.
  - unfold AuthController.refresh, AuthService.refreshTokens, tryCatch.
    match goal with
    | |- context [match ?body with Ok _ => _ | Throw _ => _ end] =>
        destruct body as [result|e]
    end.
    + left. exists result. reflexivity.
    + right. eexists _, "Invalid refresh token". split; [reflexivity |].
      split; [right; reflexivity | reflexivity].
  - right. eexists _, "Unauthorized". split; [reflexivity |].
    split; [left; reflexivity | reflexivity].
  - right. eexists _, "Invalid refresh token". split; [reflexivity |].
    split; [right; reflexivity | reflexivity].
Qed.

(** X8: Every handler of the auth controller touches the response only when it
    succeeds, and then with exactly one call: sign-up and sign-in set the
    cookie, logout clears it.  A failed sign-up, sign-in or logout leaves the
    response as it found it. *)
Theorem cookie_calls_only_on_success {DB : Type} (usersService : UsersServiceLike DB)
    (hmac : string -> Jwt.Claims -> string) (config : Config.AppConfig) (db : DB) (now : Z)
    (res : Response) :
  (forall signUpDto,
     match AuthController.signUp usersService hmac config db now signUpDto res with
     | (Ok _, _, res') => exists token options, res' = (res ++ [cookie "refresh_token" token options])%list
     | (Throw _, _, res') => res' = res
     end) /\
  (forall reqUser,
     match AuthController.signIn hmac config now reqUser res with
     | (Ok _, res') => exists token options, res' = (res ++ [cookie "refresh_token" token options])%list
     | (Throw _, res') => res' = res
     end) /\
  (forall req,
     match AuthController.logout config req res with
     | (Ok _, res') => exists options, res' = (res ++ [clearCookie "refresh_token" options])%list
     | (Throw _, res') => res' = res
     end).
Proof.
  split; [| split].
  - intros dto. unfold AuthController.signUp.
    destruct (AuthService.signUp usersService hmac config db now dto) as [[result|e] db'];
      cbn [AuthController.setRefreshCookie].
    + eexists _, _. reflexivity.
    + reflexivity.
  - intros u. unfold AuthController.signIn.
    destruct (AuthService.signIn hmac config now u) as [result|e];
      cbn [AuthController.setRefreshCookie].
    + eexists _, _. reflexivity.
    + reflexivity.
  - intros req. unfold AuthController.logout.
    destruct (negb (present (refreshCookie req))).
    + reflexivity.
    + eexists. reflexivity.
Qed.



(** ** Sign-up and sign-in *)

(** X10: With the users service of the repository, a sign-up whose email, put in
    lower case, is already in the collection fails with the conflict exception
    (status 409) before anything is created: the collection and the response
    are left as they were. *)
Theorem signup_conflict_on_existing_email {DB : Type} `{UserModel DB}
    (bcryptHash : string -> Z -> string) (bcryptCompare : string -> string -> bool)
    (hmac : string -> Jwt.Claims -> string) (config : Config.AppConfig) (db : DB) (now : Z)
    (signUpDto : Dto.CreateUserDto) (res : Response) (existing : UserDocument) :
  findOneByEmail db (toLowerCase (Dto.email signUpDto)) = Ok (Some existing) ->
  AuthController.signUp (realUsersService bcryptHash bcryptCompare) hmac config db now
    signUpDto res
  = (Throw (ConflictException "User with this email already exists"), db, res) /\
  getStatus (ConflictException "User with this email already exists") = Some 409.
Proof.
  intros Hfound. split; [| reflexivity].
  unfold AuthController.signUp, AuthService.signUp.
  cbn [findByEmail realUsersService]. unfold UsersService.findByEmail.
  rewrite Hfound. reflexivity.
Qed.

Lemma signup_conflict_on_existing_email_witness :
  @findOneByEmail _ Memory.model Memory.withAnn (toLowerCase (Dto.email Memory.annSignUp))
    = Ok (Some Memory.ann) /\
  AuthController.signUp Memory.usersService Memory.mac Memory.config Memory.withAnn 200
    Memory.annSignUp []
  = (Throw (ConflictException "User with this email already exists"), Memory.withAnn, []).
Proof.
  assert (Hfound : @findOneByEmail _ Memory.model Memory.withAnn
                     (toLowerCase (Dto.email Memory.annSignUp)) = Ok (Some Memory.ann))
    by (vm_compute; reflexivity).
  split; [exact Hfound |].
  apply (@signup_conflict_on_existing_email _ Memory.model Memory.hash Memory.compare
           Memory.mac Memory.config Memory.withAnn 200 Memory.annSignUp [] Memory.ann Hfound).
Defined.

(** X11: A failure of the store during sign-up is passed on as it is: when the
    email is free but [create] throws (a duplicate key raised by a concurrent
    sign-up, a lost connection), the sign-up throws that same exception, not a
    conflict, and writes no cookie; when the lookup itself throws, nothing is
    created. *)
Theorem signup_passes_store_errors_on {DB : Type} (usersService : UsersServiceLike DB)
    (hmac : string -> Jwt.Claims -> string) (config : Config.AppConfig) (db : DB) (now : Z)
    (signUpDto : Dto.CreateUserDto) (res : Response) :
  (forall e db',
     findByEmail db (Dto.email signUpDto) = Ok None ->
     create db signUpDto = (Throw e, db') ->
     AuthController.signUp usersService hmac config db now signUpDto res
     = (Throw e, db', res)) /\
  (forall e,
     findByEmail db (Dto.email signUpDto) = Throw e ->
     AuthController.signUp usersService hmac config db now signUpDto res
     = (Throw e, db, res)).
Proof.
  split.
  - intros e db' Hfree Hcreate.
    unfold AuthController.signUp, AuthService.signUp. rewrite Hfree, Hcreate. reflexivity.
  - intros e Hlookup.
    unfold AuthController.signUp, AuthService.signUp. rewrite Hlookup. reflexivity.
Qed.

Lemma signup_passes_store_errors_on_witness :
  @findByEmail _ Memory.usersService Samples.exhausted (Dto.email Memory.annSignUp) = Ok None /\
  @create _ Memory.usersService Samples.exhausted Memory.annSignUp
    = (Throw (Error "connection closed"), Samples.exhausted) /\
  AuthController.signUp Memory.usersService Memory.mac Memory.config Samples.exhausted 100
    Memory.annSignUp [] = (Throw (Error "connection closed"), Samples.exhausted, []) /\
  @findByEmail _ Samples.unreachable tt (Dto.email Memory.annSignUp)
    = Throw (Error "connection closed") /\
  AuthController.signUp Samples.unreachable Memory.mac Memory.config tt 100
    Memory.annSignUp [] = (Throw (Error "connection closed"), tt, []).
Proof.
  assert (Hfree : @findByEmail _ Memory.usersService Samples.exhausted
                    (Dto.email Memory.annSignUp) = Ok None) by (vm_compute; reflexivity).
  assert (Hcreate : @create _ Memory.usersService Samples.exhausted Memory.annSignUp
                    = (Throw (Error "connection closed"), Samples.exhausted))
    by (vm_compute; reflexivity).
  assert (Hlookup : @findByEmail _ Samples.unreachable tt (Dto.email Memory.annSignUp)
                    = Throw (Error "connection closed")) by reflexivity.
  split; [exact Hfree |]. split; [exact Hcreate |]. split.
  - apply (proj1 (signup_passes_store_errors_on Memory.usersService Memory.mac Memory.config
                    Samples.exhausted 100 Memory.annSignUp []) _ _ Hfree Hcreate).
  - split; [exact Hlookup |].
    apply (proj2 (signup_passes_store_errors_on Samples.unreachable Memory.mac Memory.config
                    tt 100 Memory.annSignUp []) _ Hlookup).
Defined.

Lemma lowerChar_idempotent (c : ascii) : lowerChar (lowerChar c) = lowerChar c.
Proof. destruct c as [[] [] [] [] [] [] [] []]; reflexivity. Qed.

Lemma toLowerCase_idempotent (s : string) : toLowerCase (toLowerCase s) = toLowerCase s.
Proof.
  induction s as [|c rest IH]; [reflexivity |].
  simpl. rewrite lowerChar_idempotent, IH. reflexivity.
Qed.

(** X12: With the users service of the repository, the credential validator
    returns a user exactly when the collection holds a record under the email
    put in lower case and bcrypt accepts the password against the stored hash;
    the user it returns is that record. *)
Theorem validateUser_returns_user_iff {DB : Type} `{UserModel DB}
    (bcryptHash : string -> Z -> string) (bcryptCompare : string -> string -> bool)
    (db : DB) (email password : string) (u : UserDocument) :
  AuthService.validateUser (realUsersService bcryptHash bcryptCompare) db email password
    = Ok (Some u)
  <->
  findOneByEmail db (toLowerCase email) = Ok (Some u) /\
  bcryptCompare password (Schema.password u) = true.
Proof.
  unfold AuthService.validateUser.
  cbn [findByEmail validatePassword realUsersService].
  unfold UsersService.findByEmail, UsersService.validatePassword.
  destruct (findOneByEmail db (toLowerCase email)) as [[found|]|e];
    cbn [mbind Result_bind bind].
  - destruct (bcryptCompare password (Schema.password found)) eqn:Hcmp.
    + split.
      * intros Heq. injection Heq as <-. split; [reflexivity | exact Hcmp].
      * intros [Heq _]. injection Heq as <-. reflexivity.
    + split; [discriminate |].
      intros [Heq Hok]. injection Heq as <-. rewrite Hcmp in Hok. discriminate.
  - split; [discriminate |]. intros [Heq _]. discriminate.
  - split; [discriminate |]. intros [Heq _]. discriminate.
Qed.

(** X13: The credential validator does not depend on the letter case of the
    email: two emails with the same lower-case form get the same answer, and an
    email gets the answer of its lower-case form. *)
Theorem signin_ignores_email_case {DB : Type} `{UserModel DB}
    (bcryptHash : string -> Z -> string) (bcryptCompare : string -> string -> bool)
    (db : DB) (email1 email2 password : string) :
  toLowerCase email1 = toLowerCase email2 ->
  AuthService.validateUser (realUsersService bcryptHash bcryptCompare) db email1 password
    = AuthService.validateUser (realUsersService bcryptHash bcryptCompare) db email2 password
  /\
  AuthService.validateUser (realUsersService bcryptHash bcryptCompare) db
    (toLowerCase email1) password
    = AuthService.validateUser (realUsersService bcryptHash bcryptCompare) db email2 password.
Proof.
  intros Hcase.
  unfold AuthService.validateUser. cbn [findByEmail realUsersService].
  unfold UsersService.findByEmail. rewrite toLowerCase_idempotent, Hcase.
  split; reflexivity.
Qed.

Lemma signin_ignores_email_case_witness :
  toLowerCase (String (ascii_of_nat 201) "A@B.com")
    = toLowerCase (String (ascii_of_nat 233) "a@b.COM") /\
  AuthService.validateUser Memory.usersService Memory.withAnn
    (String (ascii_of_nat 201) "A@B.com") "Secur3!pass"
  = AuthService.validateUser Memory.usersService Memory.withAnn
      (String (ascii_of_nat 233) "a@b.COM") "Secur3!pass" /\
  AuthService.validateUser Memory.usersService Memory.withAnn "A@B.com" "Secur3!pass"
  = AuthService.validateUser Memory.usersService Memory.withAnn "a@b.COM" "Secur3!pass".
Proof.
  assert (Haccent : toLowerCase (String (ascii_of_nat 201) "A@B.com")
                    = toLowerCase (String (ascii_of_nat 233) "a@b.COM")) by reflexivity.
  assert (Hcase : toLowerCase "A@B.com" = toLowerCase "a@b.COM") by reflexivity.
  split; [exact Haccent |]. split.
  - apply (@signin_ignores_email_case _ Memory.model Memory.hash Memory.compare
             Memory.withAnn _ _ "Secur3!pass" Haccent).
  - apply (@signin_ignores_email_case _ Memory.model Memory.hash Memory.compare
             Memory.withAnn "A@B.com" "a@b.COM" "Secur3!pass" Hcase).
Defined.

(** ** The profile routes *)


(** ** Cookie and token lifetimes *)

(** X15: Under a configuration accepted at startup whose refresh lifetime
    denotes [n] whole seconds, in the range where the arithmetic of [sign] is
    exact, every refresh token the issuer returns at [now] expires at
    [now + n], while the cookie that carries it always gets a max-age of seven
    days, 604800 seconds: the two agree when [JWT_REFRESH_EXPIRES_IN] is unset
    or empty (the default "7d"), and in general only when [n] is 604800. *)
Theorem cookie_max_age_versus_refresh_lifetime (hmac : string -> Jwt.Claims -> string)
    (parseIntOfNumber : string -> option Z) (env : Config.Env) (config : Config.AppConfig)
    (now n : Z) :
  Config.forRoot parseIntOfNumber env = Config.Booted config ->
  exactLifetime (Config.refreshExpiresIn (Config.jwt config)) now n ->
  maxAge (AuthController.refreshCookieOptions config) = Some sevenDays /\
  sevenDays = 1000 * 604800 /\
  (env !! "JWT_REFRESH_EXPIRES_IN" = None \/ env !! "JWT_REFRESH_EXPIRES_IN" = Some "" ->
   n = 604800) /\
  forall identity result,
    AuthService.generateAuthResponse hmac config now identity = Ok result ->
    exists c signature,
      refreshToken result = Jwt.Compact c signature /\
      Jwt.iat c = now /\
      Jwt.exp c = Some (now + n).
Proof.
  intros Hboot Hexact.
  split; [reflexivity |]. split; [reflexivity |]. split.
  - intros Hunset.
    destruct (forRoot_booted_secrets _ _ _ Hboot) as (-> & _ & _).
    destruct Hexact as (Hw & _).
    cbn [Config.configuration Config.jwt Config.refreshExpiresIn] in Hw.
    rewrite (orElse_unset _ _ Hunset) in Hw.
    assert (Hdefault : wholeSeconds "7d" = Some 604800) by reflexivity.
    rewrite Hdefault in Hw. injection Hw as <-. reflexivity.
  - intros identity result Hgen.
    apply generateAuthResponse_inv in Hgen.
    destruct Hgen as (ka & kr & ea & er & _ & _ & _ & Her & ->).
    rewrite (timespan_exact _ _ _ Hexact) in Her. injection Her as <-.
    eexists _, _. cbn [refreshToken]. split; [reflexivity |].
    split; reflexivity.
Qed.

Lemma cookie_max_age_versus_refresh_lifetime_witness :
  Config.forRoot Memory.noParse Memory.env = Config.Booted Memory.config /\
  exactLifetime (Config.refreshExpiresIn (Config.jwt Memory.config)) 100 604800 /\
  forall identity result,
    AuthService.generateAuthResponse Memory.mac Memory.config 100 identity = Ok result ->
    exists c signature,
      refreshToken result = Jwt.Compact c signature /\
      Jwt.iat c = 100 /\
      Jwt.exp c = Some (100 + 604800).
Proof.
  assert (Hboot : Config.forRoot Memory.noParse Memory.env = Config.Booted Memory.config)
    by (vm_compute; reflexivity).
  assert (Hexact : exactLifetime "7d" 100 604800)
    by (apply (exactLifetime_defaults 100); lia).
  split; [exact Hboot |]. split; [exact Hexact |].
  apply (cookie_max_age_versus_refresh_lifetime Memory.mac Memory.noParse Memory.env
           Memory.config 100 604800 Hboot Hexact).
Defined.

(** ** Passwords: the API and the form *)

Lemma firstLine_In (c : ascii) (s : string) :
  In c (SignUpDto.firstLine s) -> In c (list_ascii_of_string s).
Proof.
  induction s as [|a rest IH]; simpl; [tauto |].
  destruct (SignUpDto.isLineTerminator a); simpl; [tauto |].
  intros [->|Hin]; [left; reflexivity | right; exact (IH Hin)].
Qed.

Lemma lookahead_test (class : ascii -> bool) (s : string) :
  SignUpDto.lookahead class s = true -> Validators.test class s = true.
Proof.
  unfold SignUpDto.lookahead, Validators.test. intros Hex.
  apply existsb_exists in Hex. destruct Hex as (c & Hin & Hc).
  apply existsb_exists. exists c. split; [exact (firstLine_In c s Hin) | exact Hc].
Qed.

Lemma api_special_is_form_special (c : ascii) :
  SignUpDto.isSpecial c = true -> Validators.isSpecial c = true.
Proof. destruct c as [[] [] [] [] [] [] [] []]; vm_compute; intros Hs; congruence. Qed.

Lemma test_weaken (class class' : ascii -> bool) (s : string) :
  (forall c, class c = true -> class' c = true) ->
  Validators.test class s = true -> Validators.test class' s = true.
Proof.
  unfold Validators.test. intros Himp Hex.
  apply existsb_exists in Hex. destruct Hex as (c & Hin & Hc).
  apply existsb_exists. exists c. split; [exact Hin | exact (Himp c Hc)].
Qed.

Lemma passwordConstraints_nil (p : string) :
  SignUpDto.passwordConstraints (Some p) = [] <->
  SignUpDto.matchesPassword p = true /\ (8 <= String.length p)%nat.
Proof.
  unfold SignUpDto.passwordConstraints, Config.isNotEmpty, Config.minLength, Config.isString.
  cbn [from_option].
  destruct (SignUpDto.matchesPassword p) eqn:Hm; cbn [Config.constraint].
  - destruct (8 <=? String.length p)%nat eqn:Hlen; cbn [Config.constraint].
    + apply Nat.leb_le in Hlen. destruct p as [|c rest]; [simpl in Hlen; lia |].
      cbn. split; [intros _; split; [reflexivity | exact Hlen] | reflexivity].
    + apply Nat.leb_gt in Hlen. split.
      * intros Hnil. apply app_eq_nil in Hnil. destruct Hnil as [_ Hnil]. discriminate.
      * intros [_ Hlen']. lia.
  - split.
    + intros Hnil. apply app_eq_nil in Hnil. destruct Hnil as [_ Hnil]. discriminate.
    + intros [Hfalse _]. discriminate.
Qed.

Lemma passwordSchema_nil (p : string) :
  Validators.passwordSchema p = [] <->
  (8 <= String.length p)%nat /\
  Validators.test SignUpDto.isLetter p = true /\
  Validators.test Config.isDigit p = true /\
  Validators.test Validators.isSpecial p = true.
Proof.
  unfold Validators.passwordSchema, Validators.PASSWORD_REQUIREMENTS.
  cbn [List.filter snd fst map].
  destruct (Nat.leb_spec 8 (String.length p)) as [Hlen|Hlen];
    destruct (Validators.test SignUpDto.isLetter p);
    destruct (Validators.test Config.isDigit p);
    destruct (Validators.test Validators.isSpecial p);
    cbn [negb List.filter map fst];
    split; try discriminate; try (intros (H8 & Hl & Hd & Hs); discriminate || lia);
    intros _; repeat split; exact Hlen.
Qed.

(** X16: Every password the sign-up body validation of the API accepts also
    passes the four checks of the registration form. *)
Theorem api_password_passes_form (password : string) :
  SignUpDto.passwordConstraints (Some password) = [] ->
  Validators.passwordSchema password = [].
Proof.
  intros Hapi. apply passwordConstraints_nil in Hapi. destruct Hapi as [Hm Hlen].
  unfold SignUpDto.matchesPassword in Hm.
  repeat (apply andb_true_iff in Hm; destruct Hm as [Hm ?]).
  apply passwordSchema_nil. split; [exact Hlen |].
  split; [apply lookahead_test; assumption |].
  split; [apply lookahead_test; assumption |].
  apply (test_weaken SignUpDto.isSpecial); [exact api_special_is_form_special |].
  apply lookahead_test. assumption.
Qed.

Lemma api_password_passes_form_witness :
  SignUpDto.passwordConstraints (Some "SecurePass123!") = [] /\
  Validators.passwordSchema "SecurePass123!" = [].
Proof.
  assert (Hapi : SignUpDto.passwordConstraints (Some "SecurePass123!") = [])
    by (vm_compute; reflexivity).
  split; [exact Hapi | exact (api_password_passes_form "SecurePass123!" Hapi)].
Defined.

(** X17: The converse fails: a password that passes the form but has none
    of the eight special characters of the API's pattern ([@$!%*#?&]) is
    refused by the API: its [matches] constraint fails, whatever the other
    constraints say. *)
Theorem form_password_refused_by_api (password : string) :
  Validators.passwordSchema password = [] ->
  Validators.test SignUpDto.isSpecial password = false ->
  "matches" ∈ SignUpDto.passwordConstraints (Some password).
Proof.
  intros _ Hnone.
  assert (Hm : SignUpDto.matchesPassword password = false).
  { unfold SignUpDto.matchesPassword.
    destruct (SignUpDto.lookahead SignUpDto.isSpecial password) eqn:Hs.
    - apply lookahead_test in Hs. congruence.
    - rewrite !andb_false_r. reflexivity. }
  unfold SignUpDto.passwordConstraints. cbn [from_option]. rewrite Hm.
  cbn [Config.constraint].
  set_solver.
Qed.

Lemma form_password_refused_by_api_witness :
  Validators.passwordSchema "Passw0rd_2025" = [] /\
  Validators.test SignUpDto.isSpecial "Passw0rd_2025" = false /\
  "matches" ∈ SignUpDto.passwordConstraints (Some "Passw0rd_2025").
Proof.
  assert (Hform : Validators.passwordSchema "Passw0rd_2025" = []) by (vm_compute; reflexivity).
  assert (Hnone : Validators.test SignUpDto.isSpecial "Passw0rd_2025" = false)
    by (vm_compute; reflexivity).
  split; [exact Hform |]. split; [exact Hnone |].
  exact (form_password_refused_by_api "Passw0rd_2025" Hform Hnone).
Defined.

(** ** The response interceptor *)

(** X18: The interceptor always produces an object with the keys [success],
    [message] and [data]: either the handler's own result, when that already
    has the three keys (whatever it stores under them), or the result wrapped
    with [success] true.  Applying it a second time, with any message, changes
    nothing. *)
Theorem intercept_idempotent (responseMessage responseMessage' : option string)
    (data : TransformResponseInterceptor.Value) :
  TransformResponseInterceptor.isStandard
    (TransformResponseInterceptor.intercept responseMessage data) = true /\
  TransformResponseInterceptor.intercept responseMessage'
    (TransformResponseInterceptor.intercept responseMessage data)
  = TransformResponseInterceptor.intercept responseMessage data /\
  (TransformResponseInterceptor.intercept responseMessage data = data \/
   TransformResponseInterceptor.intercept responseMessage data
   = TransformResponseInterceptor.VObject
       [("success", TransformResponseInterceptor.VBool true);
        ("message", TransformResponseInterceptor.VString
                      (orElse responseMessage "Operation completed successfully"));
        ("data", data)]).
Proof.
  assert (Hstd : TransformResponseInterceptor.isStandard
                   (TransformResponseInterceptor.intercept responseMessage data) = true).
  { unfold TransformResponseInterceptor.intercept.
    destruct (TransformResponseInterceptor.isStandard data) eqn:Hs; [exact Hs | reflexivity]. }
  split; [exact Hstd |]. split.
  - unfold TransformResponseInterceptor.intercept at 1. rewrite Hstd. reflexivity.
  - unfold TransformResponseInterceptor.intercept.
    destruct (TransformResponseInterceptor.isStandard data); [left | right]; reflexivity.
Qed.

(** ** Operations in sequence *)

Lemma refreshRoute_rotates {DB : Type} (usersService : UsersServiceLike DB)
    (hmac : string -> Jwt.Claims -> string) (config : Config.AppConfig)
    (opts : StrategyOptions) (db : DB) (now : Z) (req : Request) (res : Response)
    (c : Jwt.Claims) (doc : UserDocument) (result : AuthResult) :
  refreshCookie req = Some (Jwt.Compact c (hmac (secretOrKey opts) c)) ->
  Jwt.verify hmac (Jwt.Compact c (hmac (secretOrKey opts) c)) (secretOrKey opts)
    (ignoreExpiration opts) now = Ok c ->
  findById db (Jwt.sub (Jwt.payload c)) = Ok (Some doc) ->
  AuthService.generateAuthResponse hmac config now doc = Ok result ->
  AuthController.refreshRoute usersService hmac config opts db now req res
  = (Ok (response result),
     (res ++ [cookie "refresh_token" (refreshToken result)
                (AuthController.refreshCookieOptions config)])%list).
Proof.
  intros Hcookie Hver Hfind Hgen.
  unfold AuthController.refreshRoute, RefreshTokenStrategy.guard.
  rewrite (authGuard_verified _ _ _ _ _ _ _ _ Hcookie Hver).
  unfold RefreshTokenStrategy.validate. rewrite Hcookie. cbn [present Jwt.tokenTruthy negb].
  rewrite Hfind. cbn [mbind Result_bind bind tryCatch].
  unfold AuthController.refresh, AuthService.refreshTokens. cbn [userId userEmail].
  rewrite Hfind. cbn [mbind Result_bind bind]. rewrite Hgen. reflexivity.
Qed.

(** X19: Logout revokes nothing: under a configuration accepted at startup
    whose lifetimes [ms] reads (neither has more than 100 characters), a
    request whose refresh cookie verifies and whose subject resolves is logged
    out successfully, and the very same cookie, presented to the refresh route
    afterwards while it is still unexpired, rotates into a new pair for the
    stored record. *)
Theorem logged_out_token_still_rotates {DB : Type} (usersService : UsersServiceLike DB)
    (hmac : string -> Jwt.Claims -> string) (parseIntOfNumber : string -> option Z)
    (env : Config.Env) (config : Config.AppConfig) (opts : StrategyOptions) (db : DB)
    (now : Z) (req : Request) (res : Response) (c : Jwt.Claims) (doc : UserDocument) :
  Config.forRoot parseIntOfNumber env = Config.Booted config ->
  (String.length (Config.expiresIn (Config.jwt config)) <= 100)%nat ->
  (String.length (Config.refreshExpiresIn (Config.jwt config)) <= 100)%nat ->
  RefreshTokenStrategy.options config = Ok opts ->
  refreshCookie req = Some (Jwt.Compact c (hmac (secretOrKey opts) c)) ->
  (forall e, Jwt.exp c = Some e -> now < e) ->
  findById db (Jwt.sub (Jwt.payload c)) = Ok (Some doc) ->
  exists res' result,
    AuthController.logout config req res = (Ok "Logged out successfully", res') /\
    AuthController.refreshRoute usersService hmac config opts db now req res'
    = (Ok (response result),
       (res' ++ [cookie "refresh_token" (refreshToken result)
                   (AuthController.refreshCookieOptions config)])%list) /\
    issuedFor hmac config doc now result.
Proof.
  intros Hboot Hla Hlr Hopts Hcookie Hlive Hfind.
  assert (Hie : ignoreExpiration opts = false)
    by (apply (options_ignoreExpiration config); right; exact Hopts).
  destruct (generateAuthResponse_booted hmac _ _ _ Hboot)
    as (ka & kr & _ & _ & _ & _ & Hissued & Hreturns).
  destruct (proj2 (Hreturns now doc) (conj Hla Hlr)) as [result Hgen].
  eexists _, result. split; [| split].
  - unfold AuthController.logout. rewrite Hcookie. reflexivity.
  - apply (refreshRoute_rotates usersService hmac config opts db now req _ c doc);
      [exact Hcookie | | exact Hfind | exact Hgen].
    rewrite Hie. apply verify_ok_iff. split; [reflexivity | exact Hlive].
  - exact (Hissued _ _ _ Hgen).
Qed.

Lemma logged_out_token_still_rotates_witness :
  Config.forRoot Memory.noParse Memory.env = Config.Booted Memory.config /\
  RefreshTokenStrategy.options Memory.config = Ok Memory.refreshOptions /\
  exists res' result,
    AuthController.logout Memory.config Memory.annRequest []
      = (Ok "Logged out successfully", res') /\
    AuthController.refreshRoute Memory.usersService Memory.mac Memory.config
      Memory.refreshOptions Memory.withAnn 200 Memory.annRequest res'
    = (Ok (response result),
       (res' ++ [cookie "refresh_token" (refreshToken result)
                   (AuthController.refreshCookieOptions Memory.config)])%list) /\
    issuedFor Memory.mac Memory.config Memory.ann 200 result.
Proof.
  assert (Hboot : Config.forRoot Memory.noParse Memory.env = Config.Booted Memory.config)
    by (vm_compute; reflexivity).
  assert (Hopts : RefreshTokenStrategy.options Memory.config = Ok Memory.refreshOptions)
    by (vm_compute; reflexivity).
  split; [exact Hboot |]. split; [exact Hopts |].
  apply (logged_out_token_still_rotates Memory.usersService Memory.mac Memory.noParse
           Memory.env Memory.config Memory.refreshOptions Memory.withAnn 200
           Memory.annRequest [] Memory.annRefresh Memory.ann Hboot).
  - vm_compute. lia.
  - vm_compute. lia.
  - exact Hopts.
  - vm_compute. reflexivity.
  - intros e He. vm_compute in He. injection He as <-. lia.
  - vm_compute. reflexivity.
Defined.

Lemma controller_signUp_ok {DB : Type} (usersService : UsersServiceLike DB)
    (hmac : string -> Jwt.Claims -> string) (config : Config.AppConfig) (db db' : DB)
    (now : Z) (signUpDto : Dto.CreateUserDto) (res res' : Response) (body : AuthResponseDto) :
  AuthController.signUp usersService hmac config db now signUpDto res = (Ok body, db', res') ->
  exists identity result,
    create db signUpDto = (Ok identity, db') /\
    AuthService.generateAuthResponse hmac config now identity = Ok result /\
    body = response result /\
    res' = (res ++ [cookie "refresh_token" (refreshToken result)
                      (AuthController.refreshCookieOptions config)])%list.
Proof.
  unfold AuthController.signUp.
  destruct (AuthService.signUp usersService hmac config db now signUpDto) as [r db''] eqn:Hup.
  destruct (AuthController.setRefreshCookie config r res) as [body' res''] eqn:Hset.
  intros Heq. injection Heq as -> -> ->.
  apply setRefreshCookie_ok in Hset. destruct Hset as (result & -> & -> & ->).
  apply signUp_ok in Hup. destruct Hup as (identity & Hcreate & Hgen).
  exists identity, result. repeat split; assumption.
Qed.

(** X20: Sign-up, then the profile: under a configuration accepted at startup,
    when the collection returns by identifier the record it has just saved, the
    access token of a successful sign-up, presented as a bearer token before it
    expires, opens [GET /users/me], which returns the very user the sign-up
    returned. *)
Theorem signup_then_profile {DB : Type} `{UserModel DB}
    (bcryptHash : string -> Z -> string) (bcryptCompare : string -> string -> bool)
    (hmac : string -> Jwt.Claims -> string) (parseIntOfNumber : string -> option Z)
    (env : Config.Env) (config : Config.AppConfig) (opts : StrategyOptions)
    (db db' : DB) (now now' : Z) (signUpDto : Dto.CreateUserDto) (res res' : Response)
    (body : AuthResponseDto) (identity : UserDocument) :
  Config.forRoot parseIntOfNumber env = Config.Booted config ->
  JwtStrategy.options config = Ok opts ->
  AuthController.signUp (realUsersService bcryptHash bcryptCompare) hmac config db now
    signUpDto res = (Ok body, db', res') ->
  UsersService.create bcryptHash db signUpDto = (Ok identity, db') ->
  modelFindById db' (Schema._id identity) = Ok (Some identity) ->
  (forall c signature e,
     access_token body = Jwt.Compact c signature -> Jwt.exp c = Some e -> now' < e) ->
  UsersController.getProfileRoute bcryptHash bcryptCompare hmac opts db'
    {| authorization := Some ("Bearer", access_token body); cookies := None |} now'
  = Ok (user body).
Proof.
  intros Hboot Hopts Hup Hcreate Hstored Hlive.
  apply controller_signUp_ok in Hup.
  destruct Hup as (identity0 & result & Hcreate0 & Hgen & -> & _).
  cbn [create realUsersService] in Hcreate0.
  rewrite Hcreate in Hcreate0. injection Hcreate0 as <-.
  destruct (generateAuthResponse_booted hmac _ _ _ Hboot)
    as (ka & kr & Hka & _ & Hao & _ & Hissued & _).
  destruct (Hissued _ _ _ Hgen)
    as (ka' & kr' & ea & er & Hka' & _ & _ & _ & Hat & _ & Huser).
  rewrite Hka in Hka'. injection Hka' as <-.
  rewrite Hao in Hopts. injection Hopts as <-.
  rewrite Huser. rewrite Hat in Hlive |- *.
  unfold UsersController.getProfileRoute, JwtStrategy.guard.
  rewrite (authGuard_verified _ _ _ _ _ _
             (Jwt.Compact (claimsUntil identity now ea) (hmac ka (claimsUntil identity now ea)))
             (claimsUntil identity now ea)); [| reflexivity |].
  - unfold JwtStrategy.validate. cbn [findById realUsersService].
    unfold UsersService.findById. cbn [claimsUntil Jwt.payload Jwt.sub].
    rewrite Hstored. cbn [mbind Result_bind bind tryCatch].
    unfold UsersController.getProfile, UsersService.getProfile, UsersService.findById.
    cbn [userId]. rewrite Hstored. reflexivity.
  - cbn [secretOrKey ignoreExpiration]. apply verify_ok_iff. split; [reflexivity |].
    intros e He. exact (Hlive _ _ e eq_refl He).
Qed.

Lemma signup_then_profile_witness :
  Config.forRoot Memory.noParse Memory.env = Config.Booted Memory.config /\
  JwtStrategy.options Memory.config = Ok Memory.accessOptions /\
  exists body,
    AuthController.signUp Memory.usersService Memory.mac Memory.config Memory.empty 100
      Memory.annSignUp [] = (Ok body, Memory.withAnn, [cookie "refresh_token"
        (Jwt.Compact Memory.annRefresh Memory.otherSecret)
        (AuthController.refreshCookieOptions Memory.config)]) /\
    @UsersController.getProfileRoute _ Memory.model Memory.hash Memory.compare Memory.mac
      Memory.accessOptions Memory.withAnn
      {| authorization := Some ("Bearer", access_token body); cookies := None |} 200
    = Ok (user body).
Proof.
  assert (Hboot : Config.forRoot Memory.noParse Memory.env = Config.Booted Memory.config)
    by (vm_compute; reflexivity).
  assert (Hopts : JwtStrategy.options Memory.config = Ok Memory.accessOptions)
    by (vm_compute; reflexivity).
  split; [exact Hboot |]. split; [exact Hopts |].
  exists {| user := UsersService.toUserEntity Memory.ann;
            access_token := Jwt.Compact Memory.annAccess Memory.accessSecret |}.
  assert (Hup : AuthController.signUp Memory.usersService Memory.mac Memory.config
                  Memory.empty 100 Memory.annSignUp []
                = (Ok {| user := UsersService.toUserEntity Memory.ann;
                         access_token := Jwt.Compact Memory.annAccess Memory.accessSecret |},
                   Memory.withAnn,
                   [cookie "refresh_token" (Jwt.Compact Memory.annRefresh Memory.otherSecret)
                      (AuthController.refreshCookieOptions Memory.config)]))
    by (vm_compute; reflexivity).
  split; [exact Hup |].
  apply (@signup_then_profile _ Memory.model Memory.hash Memory.compare Memory.mac
           Memory.noParse Memory.env Memory.config Memory.accessOptions Memory.empty
           Memory.withAnn 100 200 Memory.annSignUp [] _ _ Memory.ann Hboot Hopts Hup).
  - vm_compute. reflexivity.
  - vm_compute. reflexivity.
  - intros c signature e Htok He. cbn [access_token] in Htok. injection Htok as <- _.
    vm_compute in He. injection He as <-. lia.
Defined.

(** X21: Sign-up, then sign-in: under a configuration accepted at startup, when
    the collection stores the password it is given and finds the new record
    under its lower-case email, and bcrypt accepts a password against its own
    hash, the credentials of a successful sign-up pass the credential
    validator, and the sign-in that follows returns the same user and sets a
    refresh cookie. *)
Theorem signup_then_signin {DB : Type} `{UserModel DB}
    (bcryptHash : string -> Z -> string) (bcryptCompare : string -> string -> bool)
    (hmac : string -> Jwt.Claims -> string) (parseIntOfNumber : string -> option Z)
    (env : Config.Env) (config : Config.AppConfig)
    (db db' : DB) (now now' : Z) (signUpDto : Dto.CreateUserDto) (res res' : Response)
    (body : AuthResponseDto) (identity : UserDocument) :
  Config.forRoot parseIntOfNumber env = Config.Booted config ->
  AuthController.signUp (realUsersService bcryptHash bcryptCompare) hmac config db now
    signUpDto res = (Ok body, db', res') ->
  UsersService.create bcryptHash db signUpDto = (Ok identity, db') ->
  findOneByEmail db' (toLowerCase (Dto.email signUpDto)) = Ok (Some identity) ->
  Schema.password identity = bcryptHash (Dto.password signUpDto) 10 ->
  bcryptCompare (Dto.password signUpDto) (bcryptHash (Dto.password signUpDto) 10) = true ->
  AuthService.validateUser (realUsersService bcryptHash bcryptCompare) db'
    (Dto.email signUpDto) (Dto.password signUpDto) = Ok (Some identity) /\
  exists body' token,
    AuthController.signIn hmac config now' identity res'
    = (Ok body',
       (res' ++ [cookie "refresh_token" token
                   (AuthController.refreshCookieOptions config)])%list) /\
    user body' = user body.
Proof.
  intros Hboot Hup Hcreate Hfound Hstored Hbcrypt.
  apply controller_signUp_ok in Hup.
  destruct Hup as (identity0 & result & Hcreate0 & Hgen & -> & _).
  cbn [create realUsersService] in Hcreate0.
  rewrite Hcreate in Hcreate0. injection Hcreate0 as <-.
  split.
  - unfold AuthService.validateUser. cbn [findByEmail validatePassword realUsersService].
    unfold UsersService.findByEmail, UsersService.validatePassword.
    rewrite Hfound. cbn [mbind Result_bind bind]. rewrite Hstored, Hbcrypt. reflexivity.
  - destruct (generateAuthResponse_returns hmac config now now' identity identity result Hgen)
      as [result' Hgen'].
    exists (response result'), (refreshToken result').
    unfold AuthController.signIn, AuthService.signIn.
    rewrite Hgen'. cbn [AuthController.setRefreshCookie].
    split; [reflexivity |].
    rewrite (generateAuthResponse_user _ _ _ _ _ Hgen),
      (generateAuthResponse_user _ _ _ _ _ Hgen'). reflexivity.
Qed.

Lemma signup_then_signin_witness :
  Config.forRoot Memory.noParse Memory.env = Config.Booted Memory.config /\
  AuthService.validateUser Memory.usersService Memory.withAnn
    (Dto.email Memory.annSignUp) (Dto.password Memory.annSignUp) = Ok (Some Memory.ann).
Proof.
  assert (Hboot : Config.forRoot Memory.noParse Memory.env = Config.Booted Memory.config)
    by (vm_compute; reflexivity).
  split; [exact Hboot |].
  assert (Hup : AuthController.signUp Memory.usersService Memory.mac Memory.config
                  Memory.empty 100 Memory.annSignUp []
                = (Ok {| user := UsersService.toUserEntity Memory.ann;
                         access_token := Jwt.Compact Memory.annAccess Memory.accessSecret |},
                   Memory.withAnn,
                   [cookie "refresh_token" (Jwt.Compact Memory.annRefresh Memory.otherSecret)
                      (AuthController.refreshCookieOptions Memory.config)]))
    by (vm_compute; reflexivity).
  apply (@signup_then_signin _ Memory.model Memory.hash Memory.compare Memory.mac
           Memory.noParse Memory.env Memory.config Memory.empty Memory.withAnn 100 200
           Memory.annSignUp [] _ _ Memory.ann Hboot Hup);
    vm_compute; reflexivity.
Defined.

(** X22: Sign-up, then refresh: under a configuration accepted at startup, when
    the users service resolves the record it has just created, the refresh
    cookie a successful sign-up sets, sent back before it expires, rotates: the
    refresh route returns the same user and sets a new cookie.  The new refresh
    token differs from the one sent exactly when the clock second has changed
    since the sign-up. *)
Theorem signup_then_refresh {DB : Type} (usersService : UsersServiceLike DB)
    (hmac : string -> Jwt.Claims -> string) (parseIntOfNumber : string -> option Z)
    (env : Config.Env) (config : Config.AppConfig) (opts : StrategyOptions)
    (db db' : DB) (now now' : Z) (signUpDto : Dto.CreateUserDto) (res res' : Response)
    (body : AuthResponseDto) (identity : UserDocument) (token : Jwt.TokenString)
    (options : CookieOptions) (req : Request) :
  Config.forRoot parseIntOfNumber env = Config.Booted config ->
  RefreshTokenStrategy.options config = Ok opts ->
  AuthController.signUp usersService hmac config db now signUpDto res = (Ok body, db', res') ->
  res' = (res ++ [cookie "refresh_token" token options])%list ->
  create db signUpDto = (Ok identity, db') ->
  findById db' (Schema._id identity) = Ok (Some identity) ->
  refreshCookie req = Some token ->
  (forall c signature e, token = Jwt.Compact c signature -> Jwt.exp c = Some e -> now' < e) ->
  exists result,
    AuthController.refreshRoute usersService hmac config opts db' now' req res'
    = (Ok (response result),
       (res' ++ [cookie "refresh_token" (refreshToken result)
                   (AuthController.refreshCookieOptions config)])%list) /\
    user (response result) = user body /\
    (refreshToken result = token <-> now' = now).
Proof.
  intros Hboot Hopts Hup Hres Hcreate Hstored Hcookie Hlive.
  apply controller_signUp_ok in Hup.
  destruct Hup as (identity0 & result0 & Hcreate0 & Hgen & -> & Hres').
  rewrite Hcreate in Hcreate0. injection Hcreate0 as <-.
  rewrite Hres in Hres'. apply app_inj_tail in Hres'. destruct Hres' as [_ Hcall].
  injection Hcall as -> ->.
  destruct (generateAuthResponse_booted hmac _ _ _ Hboot)
    as (ka & kr & _ & Hkr & _ & Hro & Hissued & _).
  rewrite Hro in Hopts. injection Hopts as <-.
  destruct (generateAuthResponse_returns hmac config now now' identity identity result0 Hgen)
    as [result Hgen'].
  destruct (Hissued _ _ _ Hgen)
    as (ka0 & kr0 & ea & er & _ & Hkr0 & _ & _ & _ & Hrt & Huser).
  rewrite Hkr in Hkr0. injection Hkr0 as <-.
  destruct (Hissued _ _ _ Hgen')
    as (ka1 & kr1 & ea' & er' & _ & Hkr1 & _ & _ & _ & Hrt' & Huser').
  rewrite Hkr in Hkr1. injection Hkr1 as <-.
  exists result.
  split; [| split].
  - apply (refreshRoute_rotates usersService hmac config _ db' now' req _
             (claimsUntil identity now er) identity).
    + rewrite Hcookie, Hrt. reflexivity.
    + cbn [secretOrKey ignoreExpiration]. apply verify_ok_iff. split; [reflexivity |].
      intros e He. exact (Hlive _ _ e Hrt He).
    + exact Hstored.
    + exact Hgen'.
  - rewrite Huser, Huser'. reflexivity.
  - split.
    + rewrite Hrt, Hrt'. intros Heq. injection Heq as Hiat _. exact Hiat.
    + intros ->. rewrite Hgen in Hgen'. injection Hgen' as <-. reflexivity.
Qed.

Lemma signup_then_refresh_witness :
  Config.forRoot Memory.noParse Memory.env = Config.Booted Memory.config /\
  RefreshTokenStrategy.options Memory.config = Ok Memory.refreshOptions /\
  exists result,
    AuthController.refreshRoute Memory.usersService Memory.mac Memory.config
      Memory.refreshOptions Memory.withAnn 200 Memory.annRequest
      [cookie "refresh_token" (Jwt.Compact Memory.annRefresh Memory.otherSecret)
         (AuthController.refreshCookieOptions Memory.config)]
    = (Ok (response result),
       [cookie "refresh_token" (Jwt.Compact Memory.annRefresh Memory.otherSecret)
          (AuthController.refreshCookieOptions Memory.config);
        cookie "refresh_token" (refreshToken result)
          (AuthController.refreshCookieOptions Memory.config)]) /\
    refreshToken result <> Jwt.Compact Memory.annRefresh Memory.otherSecret.
Proof.
  assert (Hboot : Config.forRoot Memory.noParse Memory.env = Config.Booted Memory.config)
    by (vm_compute; reflexivity).
  assert (Hopts : RefreshTokenStrategy.options Memory.config = Ok Memory.refreshOptions)
    by (vm_compute; reflexivity).
  split; [exact Hboot |]. split; [exact Hopts |].
  assert (Hup : AuthController.signUp Memory.usersService Memory.mac Memory.config
                  Memory.empty 100 Memory.annSignUp []
                = (Ok {| user := UsersService.toUserEntity Memory.ann;
                         access_token := Jwt.Compact Memory.annAccess Memory.accessSecret |},
                   Memory.withAnn,
                   [cookie "refresh_token" (Jwt.Compact Memory.annRefresh Memory.otherSecret)
                      (AuthController.refreshCookieOptions Memory.config)]))
    by (vm_compute; reflexivity).
  destruct (signup_then_refresh Memory.usersService Memory.mac Memory.noParse Memory.env
              Memory.config Memory.refreshOptions Memory.empty Memory.withAnn 100 200
              Memory.annSignUp [] _ _ Memory.ann
              (Jwt.Compact Memory.annRefresh Memory.otherSecret)
              (AuthController.refreshCookieOptions Memory.config) Memory.annRequest
              Hboot Hopts Hup) as (result & Hroute & _ & Hfresh).
  - reflexivity.
  - vm_compute. reflexivity.
  - vm_compute. reflexivity.
  - vm_compute. reflexivity.
  - intros c signature e Htok He. injection Htok as <- _.
    vm_compute in He. injection He as <-. lia.
  - exists result. split; [exact Hroute |].
    intros Heq. apply Hfresh in Heq. lia.
Defined.

Lemma validateUser_returns_user_iff_witness :
  @findOneByEmail _ Memory.model Memory.withAnn (toLowerCase "A@B.com") = Ok (Some Memory.ann) /\
  Memory.compare "Secur3!pass" (Schema.password Memory.ann) = true /\
  AuthService.validateUser Memory.usersService Memory.withAnn "A@B.com" "Secur3!pass"
    = Ok (Some Memory.ann).
Proof.
  assert (Hfound : @findOneByEmail _ Memory.model Memory.withAnn (toLowerCase "A@B.com")
                   = Ok (Some Memory.ann)) by (vm_compute; reflexivity).
  assert (Hcmp : Memory.compare "Secur3!pass" (Schema.password Memory.ann) = true)
    by (vm_compute; reflexivity).
  split; [exact Hfound |]. split; [exact Hcmp |].
  apply (@validateUser_returns_user_iff _ Memory.model Memory.hash Memory.compare
           Memory.withAnn "A@B.com" "Secur3!pass" Memory.ann).
  split; [exact Hfound | exact Hcmp].
Defined.
